(** * Coaching platform (mobile client): session identity, session
  lifecycle, role gate, join window and reminder scheduling.

  A shallow embedding of the mobile client's stream context
  (contexts/StreamContext.tsx), navigator (navigation/AppNavigator.tsx),
  coach/student context (contexts/CoachStudentContext.tsx), home screen
  (screens/HomeScreen.tsx), video tab (screens/VideoCallTabScreen.tsx) and
  notification service (lib/notifications.ts).

  Conventions.
  - React state cells are fields of a record; a setter is a record update.
  - An [async] function that can throw is a computation in the monad [M]
    below: it threads the context state, the state of the external
    communications platform and the log of SDK calls, and returns either a
    value or the thrown exception.
  - The communications SDK and the helpers of lib/stream are an interface
    (type class [StreamLib]); the code is modelled against any
    implementation of it.
  - JavaScript numbers that hold timestamps are integers or NaN. *)

From Stdlib Require Import ZArith String Ascii List Bool Lia.
From stdpp Require Import base option gmap strings list.
Import ListNotations.

Local Open Scope string_scope.
Local Open Scope list_scope.
Local Open Scope Z_scope.

(* ===================================================================== *)
(** ** JavaScript numbers as used for timestamps *)
(* ===================================================================== *)

Module JS.

(** [Date.prototype.getTime] returns an integral number of milliseconds,
    or NaN for an invalid date. Every number the modelled code computes
    from such values is again an integer or NaN. *)
Inductive num : Type :=
| NaN : num
| Num : Z -> num.

(** [a - b] *)
Definition sub (a b : num) : num :=
  match a, b with
  | Num x, Num y => Num (x - y)
  | _, _ => NaN
  end.

(** [Math.floor(a / d)] for a positive integer constant [d]. On integers
    the quotient rounded towards minus infinity is [Z.div]. *)
Definition floor_div (a : num) (d : Z) : num :=
  match a with
  | Num x => Num (x / d)
  | NaN => NaN
  end.

(** Comparisons: every comparison with NaN is false. *)
Definition gt (a b : num) : bool :=
  match a, b with Num x, Num y => y <? x | _, _ => false end.
Definition lt (a b : num) : bool :=
  match a, b with Num x, Num y => x <? y | _, _ => false end.
Definition ge (a b : num) : bool :=
  match a, b with Num x, Num y => y <=? x | _, _ => false end.
Definition le (a b : num) : bool :=
  match a, b with Num x, Num y => x <=? y | _, _ => false end.

End JS.

(* ===================================================================== *)
(** ** Identity deriver *)
(* ===================================================================== *)

Module Identity.

Inductive DeriveError : Type :=
| InvalidIdentifier.

(** The smaller and the larger of two identifiers in lexicographic byte
    order. *)
Definition min_id (a b : string) : string :=
  if String.leb a b then a else b.
Definition max_id (a b : string) : string :=
  if String.leb a b then b else a.

Definition is_empty (s : string) : bool :=
  match s with EmptyString => true | String _ _ => false end.

(** Modelled from the spec: [createVideoCallId] of lib/stream (the
    spec's [derive]) is imported by the stream context but its file is
    not part of the sources. Following section 4.1: the two identifiers
    must be non-empty and satisfy the platform's character-set constraint
    (here the predicate [id_ok], which the spec leaves to the platform),
    otherwise the derivation signals [InvalidIdentifier]; the result is
    the sorted pair joined by a colon,
    [min(idA,idB) + ":" + max(idA,idB)]. *)
Definition createVideoCallId (id_ok : string -> bool) (idA idB : string)
  : DeriveError + string :=
  if is_empty idA || is_empty idB then inl InvalidIdentifier
  else if negb (id_ok idA) || negb (id_ok idB) then inl InvalidIdentifier
  else inr (min_id idA idB ++ ":" ++ max_id idA idB)%string.

End Identity.


(* ===================================================================== *)
(** ** Stream context (contexts/StreamContext.tsx) *)
(* ===================================================================== *)

Module Stream.

(** *** Data *)

(** The authenticated user as delivered by the auth context. *)
Record User : Type := mkUser {
  user_id : string;
  user_email : option string
}.

(** A row of [user_profiles]. The role is a string at run time; the type
    [UserRole] names 'admin', 'coach' and 'student'. *)
Record UserProfile : Type := mkProfile {
  profile_id : string;
  full_name : string;
  profile_email : string;
  role : string
}.

(** What [useAuth] provides. *)
Record Auth : Type := mkAuth {
  isAuthenticated : bool;
  user : option User;
  userProfile : option UserProfile
}.

Record StreamUser : Type := mkStreamUser {
  su_id : string;
  su_name : string
}.

Record VideoClient : Type := mkVideoClient {
  vc_user : StreamUser;
  vc_token : string
}.

Record ChatClient : Type := mkChatClient {
  cc_user : StreamUser;
  cc_token : string
}.

Record Channel : Type := mkChannel {
  channel_id : string
}.

(** A call handle: either the SDK object made by
    [videoClient.call(type, id)], or the mock object of demo mode
    [{ id: 'demo-call', join, leave }]. *)
Inductive Call : Type :=
| SdkCall (call_type call_id : string)
| MockCall.

Definition call_handle_id (c : Call) : string :=
  match c with
  | SdkCall _ cid => cid
  | MockCall => "demo-call"
  end.

(** Rejections of the platform (section 4.2 of the spec). *)
Inductive SdkError : Type :=
| AuthenticationFailed
| NetworkUnavailable
| SessionCreateFailed.

(** Values a JavaScript function of the context can throw. *)
Inductive Exn : Type :=
| Error (msg : string)
| PlatformError (e : SdkError)
| InvalidIdentifierError
| TypeError.

(** Operations the code invokes on the SDK, in the order it invokes them. *)
Inductive SdkOp : Type :=
| OpGenerateToken (uid : string)
| OpCreateVideoClient (uid : string)
| OpCreateChatClient (uid : string)
| OpDisconnectVideoUser
| OpDisconnectChatUser
| OpGetOrCreate (call_id : string) (members : list string)
| OpJoin (c : Call)
| OpLeave (c : Call)
| OpCreateChatChannel (self partner : string).

(** The React state cells of [StreamProvider]. *)
Record StreamState : Type := mkStreamState {
  videoClient : option VideoClient;
  videoCall : option Call;
  videoLoading : bool;
  videoError : option string;
  chatClient : option ChatClient;
  chatChannel : option Channel;
  chatLoading : bool;
  chatError : option string;
  isStreamReady : bool
}.

(** [useState] initial values. *)
Definition initialStreamState : StreamState :=
  {| videoClient := None; videoCall := None; videoLoading := false;
     videoError := None; chatClient := None; chatChannel := None;
     chatLoading := false; chatError := None; isStreamReady := false |}.

(** *** The SDK and lib/stream as an interface *)

(** [P] is the state of the external communications platform. The
    asynchronous operations may be rejected by the platform; the
    synchronous constructors cannot. [id_ok] is the platform's
    character-set constraint on identifiers. *)
Class StreamLib (P : Type) : Type := {
  id_ok : string -> bool;
  formatStreamUser : string -> string -> string -> StreamUser;
  generateUserToken : string -> P -> (SdkError + string) * P;
  createStreamChatClient : StreamUser -> string -> P -> option SdkError * P;
  disconnectVideoUser : VideoClient -> P -> P;
  disconnectChatUser : ChatClient -> P -> P;
  call_getOrCreate : string -> list string -> P -> option SdkError * P;
  call_join : string -> P -> option SdkError * P;
  call_leave : string -> P -> option SdkError * P;
  createChatChannel :
    ChatClient -> string -> string -> string -> string -> P -> (SdkError + Channel) * P
}.

(** *** The monad of the context functions *)

Record World (P : Type) : Type := mkWorld {
  ctx : StreamState;
  platform : P;
  log : list SdkOp
}.
Arguments mkWorld {P} _ _ _.
Arguments ctx {P} _.
Arguments platform {P} _.
Arguments log {P} _.

Inductive Result (A : Type) : Type :=
| Ok (a : A)
| Throw (e : Exn).
Arguments Ok {A} _.
Arguments Throw {A} _.

Definition M (P A : Type) : Type := World P -> Result A * World P.

Definition ret {P A} (a : A) : M P A := fun w => (Ok a, w).

Definition bind {P A B} (m : M P A) (k : A -> M P B) : M P B :=
  fun w =>
    match m w with
    | (Ok a, w') => k a w'
    | (Throw e, w') => (Throw e, w')
    end.

Definition throw {P A} (e : Exn) : M P A := fun w => (Throw e, w).

(** [try { m } catch (e) { h e }] *)
Definition try_catch {P A} (m : M P A) (h : Exn -> M P A) : M P A :=
  fun w =>
    match m w with
    | (Ok a, w') => (Ok a, w')
    | (Throw e, w') => h e w'
    end.

(** [try { m } finally { f }] *)
Definition try_finally {P A} (m : M P A) (f : M P unit) : M P A :=
  fun w =>
    match m w with
    | (r, w') =>
        match f w' with
        | (Ok _, w'') => (r, w'')
        | (Throw e, w'') => (Throw e, w'')
        end
    end.

Notation "'do' x <- c ;; k" := (bind c (fun x => k))
  (at level 10, x name, c at level 99, k at level 200).
Notation "'run' c ;; k" := (bind c (fun _ => k))
  (at level 10, c at level 99, k at level 200).

Definition modify_ctx {P} (f : StreamState -> StreamState) : M P unit :=
  fun w => (Ok tt, mkWorld (f (ctx w)) (platform w) (log w)).

Definition get_ctx {P} : M P StreamState := fun w => (Ok (ctx w), w).

(** Record an SDK invocation. *)
Definition emit {P} (op : SdkOp) : M P unit :=
  fun w => (Ok tt, mkWorld (ctx w) (platform w) (log w ++ [op])%list).

(** Run an asynchronous platform operation that yields no value. *)
Definition await_unit {P} (f : P -> option SdkError * P) : M P unit :=
  fun w =>
    match f (platform w) with
    | (None, p') => (Ok tt, mkWorld (ctx w) p' (log w))
    | (Some e, p') => (Throw (PlatformError e), mkWorld (ctx w) p' (log w))
    end.

(** Run an asynchronous platform operation that yields a value. *)
Definition await_val {P A} (f : P -> (SdkError + A) * P) : M P A :=
  fun w =>
    match f (platform w) with
    | (inr a, p') => (Ok a, mkWorld (ctx w) p' (log w))
    | (inl e, p') => (Throw (PlatformError e), mkWorld (ctx w) p' (log w))
    end.

(** Run a synchronous platform operation. *)
Definition sync {P} (f : P -> P) : M P unit :=
  fun w => (Ok tt, mkWorld (ctx w) (f (platform w)) (log w)).

(** *** State setters *)

Definition setVideoClient {P} (v : option VideoClient) : M P unit :=
  modify_ctx (fun s =>
    {| videoClient := v; videoCall := videoCall s;
       videoLoading := videoLoading s; videoError := videoError s;
       chatClient := chatClient s; chatChannel := chatChannel s;
       chatLoading := chatLoading s; chatError := chatError s;
       isStreamReady := isStreamReady s |}).

Definition setVideoCall {P} (v : option Call) : M P unit :=
  modify_ctx (fun s =>
    {| videoClient := videoClient s; videoCall := v;
       videoLoading := videoLoading s; videoError := videoError s;
       chatClient := chatClient s; chatChannel := chatChannel s;
       chatLoading := chatLoading s; chatError := chatError s;
       isStreamReady := isStreamReady s |}).

Definition setVideoLoading {P} (v : bool) : M P unit :=
  modify_ctx (fun s =>
    {| videoClient := videoClient s; videoCall := videoCall s;
       videoLoading := v; videoError := videoError s;
       chatClient := chatClient s; chatChannel := chatChannel s;
       chatLoading := chatLoading s; chatError := chatError s;
       isStreamReady := isStreamReady s |}).

Definition setVideoError {P} (v : option string) : M P unit :=
  modify_ctx (fun s =>
    {| videoClient := videoClient s; videoCall := videoCall s;
       videoLoading := videoLoading s; videoError := v;
       chatClient := chatClient s; chatChannel := chatChannel s;
       chatLoading := chatLoading s; chatError := chatError s;
       isStreamReady := isStreamReady s |}).

Definition setChatClient {P} (v : option ChatClient) : M P unit :=
  modify_ctx (fun s =>
    {| videoClient := videoClient s; videoCall := videoCall s;
       videoLoading := videoLoading s; videoError := videoError s;
       chatClient := v; chatChannel := chatChannel s;
       chatLoading := chatLoading s; chatError := chatError s;
       isStreamReady := isStreamReady s |}).

Definition setChatChannel {P} (v : option Channel) : M P unit :=
  modify_ctx (fun s =>
    {| videoClient := videoClient s; videoCall := videoCall s;
       videoLoading := videoLoading s; videoError := videoError s;
       chatClient := chatClient s; chatChannel := v;
       chatLoading := chatLoading s; chatError := chatError s;
       isStreamReady := isStreamReady s |}).

Definition setChatLoading {P} (v : bool) : M P unit :=
  modify_ctx (fun s =>
    {| videoClient := videoClient s; videoCall := videoCall s;
       videoLoading := videoLoading s; videoError := videoError s;
       chatClient := chatClient s; chatChannel := chatChannel s;
       chatLoading := v; chatError := chatError s;
       isStreamReady := isStreamReady s |}).

Definition setChatError {P} (v : option string) : M P unit :=
  modify_ctx (fun s =>
    {| videoClient := videoClient s; videoCall := videoCall s;
       videoLoading := videoLoading s; videoError := videoError s;
       chatClient := chatClient s; chatChannel := chatChannel s;
       chatLoading := chatLoading s; chatError := v;
       isStreamReady := isStreamReady s |}).

Definition setIsStreamReady {P} (v : bool) : M P unit :=
  modify_ctx (fun s =>
    {| videoClient := videoClient s; videoCall := videoCall s;
       videoLoading := videoLoading s; videoError := videoError s;
       chatClient := chatClient s; chatChannel := chatChannel s;
       chatLoading := chatLoading s; chatError := chatError s;
       isStreamReady := v |}).

(** *** The context functions *)

Section Provider.

Context {P : Type} `{StreamLib P}.

(** [isDemoMode()] of lib/stream: whether the platform credentials are
    absent. It reads configuration only, so it is constant over a run. *)
Variable isDemoMode : bool.

(** The auth values captured by the provider's closures. *)
Variable auth : Auth.

(** [a || b || ''] on an optional and a plain string: the first operand
    that is truthy (present and non-empty). *)
Definition email_or (a : option string) (b : string) : string :=
  match a with
  | Some (String c r) => String c r
  | _ => b
  end.

Definition streamUserOf (u : User) (p : UserProfile) : StreamUser :=
  formatStreamUser (user_id u) (full_name p) (email_or (user_email u) (profile_email p)).

(** [call.join()] and [call.leave()] on a handle. The mock handle's
    methods only write to the console. *)
Definition join (c : Call) : M P unit :=
  run emit (OpJoin c) ;;
  match c with
  | SdkCall _ cid => await_unit (call_join cid)
  | MockCall => ret tt
  end.

Definition leave (c : Call) : M P unit :=
  run emit (OpLeave c) ;;
  match c with
  | SdkCall _ cid => await_unit (call_leave cid)
  | MockCall => ret tt
  end.

Definition initializeStreamClient : M P unit :=
  try_finally
    (try_catch
       (run setVideoLoading true ;;
        run setChatLoading true ;;
        run setVideoError None ;;
        run setChatError None ;;
        if isDemoMode then
          run setIsStreamReady true ;;
          run setVideoLoading false ;;
          run setChatLoading false ;;
          ret tt
        else
          match user auth, userProfile auth with
          | Some u, Some p =>
              let streamUser := streamUserOf u p in
              run emit (OpGenerateToken (su_id streamUser)) ;;
              do token <- await_val (generateUserToken (su_id streamUser)) ;;
              run emit (OpCreateVideoClient (su_id streamUser)) ;;
              let videoClientInstance := mkVideoClient streamUser token in
              run emit (OpCreateChatClient (su_id streamUser)) ;;
              run await_unit (createStreamChatClient streamUser token) ;;
              let chatClientInstance := mkChatClient streamUser token in
              run setVideoClient (Some videoClientInstance) ;;
              run setChatClient (Some chatClientInstance) ;;
              setIsStreamReady true
          | _, _ => throw (Error "User not authenticated")
          end)
       (fun _ =>
          run setVideoError (Some "Failed to initialize video client") ;;
          setChatError (Some "Failed to initialize chat client")))
    (run setVideoLoading false ;;
     setChatLoading false).

Definition cleanupStream : M P unit :=
  do s <- get_ctx ;;
  run match videoClient s with
      | Some vc =>
          run emit OpDisconnectVideoUser ;;
          run sync (disconnectVideoUser vc) ;;
          setVideoClient None
      | None => ret tt
      end ;;
  run match chatClient s with
      | Some cc =>
          run emit OpDisconnectChatUser ;;
          run sync (disconnectChatUser cc) ;;
          setChatClient None
      | None => ret tt
      end ;;
  run setVideoCall None ;;
  run setChatChannel None ;;
  setIsStreamReady false.

(** The provider's effect on [isAuthenticated, user, userProfile]. *)
Definition authEffect : M P unit :=
  match isAuthenticated auth, user auth, userProfile auth with
  | true, Some _, Some _ => initializeStreamClient
  | _, _, _ => cleanupStream
  end.

Definition initializeChatChannel (partnerId partnerName : string) : M P unit :=
  try_finally
    (try_catch
       (run setChatLoading true ;;
        run setChatError None ;;
        if isDemoMode then ret tt
        else
          do s <- get_ctx ;;
          match chatClient s, user auth, userProfile auth with
          | Some cc, Some u, Some p =>
              let streamUser := streamUserOf u p in
              run emit (OpCreateChatChannel (su_id streamUser) partnerId) ;;
              do channel <- await_val
                   (createChatChannel cc (su_id streamUser) partnerId
                      (su_name streamUser) partnerName) ;;
              setChatChannel (Some channel)
          | _, _, _ =>
              throw (Error "Chat client not ready or user not authenticated")
          end)
       (fun _ => setChatError (Some "Failed to initialize chat channel")))
    (setChatLoading false).

(** The [catch] blocks of the call functions log and rethrow. *)
Definition rethrow {A} (m : M P A) : M P A :=
  try_catch m (fun e => throw e).

Definition initializeVideoCall (partnerId : string) : M P Call :=
  rethrow
    (do s <- get_ctx ;;
     match videoClient s, user auth with
     | Some _, Some u =>
         if isDemoMode then
           let mockCall := MockCall in
           run setVideoCall (Some mockCall) ;;
           ret mockCall
         else
           match Identity.createVideoCallId id_ok (user_id u) partnerId with
           | inl _ => throw InvalidIdentifierError
           | inr callId =>
               let call := SdkCall "default" callId in
               run emit (OpGetOrCreate callId [user_id u; partnerId]) ;;
               run await_unit (call_getOrCreate callId [user_id u; partnerId]) ;;
               run setVideoCall (Some call) ;;
               ret call
           end
     | _, _ => throw (Error "Video client not initialized")
     end).

Definition joinVideoCall (callId : string) : M P unit :=
  rethrow
    (do s <- get_ctx ;;
     match videoClient s with
     | Some _ =>
         let call := SdkCall "default" callId in
         run join call ;;
         setVideoCall (Some call)
     | None => throw (Error "Video client not initialized")
     end).

(** [callToStart || videoCall] *)
Definition startVideoCall (callToStart : option Call) : M P unit :=
  rethrow
    (do s <- get_ctx ;;
     match (match callToStart with Some c => Some c | None => videoCall s end) with
     | None => throw (Error "No video call to start")
     | Some call =>
         if isDemoMode then ret tt
         else join call
     end).

Definition endVideoCall : M P unit :=
  rethrow
    (do s <- get_ctx ;;
     match videoCall s with
     | None => ret tt
     | Some call =>
         run leave call ;;
         setVideoCall None
     end).

End Provider.

(** *** Runs of the provider *)

(** What can happen to a mounted [StreamProvider]: the auth values change
    (the effect runs), or a consumer calls one of the functions the
    context exposes. *)
Inductive Action : Type :=
| AuthChanged (a : Auth)
| InitializeChatChannel (partnerId partnerName : string)
| InitializeVideoCall (partnerId : string)
| JoinVideoCall (callId : string)
| StartVideoCall (callToStart : option Call)
| EndVideoCall.

Section Runs.

Context {P : Type} `{StreamLib P}.
Variable isDemoMode : bool.

Definition initialWorld (p : P) : World P := mkWorld initialStreamState p [].

Definition act (st : Auth * World P) (a : Action) : Auth * World P :=
  let '(au, w) := st in
  match a with
  | AuthChanged au' => (au', snd (authEffect isDemoMode au' w))
  | InitializeChatChannel pid pname =>
      (au, snd (initializeChatChannel isDemoMode au pid pname w))
  | InitializeVideoCall pid => (au, snd (initializeVideoCall isDemoMode au pid w))
  | JoinVideoCall cid => (au, snd (joinVideoCall cid w))
  | StartVideoCall c => (au, snd (startVideoCall isDemoMode c w))
  | EndVideoCall => (au, snd (endVideoCall w))
  end.

Definition run_actions (st : Auth * World P) (l : list Action) : Auth * World P :=
  fold_left act l st.

End Runs.

End Stream.

(* ===================================================================== *)
(** ** The external communications platform *)
(* ===================================================================== *)

Module SpecPlatform.
Import Stream.

(** Modelled from the spec: the session store of the external
    communications platform is not code of this repository. Following
    sections 3 and 4.2, a session record is identified by its session
    identifier and has a membership set; sessions are created or fetched;
    [join] makes the local participation active and [leave] makes it
    inactive. *)
Record Platform : Type := mkPlatform {
  sessions : gmap string (gset string);
  channels : gmap string (gset string);
  active : gset string
}.

Definition empty_platform : Platform :=
  {| sessions := ∅; channels := ∅; active := ∅ |}.

(** Modelled from the spec: create-or-fetch (section 4.2). An existing
    session is returned as it is; otherwise the platform either creates the
    session with both members registered, or rejects the creation with
    [SessionCreateFailed]. When the platform rejects is not specified, so
    it is the predicate [accepts]. *)
Definition getOrCreate (accepts : string -> bool)
    (cid : string) (members : list string) (p : Platform)
  : option SdkError * Platform :=
  match sessions p !! cid with
  | Some _ => (None, p)
  | None =>
      if accepts cid then
        (None, {| sessions := <[cid := list_to_set members]> (sessions p);
                  channels := channels p; active := active p |})
      else (Some SessionCreateFailed, p)
  end.

Definition do_join (cid : string) (p : Platform) : option SdkError * Platform :=
  match sessions p !! cid with
  | Some _ =>
      (None, {| sessions := sessions p; channels := channels p;
                active := {[cid]} ∪ active p |})
  | None => (Some SessionCreateFailed, p)
  end.

Definition do_leave (cid : string) (p : Platform) : option SdkError * Platform :=
  (None, {| sessions := sessions p; channels := channels p;
            active := active p ∖ {[cid]} |}).

(** Modelled from the spec: the text channel of a pair is created or
    fetched under the identifier derived from the pair (section 2: the
    derived identifier is used for call rooms and chat channels alike). *)
Definition getOrCreateChannel (accepts : string -> bool)
    (self partner : string) (p : Platform) : (SdkError + Channel) * Platform :=
  match Identity.createVideoCallId accepts self partner with
  | inl _ => (inl SessionCreateFailed, p)
  | inr cid =>
      match channels p !! cid with
      | Some _ => (inr (mkChannel cid), p)
      | None =>
          (inr (mkChannel cid),
           {| sessions := sessions p;
              channels := <[cid := {[self; partner]}]> (channels p);
              active := active p |})
      end
  end.

(** The interface implemented by the modelled platform. *)
Definition lib (accepts : string -> bool) : StreamLib Platform :=
  {| id_ok := accepts;
     formatStreamUser := fun uid name _ => mkStreamUser uid name;
     generateUserToken := fun uid p => (inr ("token-" ++ uid)%string, p);
     createStreamChatClient := fun _ _ p => (None, p);
     disconnectVideoUser := fun _ p => p;
     disconnectChatUser := fun _ p => p;
     call_getOrCreate := getOrCreate accepts;
     call_join := do_join;
     call_leave := do_leave;
     createChatChannel := fun _ self partner _ _ => getOrCreateChannel accepts self partner |}.

End SpecPlatform.

(* ===================================================================== *)
(** ** Coach/student context (contexts/CoachStudentContext.tsx) *)
(* ===================================================================== *)

Module CoachStudent.
Import Stream.

(** A row of [coach_student_assignments]. *)
Record CoachStudentAssignment : Type := mkAssignment {
  assignment_id : string;
  coach_id : string;
  student_id : string;
  is_active : bool
}.

(** The two tables the context reads. *)
Record Database : Type := mkDatabase {
  coach_student_assignments : list CoachStudentAssignment;
  user_profiles : list UserProfile
}.

(** A row of the query's result: the student id and the profile embedded
    through the foreign key, null when there is no such profile. *)
Record AssignmentRow : Type := mkRow {
  row_student_id : string;
  row_user_profiles : option UserProfile
}.

(** The [{ data, error }] pair returned by the query builder. *)
Inductive QueryResult : Type :=
| QueryError
| QueryData (data : option (list AssignmentRow)).

(** The backing store when the query is sent. *)
Inductive Backend : Type :=
| BackendFailing
| BackendServing (db : Database).

Definition profile_by_id (db : Database) (pid : string) : option UserProfile :=
  List.find (fun p => String.eqb (profile_id p) pid) (user_profiles db).

(** [from('coach_student_assignments').select(student_id, user_profiles(..))
      .eq('coach_id', coachId).eq('is_active', true)] *)
Definition query_assignments (b : Backend) (coachId : string) : QueryResult :=
  match b with
  | BackendFailing => QueryError
  | BackendServing db =>
      QueryData (Some
        (List.map
           (fun a => mkRow (student_id a) (profile_by_id db (student_id a)))
           (List.filter
              (fun a => String.eqb (coach_id a) coachId && is_active a)
              (coach_student_assignments db))))
  end.

Record CoachStudentState : Type := mkCoachStudentState {
  selectedStudent : option UserProfile;
  availableStudents : list UserProfile;
  loading : bool;
  error : option string
}.

Definition initialCoachStudentState : CoachStudentState :=
  {| selectedStudent := None; availableStudents := []; loading := false;
     error := None |}.

Definition setSelectedStudent (v : option UserProfile) (s : CoachStudentState) :=
  {| selectedStudent := v; availableStudents := availableStudents s;
     loading := loading s; error := error s |}.

Definition setAvailableStudents (v : list UserProfile) (s : CoachStudentState) :=
  {| selectedStudent := selectedStudent s; availableStudents := v;
     loading := loading s; error := error s |}.

Definition setLoading (v : bool) (s : CoachStudentState) :=
  {| selectedStudent := selectedStudent s;
     availableStudents := availableStudents s; loading := v; error := error s |}.

Definition setError (v : option string) (s : CoachStudentState) :=
  {| selectedStudent := selectedStudent s;
     availableStudents := availableStudents s; loading := loading s; error := v |}.

(** [assignments?.map(a => a.user_profiles).filter(Boolean).map(..) || []] *)
Definition extract_students (data : option (list AssignmentRow)) : list UserProfile :=
  match data with
  | Some assignments => List.flat_map
      (fun a => match row_user_profiles a with Some p => [p] | None => [] end)
      assignments
  | None => []
  end.

(** Whether [loadStudents] gets past its two guards: the profile is a
    coach's, and the client object [supabase] exists. *)
Definition is_coach (userProfile : option UserProfile) : bool :=
  match userProfile with
  | Some p => String.eqb (role p) "coach"
  | None => false
  end.

(** [loadStudents] up to the [await]: the guards, then
    [setLoading(true); setError(null)] and the query is sent. *)
Definition loadStudents_begin (userProfile : option UserProfile)
    (supabaseAvailable : bool) (s : CoachStudentState) : CoachStudentState :=
  if negb (is_coach userProfile) then s
  else if negb supabaseAvailable then
    setError (Some "Database connection not available") s
  else setError None (setLoading true s).

(** [loadStudents] from the [await] on, for a call that got past the
    guards: [b] is the backing store that answers the query. *)
Definition loadStudents_end (userProfile : option UserProfile)
    (supabaseAvailable : bool) (b : Backend) (s : CoachStudentState)
  : CoachStudentState :=
  match userProfile with
  | Some p =>
      if is_coach userProfile && supabaseAvailable then
        setLoading false
          match query_assignments b (profile_id p) with
          | QueryError => setError (Some "Failed to load students") s
          | QueryData data => setAvailableStudents (extract_students data) s
          end
      else s
  | None => s
  end.

(** [loadStudents] when nothing else happens while the query is pending. *)
Definition loadStudents (userProfile : option UserProfile)
    (supabaseAvailable : bool) (b : Backend) (s : CoachStudentState)
  : CoachStudentState :=
  loadStudents_end userProfile supabaseAvailable b
    (loadStudents_begin userProfile supabaseAvailable s).

Definition selectStudent (student : UserProfile) (s : CoachStudentState) :=
  setSelectedStudent (Some student) s.

(** A coach has zero active assignments in the backing store that answers
    a query: no row of the assignment table is both theirs and active. (A
    store that fails to answer delivers no assignment either.) *)
Definition zero_active (coachId : string) (b : Backend) : Prop :=
  match b with
  | BackendFailing => True
  | BackendServing db =>
      Forall (fun a => coach_id a = coachId -> is_active a = false)
        (coach_student_assignments db)
  end.

End CoachStudent.

(* ===================================================================== *)
(** ** Navigator (navigation/AppNavigator.tsx) and selection screen
       (screens/CoachStudentSelectionScreen.tsx) *)
(* ===================================================================== *)

Module Navigator.
Import Stream CoachStudent.

(** What [renderMainContent] returns. *)
Inductive MainContent : Type :=
| MainTabs
| CoachStudentSelectionScreen.

(** [userProfile?.role === r] *)
Definition role_is (userProfile : option UserProfile) (r : string) : bool :=
  match userProfile with
  | Some p => String.eqb (role p) r
  | None => false
  end.

Definition renderMainContent (userProfile : option UserProfile)
    (studentSelected : bool) : MainContent :=
  if role_is userProfile "student" then MainTabs
  else if role_is userProfile "coach" then
    if negb studentSelected then CoachStudentSelectionScreen
    else MainTabs
  else MainTabs.

(** What the selection screen shows: the spinner, or the page with the
    optional error box, the optional 'No students assigned' box and the
    list of student cards (the list is rendered only when non-empty). *)
Inductive SelectionView : Type :=
| LoadingView
| SelectionPage (errorBox : option string) (emptyBox : bool)
                (cards : list UserProfile).

Definition is_nil {A} (l : list A) : bool :=
  match l with [] => true | _ :: _ => false end.

(** Truthiness of an optional string: null and the empty string are falsy. *)
Definition truthy (o : option string) : bool :=
  match o with
  | Some (String _ _) => true
  | _ => false
  end.

Definition selectionScreen (s : CoachStudentState) : SelectionView :=
  if loading s && is_nil (availableStudents s) then LoadingView
  else
    SelectionPage (if truthy (error s) then error s else None)
      (is_nil (availableStudents s) && negb (loading s) && negb (truthy (error s)))
      (if is_nil (availableStudents s) then [] else availableStudents s).

Definition cards_of (v : SelectionView) : list UserProfile :=
  match v with
  | LoadingView => []
  | SelectionPage _ _ cards => cards
  end.

End Navigator.

(* ===================================================================== *)
(** ** Home screen (screens/HomeScreen.tsx) *)
(* ===================================================================== *)

Module Home.
Import Stream.

(** The fields of a [tasks] row the session logic reads. *)
Record Task : Type := mkTask {
  task_id : string;
  title : string;
  assigned_by : string;
  assigned_to : string;
  scheduled_date : option string;
  scheduled_start_time : option string
}.

Inductive Alert : Type :=
| AlertDemoMode
| AlertNotStarted (minutesUntilSession : JS.num)
| AlertEnded
| AlertJoined
| AlertError.

Inductive StatusText : Type :=
| MinutesLater (minutesUntilSession : JS.num)
| CanJoinText
| EndedText.

Record SessionStatus : Type := mkStatus {
  text : StatusText;
  color : string;
  canJoin : bool
}.

Section HomeScreen.

Context {P : Type} `{StreamLib P}.
Variable isDemoMode : bool.
Variable auth : Auth.

(** The run-time library's date handling, shared by the three functions
    that combine a date and a time of day:
    [d = new Date(date); [h, m] = time.split(':').map(Number);
     d.setHours(h, m, 0, 0); d.getTime()].
    The result is an integral number of milliseconds or NaN. *)
Variable dateTimeMs : option string -> string -> JS.num.

(** [Math.floor((sessionDate.getTime() - now.getTime()) / (1000 * 60))] *)
Definition minutesUntil (sessionMs : JS.num) (now : Z) : JS.num :=
  JS.floor_div (JS.sub sessionMs (JS.Num now)) (1000 * 60).

Definition partnerOf (session : Task) : string :=
  if Navigator.role_is (userProfile auth) "student"
  then assigned_by session
  else assigned_to session.

(** [handleJoinSession]; [now] is the value of [new Date().getTime()].
    An absent start time makes [sessionTime.split] throw a TypeError,
    which the surrounding [catch] turns into the error alert. *)
Definition handleJoinSession (session : Task) (now : Z) : M P Alert :=
  try_catch
    (if isDemoMode then ret AlertDemoMode
     else
       match scheduled_start_time session with
       | None => throw TypeError
       | Some sessionTime =>
           let minutesUntilSession :=
             minutesUntil (dateTimeMs (scheduled_date session) sessionTime) now in
           if JS.gt minutesUntilSession (JS.Num 10) then
             ret (AlertNotStarted minutesUntilSession)
           else if JS.lt minutesUntilSession (JS.Num (-60)) then
             ret AlertEnded
           else
             let partnerId := partnerOf session in
             do call <- initializeVideoCall isDemoMode auth partnerId ;;
             run startVideoCall isDemoMode (Some call) ;;
             ret AlertJoined
       end)
    (fun _ => ret AlertError).

(** The part of [handleJoinSession] that follows the two window checks:
    initialise the call, join it, report; any exception becomes the error
    alert. *)
Definition join_call (session : Task) : M P Alert :=
  try_catch
    (do call <- initializeVideoCall isDemoMode auth (partnerOf session) ;;
     run startVideoCall isDemoMode (Some call) ;;
     ret AlertJoined)
    (fun _ => ret AlertError).

(** [getSessionStatus]; it has no [catch], so the TypeError of an absent
    start time propagates. *)
Definition getSessionStatus (session : Task) (now : Z) : Result SessionStatus :=
  match scheduled_start_time session with
  | None => Throw TypeError
  | Some sessionTime =>
      let minutesUntilSession :=
        minutesUntil (dateTimeMs (scheduled_date session) sessionTime) now in
      if JS.gt minutesUntilSession (JS.Num 10) then
        Ok (mkStatus (MinutesLater minutesUntilSession) "#6B7280" false)
      else if JS.ge minutesUntilSession (JS.Num (-60)) then
        Ok (mkStatus CanJoinText "#10B981" true)
      else
        Ok (mkStatus EndedText "#EF4444" false)
  end.

End HomeScreen.

End Home.

(* ===================================================================== *)
(** ** Notification service (lib/notifications.ts) *)
(* ===================================================================== *)

Module Notifications.
Import Home.

(** The three reminders: the day before, one hour and fifteen minutes
    before the session. The kind stands for the title and body texts. *)
Inductive ReminderKind : Type :=
| Reminder24h
| Reminder1h
| Reminder15m.

(** The request passed to [Notifications.scheduleNotificationAsync]. *)
Record NotificationRequest : Type := mkRequest {
  kind : ReminderKind;
  sessionId : string;
  sessionTitle : string;
  sessionTime : string;
  trigger : JS.num
}.

(** How long before the session each reminder fires, in milliseconds. *)
Definition offset_ms (k : ReminderKind) : Z :=
  match k with
  | Reminder24h => 24 * 60 * 60 * 1000
  | Reminder1h => 60 * 60 * 1000
  | Reminder15m => 15 * 60 * 1000
  end.

(** Truthiness of an optional string field. *)
Definition present (o : option string) : option string :=
  match o with
  | Some (String c r) => Some (String c r)
  | _ => None
  end.

Section Service.

Variable dateTimeMs : option string -> string -> JS.num.

(** Whether the operating system's scheduler accepts a request; a
    rejection makes [scheduleNotificationAsync] throw. *)
Variable os_accepts : NotificationRequest -> bool.

(** One [if (reminder > now.getTime()) { await schedule(..) }] block
    followed by the rest of the function [k]. A rejected request throws
    into the function's [catch], which skips the rest. The scheduler's
    queue [q] grows by the accepted requests. *)
Definition schedule_if_future (session : Task) (sessionTime : string)
    (k : ReminderKind) (reminder : JS.num) (now : Z)
    (rest : list NotificationRequest -> list NotificationRequest)
    (q : list NotificationRequest) : list NotificationRequest :=
  if JS.gt reminder (JS.Num now) then
    let req := mkRequest k (task_id session) (title session) sessionTime reminder in
    if os_accepts req then rest (q ++ [req])%list else q
  else rest q.

(** [scheduleSessionReminders]: the scheduler's queue after the call. *)
Definition scheduleSessionReminders (session : Task) (now : Z)
    (q : list NotificationRequest) : list NotificationRequest :=
  match present (scheduled_date session), present (scheduled_start_time session) with
  | Some date, Some time =>
      let sessionTimeMs := dateTimeMs (Some date) time in
      if JS.le sessionTimeMs (JS.Num now) then q
      else
        let reminder24h := JS.sub sessionTimeMs (JS.Num (24 * 60 * 60 * 1000)) in
        let reminder1h := JS.sub sessionTimeMs (JS.Num (60 * 60 * 1000)) in
        let reminder15m := JS.sub sessionTimeMs (JS.Num (15 * 60 * 1000)) in
        schedule_if_future session time Reminder24h reminder24h now
          (schedule_if_future session time Reminder1h reminder1h now
             (schedule_if_future session time Reminder15m reminder15m now
                (fun q' => q')))
          q
  | _, _ => q
  end.

(** The session's combined scheduled date and start time as the function
    computes it; NaN when a field is missing or malformed. *)
Definition sessionTimeMs (session : Task) : JS.num :=
  match present (scheduled_date session), present (scheduled_start_time session) with
  | Some date, Some time => dateTimeMs (Some date) time
  | _, _ => JS.NaN
  end.

(** A request whose trigger lies strictly after [now] and is the session
    time, itself strictly after [now], minus the offset of its kind. *)
Definition well_timed (session : Task) (now : Z) (r : NotificationRequest) : Prop :=
  exists t s,
    trigger r = JS.Num t /\ now < t
    /\ sessionTimeMs session = JS.Num s /\ now < s
    /\ t = s - offset_ms (kind r).

End Service.

End Notifications.

(* ===================================================================== *)
(** ** The application: providers, navigator and screens together *)
(* ===================================================================== *)

Module App.
Import Stream CoachStudent Navigator Home.

(** The state of the mounted component tree of App.tsx: the auth values,
    [studentSelected] of [AuthenticatedApp], the coach/student context and
    the stream context with the platform behind it. *)
Record AppState (P : Type) : Type := mkApp {
  auth : Auth;
  studentSelected : bool;
  coachStudent : CoachStudentState;
  world : World P
}.
Arguments mkApp {P} _ _ _ _.
Arguments auth {P} _.
Arguments studentSelected {P} _.
Arguments coachStudent {P} _.
Arguments world {P} _.

(** What [AppNavigator] puts on the screen once the auth context has
    finished loading. *)
Inductive Rendered : Type :=
| LoginScreen
| Selection (v : SelectionView)
| MainTabsScreen.

(** What the user, the component effects and the environment can do. A
    call of [loadStudents] (the providers' effects, the retry button, pull
    to refresh) is two events: it begins, and later the query is
    answered. *)
Inductive Event : Type :=
| LoadStudentsBegin
| LoadStudentsEnd (b : Backend)
| PressStudent (i : nat)
| PressJoin (session : Task) (now : Z)
| PressStartVideoCall (assignedCoach : option UserProfile)
| ChatEffect (assignedCoach : option UserProfile)
| VideoScreenEffect
| CallEnd
| SignOut
| AppBackgrounded.

Definition signedOut : Auth :=
  {| isAuthenticated := false; user := None; userProfile := None |}.

Section Application.

Context {P : Type} `{StreamLib P}.
Variable isDemoMode : bool.
Variable supabaseAvailable : bool.
Variable dateTimeMs : option string -> string -> JS.num.

Definition initialApp (a : Auth) (w : World P) : AppState P :=
  mkApp a false initialCoachStudentState w.

Definition AppNavigator (app : AppState P) : Rendered :=
  if negb (isAuthenticated (auth app)) then LoginScreen
  else
    match renderMainContent (userProfile (auth app)) (studentSelected app) with
    | CoachStudentSelectionScreen => Selection (selectionScreen (coachStudent app))
    | MainTabs => MainTabsScreen
    end.

(** The state after running a context function; a rejection that reaches
    the caller is shown as an alert or logged, and the state changes made
    before it remain. *)
Definition exec {A} (m : M P A) (w : World P) : World P := snd (m w).

Definition with_world (app : AppState P) (w : World P) : AppState P :=
  mkApp (auth app) (studentSelected app) (coachStudent app) w.

(** The partner of the chat and video tabs: the assigned coach fetched
    from the backing store for a student, the selected student for a
    coach. *)
Definition partner (app : AppState P) (assignedCoach : option UserProfile)
  : option UserProfile :=
  if role_is (userProfile (auth app)) "student" then assignedCoach
  else if role_is (userProfile (auth app)) "coach" then selectedStudent (coachStudent app)
  else None.

(** [handleStartVideoCall] of the video tab. *)
Definition handleStartVideoCall (app : AppState P)
    (assignedCoach : option UserProfile) : World P :=
  match partner app assignedCoach with
  | None => world app
  | Some callPartner =>
      exec (initializeVideoCall isDemoMode (auth app) (profile_id callPartner))
        (world app)
  end.

(** The chat tab's effect that opens the channel. *)
Definition chatEffect (app : AppState P)
    (assignedCoach : option UserProfile) : World P :=
  let s := ctx (world app) in
  match partner app assignedCoach, chatClient s, chatChannel s with
  | Some chatPartner, Some _, None =>
      if negb (chatLoading s) && negb (truthy (chatError s)) && negb isDemoMode then
        exec (initializeChatChannel isDemoMode (auth app)
                (profile_id chatPartner) (full_name chatPartner))
          (world app)
      else world app
  | _, _, _ => world app
  end.

(** The video screen's effect: auto-join when a call is present. *)
Definition videoScreenEffect (app : AppState P) : World P :=
  match videoCall (ctx (world app)) with
  | Some _ => exec (startVideoCall isDemoMode None) (world app)
  | None => world app
  end.

(** One event. The handlers of a screen exist only while the screen is
    mounted. Signing out unmounts [AuthenticatedApp] and its providers and
    runs the stream provider's effect with the signed-out auth values. The
    application registers no listener for moving to the background. *)
Definition step (app : AppState P) (e : Event) : AppState P :=
  match AppNavigator app, e with
  | LoginScreen, _ => app
  | _, AppBackgrounded => app
  | _, SignOut =>
      mkApp signedOut false initialCoachStudentState
        (exec (authEffect isDemoMode signedOut) (world app))
  | _, LoadStudentsBegin =>
      mkApp (auth app) (studentSelected app)
        (loadStudents_begin (userProfile (auth app)) supabaseAvailable (coachStudent app))
        (world app)
  | _, LoadStudentsEnd b =>
      mkApp (auth app) (studentSelected app)
        (loadStudents_end (userProfile (auth app)) supabaseAvailable b (coachStudent app))
        (world app)
  | Selection v, PressStudent i =>
      match nth_error (cards_of v) i with
      | Some student =>
          mkApp (auth app) true (selectStudent student (coachStudent app)) (world app)
      | None => app
      end
  | Selection _, _ => app
  | MainTabsScreen, PressJoin session now =>
      with_world app
        (exec (handleJoinSession isDemoMode (auth app) dateTimeMs session now) (world app))
  | MainTabsScreen, PressStartVideoCall assignedCoach =>
      with_world app (handleStartVideoCall app assignedCoach)
  | MainTabsScreen, ChatEffect assignedCoach =>
      with_world app (chatEffect app assignedCoach)
  | MainTabsScreen, VideoScreenEffect =>
      with_world app (videoScreenEffect app)
  | MainTabsScreen, CallEnd =>
      with_world app (exec (endVideoCall) (world app))
  | MainTabsScreen, PressStudent _ => app
  end.

Definition run_events (app : AppState P) (es : list Event) : AppState P :=
  fold_left step es app.

(** Operations that initialise a session on the platform. *)
Definition is_session_init (op : SdkOp) : bool :=
  match op with
  | OpGetOrCreate _ _ => true
  | OpCreateChatChannel _ _ => true
  | _ => false
  end.

Definition session_inits (w : World P) : list SdkOp :=
  List.filter is_session_init (log w).


(** What stays true of a coach whose queries find no active assignment:
    no session initialiser has been invoked since the world [w], and the
    coach is either still signed in as [a], with no student selected and
    none available, or signed out. *)
Definition unassigned (a : Auth) (w : World P) (app : AppState P) : Prop :=
  session_inits (world app) = session_inits w
  /\ ((auth app = a /\ studentSelected app = false
       /\ availableStudents (coachStudent app) = [])
      \/ auth app = signedOut).


End Application.

End App.

(* ===================================================================== *)
(** ** Sample data *)
(* ===================================================================== *)

Module Samples.
Import Stream SpecPlatform CoachStudent Home.

(** A platform that accepts every identifier. *)
Definition open_lib : StreamLib Platform := lib (fun _ => true).

Definition student1 : UserProfile :=
  mkProfile "u1" "Student One" "u1@example.org" "student".
Definition coach2 : UserProfile :=
  mkProfile "u2" "Coach Two" "u2@example.org" "coach".

Definition auth_student : Auth :=
  mkAuth true (Some (mkUser "u1" (Some "u1@example.org"))) (Some student1).
Definition auth_coach : Auth :=
  mkAuth true (Some (mkUser "u2" (Some "u2@example.org"))) (Some coach2).
Definition auth_no_id : Auth :=
  mkAuth true (Some (mkUser "" None)) (Some student1).

Definition client_u1 : VideoClient :=
  mkVideoClient (mkStreamUser "u1" "Student One") "token-u1".

(** A provider whose clients are connected and which holds no call. *)
Definition ready_state : StreamState :=
  {| videoClient := Some client_u1; videoCall := None; videoLoading := false;
     videoError := None;
     chatClient := Some (mkChatClient (mkStreamUser "u1" "Student One") "token-u1");
     chatChannel := None; chatLoading := false; chatError := None;
     isStreamReady := true |}.

Definition ready_world : World Platform := mkWorld ready_state empty_platform [].

(** The same provider while it holds the call of the pair (u1, u2). *)
Definition call_u1_u2 : Call := SdkCall "default" "u1:u2".

(** The world after the student u1 initialised the call with the coach u2. *)
Definition after_first_call : World Platform :=
  snd (@initializeVideoCall _ open_lib false auth_student "u2" ready_world).

Definition in_call_state : StreamState :=
  {| videoClient := Some client_u1; videoCall := Some call_u1_u2;
     videoLoading := false; videoError := None;
     chatClient := Some (mkChatClient (mkStreamUser "u1" "Student One") "token-u1");
     chatChannel := None; chatLoading := false; chatError := None;
     isStreamReady := true |}.

Definition in_call_world : World Platform :=
  mkWorld in_call_state
    {| sessions := {[ "u1:u2" := {[ "u1"; "u2" ]} ]}; channels := ∅;
       active := {[ "u1:u2" ]} |}
    [OpGetOrCreate "u1:u2" ["u1"; "u2"]; OpJoin call_u1_u2].

(** A session of the pair. *)
Definition session1 : Task :=
  mkTask "t1" "Weekly session" "u2" "u1" (Some "2025-01-15") (Some "14:30:00").

(** A backing store in which coach u2 has one inactive assignment. *)
Definition db_inactive : Database :=
  mkDatabase [mkAssignment "a1" "u2" "u1" false] [student1; coach2].

(** A backing store in which coach u2 has one active assignment. *)
Definition db_active : Database :=
  mkDatabase [mkAssignment "a1" "u2" "u1" true] [student1; coach2].

(** A run-time library that places every session at one instant. *)
Definition sample_start : Z := 1736951400000.
Definition sample_dateTimeMs : option string -> string -> JS.num :=
  fun _ _ => JS.Num sample_start.


(** The application outside demo mode, with the database client, on the
    modelled platform. *)
Definition sample_step : App.AppState Platform -> App.Event -> App.AppState Platform :=
  @App.step _ open_lib false true sample_dateTimeMs.
Definition sample_run : App.AppState Platform -> list App.Event -> App.AppState Platform :=
  @App.run_events _ open_lib false true sample_dateTimeMs.

(** The coach u2 loads the students, finds u1 and picks them. *)
Definition coach_pick_events : list App.Event :=
  [App.LoadStudentsBegin; App.LoadStudentsEnd (BackendServing db_active);
   App.PressStudent 0].

(** The coach u2 tries everything while having no active assignment, and
    at last a query is sent and answered. *)
Definition coach_idle_events : list App.Event :=
  [App.PressStudent 0; App.PressJoin session1 sample_start;
   App.PressStartVideoCall None; App.ChatEffect None; App.CallEnd;
   App.LoadStudentsBegin; App.LoadStudentsEnd (BackendServing db_inactive)].

End Samples.

(* ===================================================================== *)
(** ** Consistency of the stream provider's state *)
(* ===================================================================== *)

Module StreamSpec.
Import Stream.

(** The provider has not touched the platform [p] and holds nothing. *)
Definition untouched {P : Type} (p : P) (w : World P) : Prop :=
  videoClient (ctx w) = None /\ chatClient (ctx w) = None
  /\ videoCall (ctx w) = None /\ chatChannel (ctx w) = None
  /\ platform w = p /\ log w = [].

End StreamSpec.

(* ===================================================================== *)
(** ** Home screen: what a session's row shows *)
(* ===================================================================== *)

Module HomeSpec.
Import Stream Home.

Section Rows.

Variable dateTimeMs : option string -> string -> JS.num.

(** Whether the row of a session offers to join (the join button is
    enabled), and whether it shows the session as ended. A row that cannot
    be rendered offers nothing. *)
Definition joinable (session : Task) (now : Z) : bool :=
  match getSessionStatus dateTimeMs session now with
  | Ok st => canJoin st
  | Throw _ => false
  end.

Definition ended (session : Task) (now : Z) : bool :=
  match getSessionStatus dateTimeMs session now with
  | Ok st => match text st with EndedText => true | _ => false end
  | Throw _ => false
  end.

End Rows.

End HomeSpec.

(* ===================================================================== *)
(** ** Notification service: the scheduler's queue and cancelling *)
(* ===================================================================== *)

Module Scheduler.
Import Home Notifications.

(** The [data] object of a scheduled notification as
    [cancelSessionReminders] reads it: the object and each field may be
    absent. *)
Record NotificationData : Type := mkData {
  data_type : option string;
  data_sessionId : option string
}.

(** An entry of [getAllScheduledNotificationsAsync()]. *)
Record Scheduled : Type := mkScheduled {
  identifier : nat;
  data : option NotificationData
}.

(** The operating system's scheduler: its queue and the next identifier
    it hands out. *)
Record OS : Type := mkOS {
  queue : list Scheduled;
  next_id : nat
}.

(** The data [scheduleSessionReminders] attaches to each of its requests:
    [{ type: 'session_reminder', sessionId: session.id, ... }]. *)
Definition reminder_data (r : NotificationRequest) : NotificationData :=
  mkData (Some "session_reminder") (Some (sessionId r)).

(** [scheduleNotificationAsync] on the scheduler: the request is queued
    under a fresh identifier. *)
Definition os_schedule (os : OS) (r : NotificationRequest) : OS :=
  mkOS (queue os ++ [mkScheduled (next_id os) (Some (reminder_data r))])
       (S (next_id os)).

(** [cancelScheduledNotificationAsync(identifier)] on the queue. *)
Definition cancel_id (i : nat) (q : list Scheduled) : list Scheduled :=
  List.filter (fun n => negb (Nat.eqb (identifier n) i)) q.

(** [data?.type === 'session_reminder' && data?.sessionId === sessionId] *)
Definition is_reminder_of (session_id : string) (n : Scheduled) : bool :=
  match data n with
  | Some d =>
      match data_type d, data_sessionId d with
      | Some t, Some sid =>
          String.eqb t "session_reminder" && String.eqb sid session_id
      | _, _ => false
      end
  | None => false
  end.

Section Cancel.

(** Whether the scheduler accepts to cancel an identifier; a rejection
    makes [cancelScheduledNotificationAsync] throw. *)
Variable cancel_ok : nat -> bool.

(** The [for] loop of [cancelSessionReminders] over the list fetched at
    the start, on the scheduler's current queue [q]. A rejected cancel
    throws into the function's [catch], which ends the loop. *)
Fixpoint cancel_loop (session_id : string) (scheduledNotifications : list Scheduled)
    (q : list Scheduled) : list Scheduled :=
  match scheduledNotifications with
  | [] => q
  | notification :: rest =>
      if is_reminder_of session_id notification then
        if cancel_ok (identifier notification)
        then cancel_loop session_id rest (cancel_id (identifier notification) q)
        else q
      else cancel_loop session_id rest q
  end.

(** [cancelSessionReminders]; [listing_ok] tells whether
    [getAllScheduledNotificationsAsync] succeeded (when it throws, the
    [catch] block only logs). *)
Definition cancelSessionReminders (listing_ok : bool) (session_id : string)
    (q : list Scheduled) : list Scheduled :=
  if listing_ok then cancel_loop session_id q q else q.

End Cancel.

Section Schedule.

Variable dateTimeMs : option string -> string -> JS.num.
Variable os_accepts : NotificationRequest -> bool.

(** [scheduleSessionReminders] on the scheduler: the requests the function
    gets accepted are queued under fresh identifiers, in order. *)
Definition scheduleOnOS (session : Task) (now : Z) (os : OS) : OS :=
  fold_left os_schedule
    (scheduleSessionReminders dateTimeMs os_accepts session now []) os.

End Schedule.

(** The identifiers of the entries of [snapshot] that are reminders of
    the session. *)
Definition targets (session_id : string) (snapshot : list Scheduled) : list nat :=
  map identifier (List.filter (is_reminder_of session_id) snapshot).

(** The entry's identifier is none of [ids]. *)
Definition not_in (ids : list nat) (n : Scheduled) : bool :=
  negb (existsb (Nat.eqb (identifier n)) ids).

(** The reminders that are due for a session starting at [s] when the
    time is [now]: those of the three, in the order 24 hours, 1 hour,
    15 minutes, whose trigger is strictly later than [now]. *)
Definition due_kinds (s now : Z) : list ReminderKind :=
  List.filter (fun k => now <? s - offset_ms k)
    [Reminder24h; Reminder1h; Reminder15m].

(** The scheduler hands out identifiers it has not used: the queued
    identifiers are distinct and below the next one. *)
Definition well_formed (os : OS) : Prop :=
  List.NoDup (map identifier (queue os))
  /\ Forall (fun n => (identifier n < next_id os)%nat) (queue os).

End Scheduler.

(* ===================================================================== *)
(** ** Notification service: registering and sending *)
(* ===================================================================== *)

Module Push.

(** Calls into the notification library, in order. *)
Inductive PushOp : Type :=
| GetPermissions
| RequestPermissions
| GetExpoPushToken.

(** A thrown error with its optional [message]. *)
Record JsError : Type := mkJsError {
  message : option string
}.

(** [message?.includes(needle)] *)
Definition includes (msg : option string) (needle : string) : bool :=
  match msg with
  | Some m => match String.index 0 needle m with Some _ => true | None => false end
  | None => false
  end.

(** [registerForPushNotifications]. [platformOS] is [Platform.OS];
    [existing], [requested] and [tokenResult] are the answers of
    [getPermissionsAsync], [requestPermissionsAsync] and
    [getExpoPushTokenAsync] (an error when the promise is rejected). The
    result is the token or null, with the calls made. The function's outer
    [catch] returns null for every error, so it never throws. *)
Definition registerForPushNotifications (platformOS : string)
    (existing requested : JsError + string) (tokenResult : JsError + string)
  : option string * list PushOp :=
  match existing with
  | inl _ => (None, [GetPermissions])
  | inr existingStatus =>
      let after_request : (JsError + string) * list PushOp :=
        if negb (String.eqb existingStatus "granted")
        then (requested, [GetPermissions; RequestPermissions])
        else (inr existingStatus, [GetPermissions]) in
      match after_request with
      | (inl _, ops) => (None, ops)
      | (inr finalStatus, ops) =>
          if negb (String.eqb finalStatus "granted") then (None, ops)
          else
            match tokenResult with
            | inr token => (Some token, ops ++ [GetExpoPushToken])
            | inl tokenError =>
                if String.eqb platformOS "android"
                   && includes (message tokenError) "FirebaseApp"
                then (None, ops ++ [GetExpoPushToken])
                else (None, ops ++ [GetExpoPushToken])
            end
      end
  end.

(** [NotificationService.requestPermissions]: the same permission steps
    without a [catch]; a rejected promise propagates. *)
Definition requestPermissions (existing requested : JsError + string)
  : (JsError + bool) * list PushOp :=
  match existing with
  | inl e => (inl e, [GetPermissions])
  | inr existingStatus =>
      if negb (String.eqb existingStatus "granted") then
        match requested with
        | inl e => (inl e, [GetPermissions; RequestPermissions])
        | inr status =>
            (inr (String.eqb status "granted"), [GetPermissions; RequestPermissions])
        end
      else (inr (String.eqb existingStatus "granted"), [GetPermissions])
  end.

(** The permission is granted in the end: it was granted already, or it
    was not and the request was answered 'granted'. *)
Definition granted_finally (existing requested : JsError + string) : Prop :=
  existing = inr "granted"
  \/ exists st, existing = inr st /\ st <> "granted" /\ requested = inr "granted".







End Push.

(* ===================================================================== *)
(** ** Admin resource page (src/app/admin/resources/page.tsx) *)
(* ===================================================================== *)

Module Resources.

(** The fields of a [resources] row the page reads. *)
Record Resource : Type := mkResource {
  res_id : string;
  res_name : string;
  res_description : option string;
  res_url : string;
  res_category : string;
  res_subject_id : option string;
  res_difficulty_level : option string;
  res_is_active : bool
}.

(** The value of an optional string when it is truthy (present and not
    empty): [x || null]. *)
Definition truthy_val (o : option string) : option string :=
  match o with
  | Some (String c r) => Some (String c r)
  | _ => None
  end.

(** The names of the properties a plain object inherits from
    [Object.prototype]. For such a name [k], reading [m[k]] on an object
    literal [m] without an own entry [k] yields the inherited value (a
    function, for [__proto__] the prototype object), which is truthy and
    has no [push] method. *)
Definition object_prototype_keys : list string :=
  ["constructor"; "hasOwnProperty"; "isPrototypeOf"; "propertyIsEnumerable";
   "toLocaleString"; "toString"; "valueOf"; "__proto__";
   "__defineGetter__"; "__defineSetter__"; "__lookupGetter__";
   "__lookupSetter__"].

Definition inherited (k : string) : bool :=
  existsb (String.eqb k) object_prototype_keys.

(** One step of the [forEach] in [loadSubjectsAndResources], on the object
    [resourcesBySubject = {}], whose own entries are the map [m]:
    [if (r.subject_id) { if (!m[sid]) m[sid] = []; m[sid].push(r) }].
    With an own entry the resource is pushed to it. Without one, [m[sid]]
    is undefined and the entry is created, unless [sid] names an inherited
    property: then the guard sees the inherited value, no entry is
    created, and [m[sid].push] is not a function: the step throws a
    [TypeError] ([None]). *)
Definition group_step (m : gmap string (list Resource)) (r : Resource)
  : option (gmap string (list Resource)) :=
  match truthy_val (res_subject_id r) with
  | Some sid =>
      match m !! sid with
      | Some l => Some (<[sid := l ++ [r]]> m)
      | None =>
          if inherited sid then None
          else Some (<[sid := [r]]> m)
      end
  | None => Some m
  end.

(** The [forEach] loop: an exception of a step ends it. *)
Fixpoint group_loop (rs : list Resource) (m : gmap string (list Resource))
  : option (gmap string (list Resource)) :=
  match rs with
  | [] => Some m
  | r :: rest =>
      match group_step m r with
      | Some m' => group_loop rest m'
      | None => None
      end
  end.

(** [resourcesBySubject] as built from [resourcesData], which is null
    when the query returned no data ([resourcesData?.forEach] then does
    nothing); [None] when the loop throws. *)
Definition groupBySubject (resourcesData : option (list Resource))
  : option (gmap string (list Resource)) :=
  match resourcesData with
  | Some rs => group_loop rs ∅
  | None => Some ∅
  end.

(** A row of [subjects]. *)
Record Subject : Type := mkSubject {
  subject_id : string;
  subject_name : string
}.

(** The state cells of the page that loading writes. *)
Record PageState : Type := mkPage {
  subjects : list Subject;
  resources : gmap string (list Resource);
  loading : bool
}.

(** [loadSubjectsAndResources]. [subjectsQuery] and [resourcesQuery] are
    the answers of the two queries: an error, or the data, which may be
    null. The second query is sent only when the first did not fail.
    Whatever is thrown inside [try] (a query error, or the [TypeError] of
    the grouping loop) is logged by [catch], which leaves the state cells
    written so far as they are; [finally] lowers the loading flag. *)
Definition loadSubjectsAndResources
    (subjectsQuery : string + option (list Subject))
    (resourcesQuery : string + option (list Resource))
    (st : PageState) : PageState :=
  match subjectsQuery with
  | inl _ => mkPage (subjects st) (resources st) false
  | inr subjectsData =>
      let subjects' := match subjectsData with Some l => l | None => [] end in
      match resourcesQuery with
      | inl _ => mkPage subjects' (resources st) false
      | inr resourcesData =>
          match groupBySubject resourcesData with
          | None => mkPage subjects' (resources st) false
          | Some resourcesBySubject => mkPage subjects' resourcesBySubject false
          end
      end
  end.



(** The rows listed under an expanded subject
    ([resources[subject.id]?.length > 0 ? resources[subject.id] : note]). *)
Definition shown_rows (m : gmap string (list Resource)) (subjectId : string)
  : list Resource :=
  match m !! subjectId with
  | Some l => l
  | None => []
  end.

(** Whether a resource has the subject [sid] (a truthy [subject_id] equal
    to it). *)
Definition of_subject (sid : string) (r : Resource) : bool :=
  match truthy_val (res_subject_id r) with
  | Some s => String.eqb s sid
  | None => false
  end.

(** [toggleSubjectExpansion] on the set of expanded subjects. *)
Definition toggleSubjectExpansion (expandedSubjects : gset string)
    (subjectId : string) : gset string :=
  if decide (subjectId ∈ expandedSubjects)
  then expandedSubjects ∖ {[subjectId]}
  else expandedSubjects ∪ {[subjectId]}.

(** The dialog's form. *)
Record ResourceFormData : Type := mkForm {
  form_id : option string;
  form_name : string;
  form_description : string;
  form_url : string;
  form_category : string;
  form_subject_id : string;
  form_difficulty_level : option string;
  form_is_active : bool
}.

(** [x || ''] *)
Definition or_empty (o : option string) : string :=
  match o with
  | Some s => s
  | None => ""
  end.

(** [s || null] *)
Definition or_null (s : string) : option string :=
  match s with
  | EmptyString => None
  | String c r => Some (String c r)
  end.

(** The form [handleAddResource(subjectId?)] opens. *)
Definition handleAddResource (subjectId : option string) : ResourceFormData :=
  mkForm None "" "" "" "document" (or_empty subjectId) None true.

(** The form [handleEditResource(resource)] opens. *)
Definition handleEditResource (resource : Resource) : ResourceFormData :=
  mkForm (Some (res_id resource)) (res_name resource)
    (or_empty (res_description resource)) (res_url resource)
    (res_category resource) (or_empty (res_subject_id resource))
    (truthy_val (res_difficulty_level resource)) (res_is_active resource).

(** The row [handleResourceSubmit] writes ([resourceData]). *)
Record ResourceData : Type := mkResourceData {
  data_name : string;
  data_description : option string;
  data_url : string;
  data_category : string;
  data_subject_id : option string;
  data_difficulty_level : option string;
  data_is_active : bool;
  data_created_by : string
}.

Definition resourceDataOf (form : ResourceFormData) (userId : string) : ResourceData :=
  mkResourceData (form_name form) (or_null (form_description form))
    (form_url form) (form_category form) (or_null (form_subject_id form))
    (form_difficulty_level form) (form_is_active form) userId.

(** The row as a resource, under the identifier [rid]. *)
Definition stored (rid : string) (d : ResourceData) : Resource :=
  mkResource rid (data_name d) (data_description d) (data_url d)
    (data_category d) (data_subject_id d) (data_difficulty_level d)
    (data_is_active d).

End Resources.

(* ===================================================================== *)
(** ** The stream provider between its awaits *)
(* ===================================================================== *)

(** The context functions are [async]: each runs up to an [await], and
    the rest of it runs when the awaited promise settles. In between, the
    provider's effect and the other context functions may run. Here every
    function is cut at its awaits. Run to its end without anything in
    between, a function is the one of [Stream]. *)

Module Async.
Import Stream.

(** An async function that has reached an [await]: the local values its
    continuation still uses, and the answer that settles the promise. *)
Inductive Pending : Type :=
| AwaitToken (streamUser : StreamUser) (answer : SdkError + string)
| AwaitChatClient (streamUser : StreamUser) (token : string)
    (answer : option SdkError)
| AwaitChannel (answer : SdkError + Channel)
| AwaitGetOrCreate (call : Call) (answer : option SdkError)
| AwaitJoin (call : Call) (answer : option SdkError)
| AwaitStart (answer : option SdkError)
| AwaitLeave (answer : option SdkError).

(** What can happen to a mounted provider: the auth values change or a
    consumer calls a context function ([Do]), or the promise awaited by
    the [n]-th pending function settles and the function goes on. *)
Inductive Event : Type :=
| Do (a : Action)
| Settle (n : nat).

Definition opt_list {A : Type} (o : option A) : list A :=
  match o with
  | Some a => [a]
  | None => []
  end.

Definition remove_nth {A : Type} (n : nat) (l : list A) : list A :=
  firstn n l ++ skipn (S n) l.

Section Provider.

Context {P : Type} `{StreamLib P}.
Variable isDemoMode : bool.

(** The provider: the auth values of the last render, the state cells
    with the platform, and the functions waiting at an [await], oldest
    first. *)
Record Provider : Type := mkProvider {
  pauth : Auth;
  pworld : World P;
  pending : list Pending
}.

Definition exec {A : Type} (m : M P A) (w : World P) : World P := snd (m w).

(** Send a request to the platform: it takes effect, and its answer is
    what the awaited promise will settle with. *)
Definition request {A : Type} (f : P -> A * P) (w : World P) : A * World P :=
  (fst (f (platform w)), mkWorld (ctx w) (snd (f (platform w))) (log w)).

(** [call.join()] and [call.leave()] up to the promise. *)
Definition join_request (c : Call) (w : World P) : option SdkError * World P :=
  match c with
  | SdkCall _ cid => request (call_join cid) (exec (emit (OpJoin c)) w)
  | MockCall => (None, exec (emit (OpJoin c)) w)
  end.

Definition leave_request (c : Call) (w : World P) : option SdkError * World P :=
  match c with
  | SdkCall _ cid => request (call_leave cid) (exec (emit (OpLeave c)) w)
  | MockCall => (None, exec (emit (OpLeave c)) w)
  end.

(** The [catch] block of [initializeStreamClient] followed by its
    [finally] block. *)
Definition streamClient_failed : M P unit :=
  run setVideoError (Some "Failed to initialize video client") ;;
  run setChatError (Some "Failed to initialize chat client") ;;
  run setVideoLoading false ;;
  setChatLoading false.

(** The [catch] block of [initializeChatChannel] followed by its
    [finally] block. *)
Definition chatChannel_failed : M P unit :=
  run setChatError (Some "Failed to initialize chat channel") ;;
  setChatLoading false.

(** [initializeStreamClient] up to [await generateUserToken(...)]. *)
Definition initializeStreamClient_call (auth : Auth) (w : World P)
  : World P * option Pending :=
  let w1 := exec (run setVideoLoading true ;;
                  run setChatLoading true ;;
                  run setVideoError None ;;
                  setChatError None) w in
  if isDemoMode then
    (exec (run setIsStreamReady true ;;
           run setVideoLoading false ;;
           run setChatLoading false ;;
           run setVideoLoading false ;;
           setChatLoading false) w1, None)
  else
    match user auth, userProfile auth with
    | Some u, Some p =>
        let streamUser := streamUserOf u p in
        let sent :=
          request (generateUserToken (su_id streamUser))
            (exec (emit (OpGenerateToken (su_id streamUser))) w1) in
        (snd sent, Some (AwaitToken streamUser (fst sent)))
    | _, _ => (exec streamClient_failed w1, None)
    end.

(** [initializeChatChannel] up to [await createChatChannel(...)]. *)
Definition initializeChatChannel_call (auth : Auth)
    (partnerId partnerName : string) (w : World P) : World P * option Pending :=
  let w1 := exec (run setChatLoading true ;; setChatError None) w in
  if isDemoMode then (exec (setChatLoading false) w1, None)
  else
    match chatClient (ctx w), user auth, userProfile auth with
    | Some cc, Some u, Some p =>
        let streamUser := streamUserOf u p in
        let sent :=
          request (createChatChannel cc (su_id streamUser) partnerId
                     (su_name streamUser) partnerName)
            (exec (emit (OpCreateChatChannel (su_id streamUser) partnerId)) w1) in
        (snd sent, Some (AwaitChannel (fst sent)))
    | _, _, _ => (exec chatChannel_failed w1, None)
    end.

(** [initializeVideoCall] up to [await call.getOrCreate(...)]. Its
    [catch] block logs and rethrows; what it throws or returns goes to
    the caller and is not kept here. *)
Definition initializeVideoCall_call (auth : Auth) (partnerId : string)
    (w : World P) : World P * option Pending :=
  match videoClient (ctx w), user auth with
  | Some _, Some u =>
      if isDemoMode then (exec (setVideoCall (Some MockCall)) w, None)
      else
        match Identity.createVideoCallId id_ok (user_id u) partnerId with
        | inl _ => (w, None)
        | inr callId =>
            let call := SdkCall "default" callId in
            let sent :=
              request (call_getOrCreate callId [user_id u; partnerId])
                (exec (emit (OpGetOrCreate callId [user_id u; partnerId])) w) in
            (snd sent, Some (AwaitGetOrCreate call (fst sent)))
        end
  | _, _ => (w, None)
  end.

(** [joinVideoCall] up to [await call.join()]. *)
Definition joinVideoCall_call (callId : string) (w : World P)
  : World P * option Pending :=
  match videoClient (ctx w) with
  | Some _ =>
      let call := SdkCall "default" callId in
      let sent := join_request call w in
      (snd sent, Some (AwaitJoin call (fst sent)))
  | None => (w, None)
  end.

(** [startVideoCall] up to [await call.join()]. *)
Definition startVideoCall_call (callToStart : option Call) (w : World P)
  : World P * option Pending :=
  match (match callToStart with Some c => Some c | None => videoCall (ctx w) end) with
  | None => (w, None)
  | Some call =>
      if isDemoMode then (w, None)
      else
        let sent := join_request call w in
        (snd sent, Some (AwaitStart (fst sent)))
  end.

(** [endVideoCall] up to [await videoCall.leave()]. *)
Definition endVideoCall_call (w : World P) : World P * option Pending :=
  match videoCall (ctx w) with
  | None => (w, None)
  | Some call =>
      let sent := leave_request call w in
      (snd sent, Some (AwaitLeave (fst sent)))
  end.

(** The rest of a function after its [await], up to the next [await] or
    to its end. It reads none of the state cells: it only calls setters
    with the values it kept. *)
Definition resume (k : Pending) (w : World P) : World P * option Pending :=
  match k with
  | AwaitToken streamUser (inl _) => (exec streamClient_failed w, None)
  | AwaitToken streamUser (inr token) =>
      let sent :=
        request (createStreamChatClient streamUser token)
          (exec (run emit (OpCreateVideoClient (su_id streamUser)) ;;
                 emit (OpCreateChatClient (su_id streamUser))) w) in
      (snd sent, Some (AwaitChatClient streamUser token (fst sent)))
  | AwaitChatClient streamUser token (Some _) => (exec streamClient_failed w, None)
  | AwaitChatClient streamUser token None =>
      (exec (run setVideoClient (Some (mkVideoClient streamUser token)) ;;
             run setChatClient (Some (mkChatClient streamUser token)) ;;
             run setIsStreamReady true ;;
             run setVideoLoading false ;;
             setChatLoading false) w, None)
  | AwaitChannel (inl _) => (exec chatChannel_failed w, None)
  | AwaitChannel (inr channel) =>
      (exec (run setChatChannel (Some channel) ;; setChatLoading false) w, None)
  | AwaitGetOrCreate call (Some _) => (w, None)
  | AwaitGetOrCreate call None => (exec (setVideoCall (Some call)) w, None)
  | AwaitJoin call (Some _) => (w, None)
  | AwaitJoin call None => (exec (setVideoCall (Some call)) w, None)
  | AwaitStart _ => (w, None)
  | AwaitLeave (Some _) => (w, None)
  | AwaitLeave None => (exec (setVideoCall None) w, None)
  end.

(** A function run to its end with nothing in between: each awaited
    promise settles at once (a function has at most two awaits). *)
Definition at_once (r : World P * option Pending) : World P :=
  match snd r with
  | None => fst r
  | Some k =>
      match snd (resume k (fst r)) with
      | None => fst (resume k (fst r))
      | Some k' => fst (resume k' (fst (resume k (fst r))))
      end
  end.

(** The condition of the provider's effect. *)
Definition signed_in (a : Auth) : bool :=
  match isAuthenticated a, user a, userProfile a with
  | true, Some _, Some _ => true
  | _, _, _ => false
  end.

(** The first segment of what [Do a] runs, with the auth values of the
    render afterwards. [cleanupStream] has no [await]. *)
Definition start (au : Auth) (a : Action) (w : World P)
  : Auth * (World P * option Pending) :=
  match a with
  | AuthChanged au' =>
      (au', if signed_in au' then initializeStreamClient_call au' w
            else (exec cleanupStream w, None))
  | InitializeChatChannel partnerId partnerName =>
      (au, initializeChatChannel_call au partnerId partnerName w)
  | InitializeVideoCall partnerId => (au, initializeVideoCall_call au partnerId w)
  | JoinVideoCall callId => (au, joinVideoCall_call callId w)
  | StartVideoCall callToStart => (au, startVideoCall_call callToStart w)
  | EndVideoCall => (au, endVideoCall_call w)
  end.

Definition step (st : Provider) (e : Event) : Provider :=
  match e with
  | Do a =>
      let r := start (pauth st) a (pworld st) in
      mkProvider (fst r) (fst (snd r)) (pending st ++ opt_list (snd (snd r)))
  | Settle n =>
      match nth_error (pending st) n with
      | Some k =>
          let r := resume k (pworld st) in
          mkProvider (pauth st) (fst r)
            (remove_nth n (pending st) ++ opt_list (snd r))
      | None => st
      end
  end.

Definition run_provider (st : Provider) (es : list Event) : Provider :=
  fold_left step es st.

(** The provider as mounted, before its effect has run. *)
Definition mounted (a0 : Auth) (p : P) : Provider :=
  mkProvider a0 (initialWorld p) [].

End Provider.

Arguments Provider P : clear implicits.
Arguments mkProvider {P} _ _ _.
Arguments pauth {P} _.
Arguments pworld {P} _.
Arguments pending {P} _.

(** *** What holds of the provider at every moment *)

(** A pending initialisation of the clients, respectively a pending
    function that has raised the chat loading flag. *)
Definition is_client_init (k : Pending) : bool :=
  match k with
  | AwaitToken _ _ | AwaitChatClient _ _ _ => true
  | _ => false
  end.

Definition is_chat_init (k : Pending) : bool :=
  match k with
  | AwaitToken _ _ | AwaitChatClient _ _ _ | AwaitChannel _ => true
  | _ => false
  end.

(** The call handle a pending function will hold when it goes on. *)
Definition pending_call (k : Pending) : option Call :=
  match k with
  | AwaitGetOrCreate c _ | AwaitJoin c _ => Some c
  | _ => None
  end.

(** An SDK call of type 'default'. *)
Definition sdk_default (c : Call) : Prop :=
  exists cid, c = SdkCall "default" cid.

(** The two clients are present or absent together; a loading flag is up
    only while a function that raised it is pending. In demo mode there
    is no client, no call, and nothing is ever pending. Outside demo mode
    a ready provider has its video client, and a held call, like a call a
    pending function is about to hold, is an SDK call of type 'default'. *)
Definition invariant {P : Type} (demo : bool) (st : Provider P) : Prop :=
  let s := ctx (pworld st) in
  (videoClient s = None <-> chatClient s = None)
  /\ (videoLoading s = true -> existsb is_client_init (pending st) = true)
  /\ (chatLoading s = true -> existsb is_chat_init (pending st) = true)
  /\ (if demo
      then videoClient s = None /\ videoCall s = None /\ pending st = []
      else (isStreamReady s = true -> videoClient s <> None)
           /\ (forall c, videoCall s = Some c -> sdk_default c)
           /\ Forall (fun k => forall c, pending_call k = Some c -> sdk_default c)
                (pending st)).

(** The provider holds no client, no call and no channel and is not
    ready. *)
Definition cleared (s : StreamState) : Prop :=
  videoClient s = None /\ chatClient s = None /\ videoCall s = None
  /\ chatChannel s = None /\ isStreamReady s = false.

End Async.

(* ===================================================================== *)
(** ** Further sample data *)
(* ===================================================================== *)

Module MoreSamples.
Import Stream SpecPlatform CoachStudent Home Samples.

(** The coach u2 on the selection screen, the students loaded. *)
Definition coach_selecting : App.AppState Platform :=
  sample_run (App.initialApp auth_coach ready_world)
    [App.LoadStudentsBegin; App.LoadStudentsEnd (BackendServing db_active)].

(** A scheduler's queue with two reminders of the session t1, one of a
    session t2 and a notification without data. *)
Definition sample_queue : list Scheduler.Scheduled :=
  [Scheduler.mkScheduled 0
     (Some (Scheduler.mkData (Some "session_reminder") (Some "t1")));
   Scheduler.mkScheduled 1
     (Some (Scheduler.mkData (Some "session_reminder") (Some "t2")));
   Scheduler.mkScheduled 2 None;
   Scheduler.mkScheduled 3
     (Some (Scheduler.mkData (Some "session_reminder") (Some "t1")))].

Definition sample_os : Scheduler.OS := Scheduler.mkOS sample_queue 4.

(** The form of a new resource, filled in without choosing a subject. *)
Definition new_form : Resources.ResourceFormData :=
  Resources.mkForm None "Limits" "Lecture notes" "https://example.org/limits"
    "pdf" "" None true.

(** A resource of the subject s1. *)
Definition resource1 : Resources.Resource :=
  Resources.mkResource "r1" "Derivatives" None "https://example.org/d" "video"
    (Some "s1") None true.

(** The provider of the student u1 outside demo mode, right after the
    sign-in: [initializeStreamClient] is waiting for its token. *)
Definition waiting_for_token : Async.Provider Platform :=
  @Async.run_provider _ open_lib false
    (Async.mounted App.signedOut empty_platform)
    [Async.Do (AuthChanged auth_student)].

(** The same provider later: the clients are connected, and
    [initializeVideoCall] for the coach u2 is waiting for the answer of
    [getOrCreate]. *)
Definition waiting_for_call : Async.Provider Platform :=
  @Async.run_provider _ open_lib false waiting_for_token
    [Async.Settle 0; Async.Settle 0; Async.Do (InitializeVideoCall "u2")].

(** A resource whose subject identifier is the name of a property every
    object inherits. *)
Definition resource_constructor : Resources.Resource :=
  Resources.mkResource "r3" "Integrals" None "https://example.org/i" "pdf"
    (Some "constructor") None true.

End MoreSamples.

(* ===================================================================== *)
(** * Properties *)
(* ===================================================================== *)

(** ** Identity deriver *)

Module IdentityFacts.
Import Identity.

Lemma min_id_comm (a b : string) : min_id a b = min_id b a.
Proof.
  unfold min_id.
  destruct (String.leb a b) eqn:Hab, (String.leb b a) eqn:Hba; try reflexivity.
  - now apply String.leb_antisym.
  - destruct (String.leb_total a b) as [Ht | Ht]; congruence.
Qed.

Lemma max_id_comm (a b : string) : max_id a b = max_id b a.
Proof.
  unfold max_id.
  destruct (String.leb a b) eqn:Hab, (String.leb b a) eqn:Hba; try reflexivity.
  - symmetry. now apply String.leb_antisym.
  - destruct (String.leb_total a b) as [Ht | Ht]; congruence.
Qed.

Example derive_u1_u2 :
  createVideoCallId (fun _ => true) "u1" "u2" = inr "u1:u2"
  /\ createVideoCallId (fun _ => true) "u2" "u1" = inr "u1:u2".
Proof. split; reflexivity. Qed.

(** A derived identifier comes from two non-empty, accepted identifiers. *)
Lemma createVideoCallId_inr (id_ok : string -> bool) (a b cid : string) :
  createVideoCallId id_ok a b = inr cid ->
  a <> "" /\ b <> "" /\ id_ok a = true /\ id_ok b = true
  /\ cid = (min_id a b ++ ":" ++ max_id a b)%string.
Proof.
  unfold createVideoCallId.
  destruct a as [|ca ra], b as [|cb rb]; simpl; try discriminate.
  destruct (id_ok (String ca ra)), (id_ok (String cb rb)); simpl;
    try discriminate.
  intros [= <-]. repeat split; discriminate.
Qed.

Lemma derive_swap (id_ok : string -> bool) (a b : string) :
  createVideoCallId id_ok a b = createVideoCallId id_ok b a.
Proof.
  unfold createVideoCallId.
  rewrite (orb_comm (is_empty b)), (orb_comm (negb (id_ok b))).
  rewrite (min_id_comm b a), (max_id_comm b a).
  reflexivity.
Qed.

(** C1. The session-identifier derivation is commutative: for every pair
    of participant identifiers A and B (and whatever the platform's
    character-set constraint is), deriving from (A, B) and from (B, A)
    gives the same outcome, the same identifier or the same failure. *)
Theorem createVideoCallId_comm (id_ok : string -> bool) (idA idB : string) :
  createVideoCallId id_ok idA idB = createVideoCallId id_ok idB idA.
Proof. apply derive_swap. Qed.

Lemma createVideoCallId_empty_l (id_ok : string -> bool) (x : string) :
  createVideoCallId id_ok "" x = inl InvalidIdentifier.
Proof. reflexivity. Qed.

Lemma createVideoCallId_empty_r (id_ok : string -> bool) (x : string) :
  createVideoCallId id_ok x "" = inl InvalidIdentifier.
Proof.
  unfold createVideoCallId. simpl. now rewrite orb_true_r.
Qed.

End IdentityFacts.

(** ** Stream context *)

Module StreamFacts.
Import Stream.

(** Evaluate a context function down to the answers of the platform. *)
Ltac eval_m :=
  lazy -[call_leave call_join call_getOrCreate generateUserToken
         createStreamChatClient createChatChannel disconnectVideoUser
         disconnectChatUser formatStreamUser id_ok
         Identity.createVideoCallId app String.eqb List.filter].

(** Split a world into its state cells. *)
Ltac split_world w :=
  let s := fresh "s" in
  let p := fresh "p" in
  let l := fresh "l" in
  destruct w as [s p l];
  destruct s as [vcl vca vlo ver ccl cch clo cer rdy];
  cbn [ctx platform log videoClient videoCall videoLoading videoError
       chatClient chatChannel chatLoading chatError isStreamReady] in *.

Section Generic.

Context {P : Type} `{StreamLib P}.

(** Without a video client (or without a user) [initializeVideoCall]
    throws, in demo mode as well: the guard comes first. *)
Lemma initializeVideoCall_no_client (demo : bool) (auth : Auth)
    (partnerId : string) (w : World P) :
  videoClient (ctx w) = None ->
  initializeVideoCall demo auth partnerId w
  = (Throw (Error "Video client not initialized"), w).
Proof.
  intros Hc. split_world w. subst vcl. reflexivity.
Qed.

(** With a client and a user, demo mode returns the mock handle and makes
    no SDK call. *)
Lemma initializeVideoCall_demo_stub (auth : Auth) (partnerId : string)
    (w : World P) (vc : VideoClient) (u : User) :
  videoClient (ctx w) = Some vc ->
  user auth = Some u ->
  exists s', initializeVideoCall true auth partnerId w
             = (Ok MockCall, mkWorld s' (platform w) (log w))
             /\ videoCall s' = Some MockCall.
Proof.
  intros Hc Hu. split_world w. subst vcl.
  destruct auth as [ia [u'|] up]; cbn in Hu; [|discriminate].
  eexists. split; reflexivity.
Qed.

(** The mock handle's [join] and [leave] do not reach the platform. *)
Lemma mock_join_leave_noop (w : World P) :
  join MockCall w = (Ok tt, mkWorld (ctx w) (platform w) (log w ++ [OpJoin MockCall]))
  /\ leave MockCall w = (Ok tt, mkWorld (ctx w) (platform w) (log w ++ [OpLeave MockCall])).
Proof. split; reflexivity. Qed.

(** In demo mode no action of a run sets the video client. *)
Lemma act_demo_keeps_no_client (st : Auth * World P) (a : Action) :
  videoClient (ctx (snd st)) = None ->
  videoClient (ctx (snd (act true st a))) = None.
Proof.
  destruct st as [au w]. cbn [snd]. intros Hc. split_world w. subst vcl.
  destruct a as [au' | pid pname | pid | cid | c | ]; cbn [act snd].
  - destruct au' as [[|] [u|] [pr|]]; destruct ccl; reflexivity.
  - reflexivity.
  - reflexivity.
  - reflexivity.
  - destruct c; [reflexivity|]. destruct vca; reflexivity.
  - destruct vca as [[ty cid|]|]; try reflexivity.
    eval_m. destruct (call_leave cid p) as [[e|] p']; reflexivity.
Qed.

Lemma run_demo_no_client (l : list Action) (st : Auth * World P) :
  videoClient (ctx (snd st)) = None ->
  videoClient (ctx (snd (run_actions true st l))) = None.
Proof.
  revert st. induction l as [|a l IH]; intros st Hc; [exact Hc|].
  cbn [run_actions fold_left]. apply IH. now apply act_demo_keeps_no_client.
Qed.

(** C2 (the code diverges). In demo mode the provider never holds a video
    client: whatever the initial auth values were and whatever happened to
    the provider since it was mounted, [initializeVideoCall] throws
    'Video client not initialized' at its first guard, leaves the state as
    it is and does not return the mock handle. *)
Theorem initializeVideoCall_demo_throws (a0 : Auth) (p : P) (l : list Action)
    (partnerId : string) :
  let st := run_actions true (a0, initialWorld p) l in
  initializeVideoCall true (fst st) partnerId (snd st)
  = (Throw (Error "Video client not initialized"), snd st).
Proof.
  intros st. apply initializeVideoCall_no_client.
  subst st. now apply run_demo_no_client.
Qed.

(** C3. Ending the call when no call is active returns normally and
    changes nothing: not the context state, not the platform, and no SDK
    operation is invoked. *)
Theorem endVideoCall_no_call (w : World P) :
  videoCall (ctx w) = None ->
  endVideoCall w = (Ok tt, w).
Proof.
  intros Hc. split_world w. subst vca. reflexivity.
Qed.


(** Signing out: [cleanupStream] discards the handle and the only SDK
    operations it invokes are the two disconnects. *)
Lemma cleanupStream_ops (w : World P) :
  videoCall (ctx (snd (cleanupStream w))) = None
  /\ exists ops, log (snd (cleanupStream w)) = (log w ++ ops)%list
                 /\ Forall (fun op => op = OpDisconnectVideoUser
                                      \/ op = OpDisconnectChatUser) ops.
Proof.
  split_world w. destruct vcl, ccl; (split; [reflexivity|]).
  - exists [OpDisconnectVideoUser; OpDisconnectChatUser]. split.
    + change (((l ++ [OpDisconnectVideoUser]) ++ [OpDisconnectChatUser])%list
              = (l ++ [OpDisconnectVideoUser; OpDisconnectChatUser])%list).
      now rewrite <- app_assoc.
    + repeat (apply List.Forall_cons; [auto|]). apply List.Forall_nil.
  - exists [OpDisconnectVideoUser]. split; [reflexivity|].
    repeat (apply List.Forall_cons; [auto|]). apply List.Forall_nil.
  - exists [OpDisconnectChatUser]. split; [reflexivity|].
    repeat (apply List.Forall_cons; [auto|]). apply List.Forall_nil.
  - exists []. split; [|apply List.Forall_nil]. rewrite app_nil_r. reflexivity.
Qed.

(** An identifier the deriver rejects stops [initializeVideoCall] before
    any SDK operation. *)
Lemma initializeVideoCall_invalid_id (auth : Auth) (partnerId : string)
    (w : World P) (vc : VideoClient) (u : User) :
  videoClient (ctx w) = Some vc ->
  user auth = Some u ->
  Identity.createVideoCallId id_ok (user_id u) partnerId
  = inl Identity.InvalidIdentifier ->
  initializeVideoCall false auth partnerId w = (Throw InvalidIdentifierError, w).
Proof.
  intros Hc Hu Hd. split_world w. subst vcl.
  destruct auth as [ia [u'|] up]; cbn in Hu; [|discriminate].
  injection Hu as ->. destruct u as [uid uem]. cbn [user_id] in Hd.
  eval_m. rewrite Hd. reflexivity.
Qed.

(** C8. Deriving from an empty participant identifier fails with
    [InvalidIdentifier], on either side and whatever the other identifier
    is, in particular for the pair ("", "x"); and when the user's or the
    partner's identifier is empty, [initializeVideoCall] throws before any
    SDK operation: the state, the platform and the log are unchanged. *)
Theorem empty_identifier_rejected (auth : Auth) (partnerId : string)
    (w : World P) (vc : VideoClient) (u : User) :
  videoClient (ctx w) = Some vc ->
  user auth = Some u ->
  user_id u = "" \/ partnerId = "" ->
  Identity.createVideoCallId id_ok "" "x" = inl Identity.InvalidIdentifier
  /\ Identity.createVideoCallId id_ok (user_id u) partnerId
     = inl Identity.InvalidIdentifier
  /\ initializeVideoCall false auth partnerId w = (Throw InvalidIdentifierError, w).
Proof.
  intros Hc Hu He.
  assert (Hd : Identity.createVideoCallId id_ok (user_id u) partnerId
               = inl Identity.InvalidIdentifier).
  { destruct He as [-> | ->];
      [apply IdentityFacts.createVideoCallId_empty_l
      |apply IdentityFacts.createVideoCallId_empty_r]. }
  split; [reflexivity|]. split; [exact Hd|].
  now apply initializeVideoCall_invalid_id with (vc := vc) (u := u).
Qed.

End Generic.

End StreamFacts.

(** ** The modelled platform *)

Module PlatformFacts.
Import Stream SpecPlatform.

(** Evaluate a context function run against the modelled platform, down
    to the deriver and the platform's create-or-fetch. *)
Ltac eval_p :=
  lazy -[getOrCreate Identity.createVideoCallId app].
Ltac eval_p_in H :=
  lazy -[getOrCreate Identity.createVideoCallId app] in H.

Lemma getOrCreate_existing (accepts : string -> bool) (cid : string)
    (members : list string) (p : Platform) (ms : gset string) :
  sessions p !! cid = Some ms ->
  getOrCreate accepts cid members p = (None, p).
Proof. intros Hl. unfold getOrCreate. now rewrite Hl. Qed.

Lemma getOrCreate_ok_exists (accepts : string -> bool) (cid : string)
    (members : list string) (p p' : Platform) :
  getOrCreate accepts cid members p = (None, p') ->
  is_Some (sessions p' !! cid).
Proof.
  unfold getOrCreate. destruct (sessions p !! cid) as [ms|] eqn:Hl.
  - intros [= <-]. rewrite Hl. eauto.
  - destruct (accepts cid); [|discriminate].
    intros [= <-]. cbn. rewrite lookup_insert_eq. eauto.
Qed.

(** Create-or-fetch is idempotent on the platform: after a successful
    call, the same call succeeds again and leaves the store as it is. *)
Lemma getOrCreate_twice (accepts : string -> bool) (cid : string)
    (members members' : list string) (p p' : Platform) :
  getOrCreate accepts cid members p = (None, p') ->
  getOrCreate accepts cid members' p' = (None, p').
Proof.
  intros Hg. destruct (getOrCreate_ok_exists _ _ _ _ _ Hg) as [ms Hms].
  now apply getOrCreate_existing with (ms := ms).
Qed.

(** The store grows by at most the one session asked for. *)
Lemma getOrCreate_other (accepts : string -> bool) (cid cid' : string)
    (members : list string) (p : Platform) :
  cid' <> cid ->
  sessions (snd (getOrCreate accepts cid members p)) !! cid' = sessions p !! cid'.
Proof.
  intros Hne. unfold getOrCreate.
  destruct (sessions p !! cid); [reflexivity|].
  destruct (accepts cid); [|reflexivity].
  cbn. now rewrite lookup_insert_ne.
Qed.

(** A first creation registers both participants as members. *)
Lemma getOrCreate_fresh_members (accepts : string -> bool) (cid : string)
    (a b : string) (p p' : Platform) :
  sessions p !! cid = None ->
  getOrCreate accepts cid [a; b] p = (None, p') ->
  sessions p' !! cid = Some ({[a; b]} : gset string).
Proof.
  intros Hl. unfold getOrCreate. rewrite Hl.
  destruct (accepts cid); [|discriminate].
  intros [= <-]. cbn. rewrite lookup_insert_eq. f_equal.
  now rewrite union_empty_r_L.
Qed.

(** C4. On the modelled platform, initialising the call of a user pair is
    idempotent: when a first [initializeVideoCall] returned a handle, a
    second one for the same pair does not throw, returns the same handle,
    and leaves both the context state and the platform's store unchanged
    (no second session is created); the only trace of it is the second
    [getOrCreate] invocation with the same identifier and members, and the
    session the handle names exists on the platform with its membership. *)
Theorem initializeVideoCall_idempotent (accepts : string -> bool)
    (auth : Auth) (partnerId : string) (w w1 : World Platform) (call : Call) :
  @initializeVideoCall _ (lib accepts) false auth partnerId w = (Ok call, w1) ->
  exists cid members,
    call = SdkCall "default" cid
    /\ @initializeVideoCall _ (lib accepts) false auth partnerId w1
       = (Ok call,
          mkWorld (ctx w1) (platform w1) (log w1 ++ [OpGetOrCreate cid members]))
    /\ is_Some (sessions (platform w1) !! cid).
Proof.
  intros Hinit. StreamFacts.split_world w.
  destruct auth as [ia [[uid uem]|] up], vcl as [vc|];
    try (eval_p_in Hinit; discriminate).
  eval_p_in Hinit.
  destruct (Identity.createVideoCallId accepts uid partnerId)
    as [e|cid] eqn:Hd; [discriminate|].
  destruct (getOrCreate accepts cid [uid; partnerId] p)
    as [[e|] p'] eqn:Hg; [discriminate|].
  injection Hinit as <- <-.
  exists cid, [uid; partnerId]. split; [reflexivity|].
  split; [|exact (getOrCreate_ok_exists _ _ _ _ _ Hg)].
  eval_p. rewrite Hd, (getOrCreate_twice _ _ _ _ _ _ Hg). reflexivity.
Qed.

(** The two participants of a pair reach the same session: after one
    side initialised the call, the other side, deriving from its own
    (self, partner) order, is handed the session that already exists and
    the platform's store stays as it is. *)
Lemma both_sides_same_session (accepts : string -> bool)
    (authA authB : Auth) (uA uB : User) (wA wB wA' : World Platform)
    (callA : Call) (vcB : VideoClient) :
  user authA = Some uA -> user authB = Some uB ->
  videoClient (ctx wB) = Some vcB ->
  platform wB = platform wA' ->
  @initializeVideoCall _ (lib accepts) false authA (user_id uB) wA = (Ok callA, wA') ->
  fst (@initializeVideoCall _ (lib accepts) false authB (user_id uA) wB) = Ok callA
  /\ platform (snd (@initializeVideoCall _ (lib accepts) false authB (user_id uA) wB))
     = platform wA'.
Proof.
  intros HuA HuB HcB Hp Hinit.
  destruct authA as [iaA oA upA], authB as [iaB oB upB]. cbn in HuA, HuB.
  subst oA oB. destruct uA as [ida ema], uB as [idb emb].
  cbn [user_id] in *.
  destruct wA as [[vclA vcaA vloA verA cclA cchA cloA cerA rdyA] pA lA].
  destruct wB as [[vclB vcaB vloB verB cclB cchB cloB cerB rdyB] pB lB].
  cbn in HcB, Hp. subst vclB.
  destruct vclA as [vcA|]; [|eval_p_in Hinit; discriminate].
  eval_p_in Hinit. eval_p.
  rewrite (IdentityFacts.derive_swap accepts idb ida).
  destruct (Identity.createVideoCallId accepts ida idb)
    as [e|cid]; [discriminate|].
  destruct (getOrCreate accepts cid [ida; idb] pA)
    as [[e|] p'] eqn:Hg; [discriminate|].
  injection Hinit as <- <-. cbn in Hp. subst pB.
  rewrite (getOrCreate_twice _ _ _ [idb; ida] _ _ Hg).
  split; reflexivity.
Qed.

End PlatformFacts.


(** ** Navigator and application *)

Module AppFacts.
Import Stream CoachStudent Navigator Home App.

Lemma role_coach_not_student (up : option UserProfile) :
  role_is up "coach" = true -> role_is up "student" = false.
Proof.
  destruct up as [p|]; cbn; [|discriminate].
  intros Hc. apply String.eqb_eq in Hc. now rewrite Hc.
Qed.

Lemma skipn_app_exact {A} (l l' : list A) : skipn (length l) (l ++ l') = l'.
Proof. induction l as [|x l IH]; [reflexivity | exact IH]. Qed.

Lemma filter_none {A} (f : A -> bool) (l : list A) :
  Forall (fun x => f x = false) l -> List.filter f l = [].
Proof.
  induction 1 as [|x l Hx _ IH]; [reflexivity|]. cbn. now rewrite Hx.
Qed.

(** A coach without active assignments is answered the empty list. *)
Lemma zero_active_students (coachId : string) (db : Database) :
  zero_active coachId (BackendServing db) ->
  query_assignments (BackendServing db) coachId = QueryData (Some []).
Proof.
  cbn. intros Hz. rewrite filter_none; [reflexivity|].
  eapply List.Forall_impl; [|exact Hz]. cbn. intros a Ha.
  destruct (String.eqb (coach_id a) coachId) eqn:He; [|reflexivity].
  apply String.eqb_eq in He. cbn. auto.
Qed.

(** Reduce the projections of an application state. *)
Ltac app_proj :=
  cbn [auth studentSelected coachStudent world with_world initialApp] in *.

Section Application.

Context {P : Type} `{StreamLib P}.
Variable isDemoMode : bool.
Variable supabaseAvailable : bool.
Variable dateTimeMs : option string -> string -> JS.num.

Local Abbreviation step := (App.step isDemoMode supabaseAvailable dateTimeMs).
Local Abbreviation run_events :=
  (App.run_events isDemoMode supabaseAvailable dateTimeMs).

Lemma run_events_snoc (app : AppState P) (es : list Event) (e : Event) :
  run_events app (es ++ [e]) = step (run_events app es) e.
Proof. unfold App.run_events. now rewrite fold_left_app. Qed.

(** On the login screen nothing of the authenticated tree is mounted. *)
Lemma step_login (app : AppState P) (e : Event) :
  AppNavigator app = LoginScreen -> step app e = app.
Proof. intros Hn. unfold App.step. rewrite Hn. reflexivity. Qed.

Lemma signedOut_login (app : AppState P) :
  auth app = signedOut -> AppNavigator app = LoginScreen.
Proof. intros Ho. unfold AppNavigator. now rewrite Ho. Qed.

(** What the navigator shows to a signed-in coach. *)
Lemma coach_navigator (app : AppState P) :
  isAuthenticated (auth app) = true ->
  role_is (userProfile (auth app)) "coach" = true ->
  AppNavigator app
  = if studentSelected app then MainTabsScreen
    else Selection (selectionScreen (coachStudent app)).
Proof.
  intros Hi Hr. unfold AppNavigator, renderMainContent.
  rewrite Hi, (role_coach_not_student _ Hr), Hr.
  now destruct (studentSelected app).
Qed.

(** The selection screen is the coach/student context's view, and a card
    is one of the available students. *)
Lemma selection_card (app : AppState P) (v : SelectionView) (i : nat)
    (student : UserProfile) :
  AppNavigator app = Selection v ->
  nth_error (cards_of v) i = Some student ->
  nth_error (availableStudents (coachStudent app)) i = Some student.
Proof.
  unfold AppNavigator.
  destruct (negb (isAuthenticated (auth app))); [discriminate|].
  destruct (renderMainContent _ _); [discriminate|].
  intros [= <-]. unfold selectionScreen.
  destruct (loading (coachStudent app) && is_nil (availableStudents (coachStudent app))).
  - cbn. now destruct i.
  - cbn. destruct (availableStudents (coachStudent app)); cbn; [now destruct i | auto].
Qed.

(** An event leaves the auth values alone or signs out. *)
Lemma step_auth (app : AppState P) (e : Event) :
  auth (step app e) = auth app
  \/ (auth (step app e) = signedOut /\ studentSelected (step app e) = false).
Proof.
  unfold App.step.
  destruct (AppNavigator app) as [|v|]; destruct e; app_proj; auto.
  destruct (nth_error (cards_of v) i); app_proj; auto.
Qed.

Lemma run_auth (a : Auth) (w : World P) (es : list Event) :
  auth (run_events (initialApp a w) es) = a
  \/ (auth (run_events (initialApp a w) es) = signedOut
      /\ studentSelected (run_events (initialApp a w) es) = false).
Proof.
  induction es as [|e es IH] using rev_ind; [left; reflexivity|].
  rewrite run_events_snoc.
  destruct (step_auth (run_events (initialApp a w) es) e) as [He | He].
  - rewrite He. destruct IH as [IH | [IH Hs]]; [now left|].
    right. split; [exact IH|].
    rewrite step_login; [exact Hs|]. now apply signedOut_login.
  - now right.
Qed.

(** [studentSelected] becomes true only by pressing a card of the
    selection screen. *)
Lemma step_selected (app : AppState P) (e : Event) :
  studentSelected (step app e) = true ->
  studentSelected app = true
  \/ exists i v student,
       e = PressStudent i /\ AppNavigator app = Selection v
       /\ nth_error (cards_of v) i = Some student.
Proof.
  unfold App.step.
  destruct (AppNavigator app) as [|v|] eqn:Hn; destruct e; app_proj; auto;
    try discriminate.
  destruct (nth_error (cards_of v) i) as [student|] eqn:Hi; app_proj; auto.
  intros _. right. exists i, v, student. auto.
Qed.

Lemma selected_has_press (a : Auth) (w : World P) (es : list Event) :
  studentSelected (run_events (initialApp a w) es) = true ->
  exists es1 i es2 student,
    es = (es1 ++ PressStudent i :: es2)%list
    /\ nth_error
         (availableStudents (coachStudent (run_events (initialApp a w) es1))) i
       = Some student.
Proof.
  induction es as [|e es IH] using rev_ind; [discriminate|].
  rewrite run_events_snoc. intros Hs.
  apply step_selected in Hs as [Hs | (i & v & student & -> & Hn & Hi)].
  - destruct (IH Hs) as (es1 & i & es2 & student & -> & Hi).
    exists es1, i, (es2 ++ [e]), student. split; [|exact Hi].
    now rewrite <- app_assoc.
  - exists es, i, [], student. split; [reflexivity|].
    now apply selection_card with (v := v).
Qed.

(** C5. The role gate. For a signed-in participant and any sequence of
    events: with role 'student' the navigator shows the main tabs, with no
    selection step; with role 'coach' it first shows the selection screen,
    keeps showing it while no student is selected, and shows the main tabs
    only after a card of the selection screen has been pressed, that is
    after the coach picked one of the students the assignment query
    returned; with any other role, or no profile, it shows the main tabs
    like for a student. *)
Theorem role_gate (a : Auth) (w : World P) (es : list Event) :
  isAuthenticated a = true ->
  let app := run_events (initialApp a w) es in
  (role_is (userProfile a) "student" = true ->
   isAuthenticated (auth app) = true -> AppNavigator app = MainTabsScreen)
  /\ (role_is (userProfile a) "coach" = true ->
      AppNavigator (initialApp a w)
      = Selection (selectionScreen initialCoachStudentState)
      /\ (isAuthenticated (auth app) = true -> studentSelected app = false ->
          AppNavigator app = Selection (selectionScreen (coachStudent app)))
      /\ (AppNavigator app = MainTabsScreen ->
          exists es1 i es2 student,
            es = (es1 ++ PressStudent i :: es2)%list
            /\ nth_error
                 (availableStudents
                    (coachStudent (run_events (initialApp a w) es1))) i
               = Some student))
  /\ (role_is (userProfile a) "student" = false ->
      role_is (userProfile a) "coach" = false ->
      isAuthenticated (auth app) = true -> AppNavigator app = MainTabsScreen).
Proof.
  intros Ha app.
  assert (Hauth : isAuthenticated (auth app) = true -> auth app = a).
  { intros Hin. destruct (run_auth a w es) as [Hr | [Hr _]]; [exact Hr|].
    subst app. rewrite Hr in Hin. discriminate. }
  split; [|split].
  - intros Hr Hin. unfold AppNavigator. rewrite Hin. cbn [negb].
    rewrite (Hauth Hin). unfold renderMainContent. now rewrite Hr.
  - intros Hr. split; [|split].
    + now rewrite coach_navigator.
    + intros Hin Hsel. rewrite coach_navigator, Hsel; auto.
      now rewrite (Hauth Hin).
    + intros Hn. apply selected_has_press. fold app.
      destruct (isAuthenticated (auth app)) eqn:Hin.
      * rewrite coach_navigator in Hn; auto.
        -- now destruct (studentSelected app).
        -- now rewrite (Hauth eq_refl).
      * unfold AppNavigator in Hn. rewrite Hin in Hn. discriminate.
  - intros Hns Hnc Hin. unfold AppNavigator. rewrite Hin. cbn [negb].
    rewrite (Hauth Hin). unfold renderMainContent. now rewrite Hns, Hnc.
Qed.

(** *** A coach without active assignments *)

(** Signing out invokes no session initialiser. *)
Lemma signOut_session_inits (w : World P) :
  session_inits (exec (authEffect isDemoMode signedOut) w) = session_inits w.
Proof.
  change (exec (authEffect isDemoMode signedOut) w) with (snd (cleanupStream w)).
  destruct (StreamFacts.cleanupStream_ops w) as [_ (ops & Hl & Hops)].
  unfold session_inits. rewrite Hl, List.filter_app, (filter_none _ ops).
  - apply app_nil_r.
  - eapply List.Forall_impl; [|exact Hops]. cbn. now intros op [-> | ->].
Qed.

Lemma unassigned_step (a : Auth) (p : UserProfile) (w : World P)
    (app : AppState P) (e : Event) :
  isAuthenticated a = true -> userProfile a = Some p -> role p = "coach" ->
  (forall b, e = LoadStudentsEnd b -> zero_active (profile_id p) b) ->
  unassigned a w app -> unassigned a w (step app e).
Proof.
  intros Ha Hp Hr Hz [Hlog [(Hau & Hsel & Hav) | Hout]].
  - assert (Hn : AppNavigator app = Selection (selectionScreen (coachStudent app))).
    { rewrite coach_navigator, Hsel; rewrite ?Hau, ?Hp; auto.
      cbn. now rewrite Hr. }
    unfold App.step. rewrite Hn.
    destruct e as [ | b | i | session now | ac | ac | | | | ]; app_proj;
      try (split; [exact Hlog | left; repeat split; assumption]).
    + (* the query is sent *)
      split; [exact Hlog|]. left. repeat split; auto.
      unfold loadStudents_begin.
      destruct (negb (is_coach _)); [exact Hav|].
      destruct (negb supabaseAvailable); exact Hav.
    + (* the query is answered *)
      split; [exact Hlog|]. left. repeat split; auto.
      unfold loadStudents_end. rewrite Hau, Hp.
      destruct (is_coach (Some p) && supabaseAvailable); [|exact Hav].
      destruct b as [|db]; [exact Hav|].
      rewrite zero_active_students by (now apply Hz). reflexivity.
    + (* a press finds no card *)
      assert (Hc : nth_error (cards_of (selectionScreen (coachStudent app))) i = None).
      { unfold selectionScreen. rewrite Hav.
        destruct (loading (coachStudent app)); now destruct i. }
      rewrite Hc. split; [exact Hlog | left; auto].
    + (* sign-out *)
      split; [|now right]. app_proj. rewrite signOut_session_inits. exact Hlog.
  - rewrite step_login; [split; auto|]. now apply signedOut_login.
Qed.

Lemma unassigned_run (a : Auth) (p : UserProfile) (w : World P)
    (es : list Event) :
  isAuthenticated a = true -> userProfile a = Some p -> role p = "coach" ->
  (forall b, In (LoadStudentsEnd b) es -> zero_active (profile_id p) b) ->
  unassigned a w (run_events (initialApp a w) es).
Proof.
  intros Ha Hp Hr.
  induction es as [|e es IH] using rev_ind; intros Hz.
  - split; [reflexivity|]. left. auto.
  - rewrite run_events_snoc.
    apply unassigned_step with (p := p); auto.
    + intros b ->. apply Hz, in_or_app. right. now left.
    + apply IH. intros b Hb. apply Hz, in_or_app. now left.
Qed.

(** A signed-in state reached by a run was signed in all along. *)
Lemma signed_in_prefix (a : Auth) (w : World P) (es es' : list Event) :
  isAuthenticated (auth (run_events (initialApp a w) (es ++ es'))) = true ->
  auth (run_events (initialApp a w) es) = a.
Proof.
  induction es' as [|e es' IH] using rev_ind.
  - rewrite app_nil_r. intros Hi.
    destruct (run_auth a w es) as [Hr | [Hr _]]; [exact Hr|].
    rewrite Hr in Hi. discriminate.
  - rewrite app_assoc, run_events_snoc. intros Hi. apply IH.
    destruct (run_auth a w (es ++ es')) as [Hr | [Hr _]].
    + rewrite Hr.
      destruct (step_auth (run_events (initialApp a w) (es ++ es')) e)
        as [He | [He _]]; rewrite He in Hi; [now rewrite Hr in Hi | discriminate].
    + rewrite step_login in Hi by now apply signedOut_login.
      rewrite Hr in Hi. discriminate.
Qed.

Lemma run_events_two (app : AppState P) (es : list Event) (e1 e2 : Event) :
  run_events app (es ++ [e1; e2]) = step (step (run_events app es) e1) e2.
Proof.
  change [e1; e2] with ([e1] ++ [e2]).
  now rewrite app_assoc, !run_events_snoc.
Qed.

Lemma signed_in_not_login (app : AppState P) :
  isAuthenticated (auth app) = true -> AppNavigator app <> LoginScreen.
Proof.
  intros Hi. unfold AppNavigator. rewrite Hi. cbn [negb].
  now destruct (renderMainContent _ _).
Qed.

Lemma step_load_begin (app : AppState P) :
  AppNavigator app <> LoginScreen ->
  step app LoadStudentsBegin
  = mkApp (auth app) (studentSelected app)
      (loadStudents_begin (userProfile (auth app)) supabaseAvailable (coachStudent app))
      (world app).
Proof.
  intros Hn. unfold App.step. now destruct (AppNavigator app).
Qed.

Lemma step_load_end (app : AppState P) (b : Backend) :
  AppNavigator app <> LoginScreen ->
  step app (LoadStudentsEnd b)
  = mkApp (auth app) (studentSelected app)
      (loadStudents_end (userProfile (auth app)) supabaseAvailable b (coachStudent app))
      (world app).
Proof.
  intros Hn. unfold App.step. now destruct (AppNavigator app).
Qed.

(** C6. A signed-in coach whose assignment queries find no active
    assignment stays in the partner-selection flow with an empty list:
    whatever the events, no session initialiser (no [getOrCreate], no
    channel creation) is invoked and the navigator never shows the main
    tabs; while the coach is signed in it shows the selection screen
    without a single student card, and right after a query was sent and
    answered by the backing store (the database client being available)
    it shows the page with the 'No students assigned' box and no error. *)
Theorem coach_without_assignments (a : Auth) (p : UserProfile) (w : World P)
    (es : list Event) :
  isAuthenticated a = true ->
  userProfile a = Some p ->
  role p = "coach" ->
  (forall b, In (LoadStudentsEnd b) es -> zero_active (profile_id p) b) ->
  let app := run_events (initialApp a w) es in
  session_inits (world app) = session_inits w
  /\ AppNavigator app <> MainTabsScreen
  /\ (isAuthenticated (auth app) = true ->
      exists v, AppNavigator app = Selection v /\ cards_of v = [])
  /\ (forall es' db,
        es = es' ++ [LoadStudentsBegin; LoadStudentsEnd (BackendServing db)] ->
        supabaseAvailable = true ->
        isAuthenticated (auth app) = true ->
        AppNavigator app = Selection (SelectionPage None true [])).
Proof.
  intros Ha Hp Hr Hz app.
  assert (Hcoach : role_is (userProfile a) "coach" = true).
  { rewrite Hp. cbn. now rewrite Hr. }
  destruct (unassigned_run a p w es Ha Hp Hr Hz) as [Hlog Hst].
  fold app in Hlog, Hst.
  assert (Hin : isAuthenticated (auth app) = true ->
                auth app = a /\ studentSelected app = false
                /\ availableStudents (coachStudent app) = []).
  { intros Hi. destruct Hst as [Hst | Hout]; [exact Hst|].
    rewrite Hout in Hi. discriminate. }
  assert (Hnav : isAuthenticated (auth app) = true ->
                 AppNavigator app = Selection (selectionScreen (coachStudent app))).
  { intros Hi. destruct (Hin Hi) as (Hau & Hsel & _).
    rewrite coach_navigator, Hsel; rewrite ?Hau; auto. }
  split; [exact Hlog|]. split; [|split].
  - destruct (isAuthenticated (auth app)) eqn:Hi.
    + rewrite (Hnav eq_refl). discriminate.
    + unfold AppNavigator. rewrite Hi. discriminate.
  - intros Hi. rewrite (Hnav Hi). eexists. split; [reflexivity|].
    destruct (Hin Hi) as (_ & _ & Hav). unfold selectionScreen. rewrite Hav.
    now destruct (loading (coachStudent app)).
  - intros es' db Hes Hsup Hi. rewrite (Hnav Hi). f_equal.
    assert (Hz1 : zero_active (profile_id p) (BackendServing db)).
    { apply Hz. rewrite Hes. apply in_or_app. right. right. now left. }
    assert (Hu0 : unassigned a w (run_events (initialApp a w) es')).
    { apply unassigned_run with (p := p); auto.
      intros b Hb. apply Hz. rewrite Hes. apply in_or_app. now left. }
    subst es. unfold app in *. clear app Hlog Hst Hin Hnav.
    pose proof (signed_in_prefix a w es' _ Hi) as Hau0.
    rewrite run_events_two. rewrite run_events_two in Hi.
    set (app0 := run_events (initialApp a w) es') in *.
    destruct Hu0 as [_ [(_ & Hsel0 & Hav0) | Hout0]];
      [|rewrite Hout0 in Hau0; subst a; discriminate].
    assert (Hi0 : isAuthenticated (auth app0) = true) by now rewrite Hau0.
    rewrite step_load_end, step_load_begin; app_proj.
    + unfold loadStudents_end, loadStudents_begin. rewrite Hau0, Hp.
      cbn [is_coach]. rewrite Hr, Hsup. cbn [String.eqb Ascii.eqb Bool.eqb negb andb].
      rewrite zero_active_students by exact Hz1.
      unfold selectionScreen. cbn. reflexivity.
    + now apply signed_in_not_login.
    + rewrite step_load_begin by now apply signed_in_not_login.
      now apply signed_in_not_login.
Qed.

(** *** Releasing the call handle *)



End Application.

End AppFacts.

(** ** Home screen *)

Module HomeFacts.
Import Stream Home.

(** The join window in milliseconds: the whole-minute count lies between
    -60 and 10 exactly from less than eleven minutes before the start up
    to sixty minutes after it. *)
Lemma floor_window (d : Z) :
  -60 <= d / 60000 <= 10 <-> -3600000 <= d < 660000.
Proof.
  pose proof (Z.div_mod d 60000 ltac:(lia)) as Hd.
  pose proof (Z.mod_pos_bound d 60000 ltac:(lia)) as Hm.
  lia.
Qed.

Section HomeScreen.

Context {P : Type} `{StreamLib P}.
Variable isDemoMode : bool.
Variable auth : Auth.
Variable dateTimeMs : option string -> string -> JS.num.

(** [handleJoinSession] by cases on the whole-minute count. *)
Lemma handleJoinSession_valid (session : Task) (now : Z) (w : World P)
    (sessionTime : string) (s : Z) :
  scheduled_start_time session = Some sessionTime ->
  dateTimeMs (scheduled_date session) sessionTime = JS.Num s ->
  handleJoinSession isDemoMode auth dateTimeMs session now w
  = if isDemoMode then (Ok AlertDemoMode, w)
    else if 10 <? (s - now) / 60000
         then (Ok (AlertNotStarted (JS.Num ((s - now) / 60000))), w)
         else if (s - now) / 60000 <? -60 then (Ok AlertEnded, w)
              else join_call isDemoMode auth session w.
Proof.
  intros Hst Hd. unfold handleJoinSession, join_call. rewrite Hst, Hd.
  unfold minutesUntil. cbn [JS.sub JS.floor_div JS.gt JS.lt].
  change (1000 * 60) with 60000.
  destruct isDemoMode; [reflexivity|].
  destruct (10 <? (s - now) / 60000); [reflexivity|].
  destruct ((s - now) / 60000 <? -60); reflexivity.
Qed.

(** The join button is enabled only when [getSessionStatus] reported the
    session as joinable when the screen was rendered; a session for which
    it did so has a start time the run-time library can read. *)
Lemma button_enabled_valid (session : Task) (rendered : Z) (st : SessionStatus) :
  getSessionStatus dateTimeMs session rendered = Ok st ->
  canJoin st = true ->
  exists sessionTime s,
    scheduled_start_time session = Some sessionTime
    /\ dateTimeMs (scheduled_date session) sessionTime = JS.Num s.
Proof.
  unfold getSessionStatus.
  destruct (scheduled_start_time session) as [sessionTime|]; [|discriminate].
  destruct (dateTimeMs (scheduled_date session) sessionTime) as [|s] eqn:Hd.
  - cbn. intros [= <-]. discriminate.
  - intros _ _. exists sessionTime, s. auto.
Qed.

(** C9 (amended). The join window is counted in whole minutes. For a
    session with a well-formed date and start time, with
    [m = floor((start - now) / 60000 ms)]: when [m] is more than 10 or
    less than -60, [handleJoinSession] returns after an alert and leaves
    everything as it is ('not started yet', respectively 'ended'; in demo
    mode the demo alert); it goes on to [initializeVideoCall] only outside
    demo mode with [-60 <= m <= 10], so any effect of it implies that; and
    [getSessionStatus] sets [canJoin] exactly when [-60 <= m <= 10]. In
    milliseconds the window is [-3600000 <= start - now < 660000]: it
    opens less than eleven minutes before the start, not ten, and closes
    sixty minutes after it. *)
Theorem join_window (session : Task) (now : Z) (w : World P)
    (sessionTime : string) (s : Z) :
  scheduled_start_time session = Some sessionTime ->
  dateTimeMs (scheduled_date session) sessionTime = JS.Num s ->
  let m := (s - now) / 60000 in
  (10 < m ->
   handleJoinSession isDemoMode auth dateTimeMs session now w
   = (Ok (if isDemoMode then AlertDemoMode else AlertNotStarted (JS.Num m)), w))
  /\ (m < -60 ->
      handleJoinSession isDemoMode auth dateTimeMs session now w
      = (Ok (if isDemoMode then AlertDemoMode else AlertEnded), w))
  /\ (-60 <= m <= 10 -> isDemoMode = false ->
      handleJoinSession isDemoMode auth dateTimeMs session now w
      = join_call isDemoMode auth session w)
  /\ (snd (handleJoinSession isDemoMode auth dateTimeMs session now w) <> w ->
      isDemoMode = false /\ -60 <= m <= 10)
  /\ (exists st, getSessionStatus dateTimeMs session now = Ok st
                 /\ (canJoin st = true <-> -60 <= m <= 10))
  /\ (-60 <= m <= 10 <-> -3600000 <= s - now < 660000).
Proof.
  intros Hst Hd m.
  rewrite (handleJoinSession_valid session now w sessionTime s Hst Hd).
  fold m. split; [|split; [|split; [|split; [|split; [|apply floor_window]]]]].
  - intros Hm. destruct isDemoMode; [reflexivity|].
    destruct (Z.ltb_spec 10 m); [reflexivity | lia].
  - intros Hm. destruct isDemoMode; [reflexivity|].
    destruct (Z.ltb_spec 10 m); [lia|].
    destruct (Z.ltb_spec m (-60)); [reflexivity | lia].
  - intros Hm ->.
    destruct (Z.ltb_spec 10 m); [lia|].
    destruct (Z.ltb_spec m (-60)); [lia | reflexivity].
  - destruct isDemoMode; [intros Hw; now contradiction Hw|].
    destruct (Z.ltb_spec 10 m); [intros Hw; now contradiction Hw|].
    destruct (Z.ltb_spec m (-60)); [intros Hw; now contradiction Hw|].
    intros _. split; [reflexivity | lia].
  - unfold getSessionStatus. rewrite Hst, Hd.
    unfold minutesUntil. cbn [JS.sub JS.floor_div JS.gt JS.ge].
    change (1000 * 60) with 60000. fold m.
    destruct (Z.ltb_spec 10 m).
    + eexists. split; [reflexivity|]. cbn. split; [discriminate | lia].
    + destruct (Z.leb_spec (-60) m).
      * eexists. split; [reflexivity|]. cbn. split; [lia | reflexivity].
      * eexists. split; [reflexivity|]. cbn. split; [discriminate | lia].
Qed.

(** With a date or time the run-time library cannot read, the count is
    NaN and both comparisons of [handleJoinSession] are false, so outside
    demo mode it goes on to the call, while [getSessionStatus] reports the
    session as ended and not joinable (which disables the join button). *)
Remark handleJoinSession_invalid_date (session : Task) (now : Z) (w : World P)
    (sessionTime : string) :
  scheduled_start_time session = Some sessionTime ->
  dateTimeMs (scheduled_date session) sessionTime = JS.NaN ->
  isDemoMode = false ->
  handleJoinSession isDemoMode auth dateTimeMs session now w = join_call isDemoMode auth session w
  /\ getSessionStatus dateTimeMs session now = Ok (mkStatus EndedText "#EF4444" false).
Proof.
  intros Hst Hd Hdemo. unfold handleJoinSession, getSessionStatus, join_call.
  rewrite Hst, Hd, Hdemo. split; reflexivity.
Qed.

End HomeScreen.

End HomeFacts.

(** ** Notification service *)

Module NotificationFacts.
Import Home Notifications.

Section Service.

Variable dateTimeMs : option string -> string -> JS.num.
Variable os_accepts : NotificationRequest -> bool.

(** A continuation that only appends well-timed requests. *)
Definition appends_well_timed (session : Task) (now : Z)
    (rest : list NotificationRequest -> list NotificationRequest) : Prop :=
  forall q, exists added,
    rest q = q ++ added /\ Forall (well_timed dateTimeMs session now) added.

Lemma appends_id (session : Task) (now : Z) :
  appends_well_timed session now (fun q' => q').
Proof. intros q. exists []. split; [now rewrite app_nil_r | constructor]. Qed.

Lemma appends_schedule_if_future (session : Task) (time : string)
    (k : ReminderKind) (s now : Z)
    (rest : list NotificationRequest -> list NotificationRequest) :
  sessionTimeMs dateTimeMs session = JS.Num s -> now < s ->
  appends_well_timed session now rest ->
  appends_well_timed session now
    (schedule_if_future os_accepts session time k
       (JS.sub (JS.Num s) (JS.Num (offset_ms k))) now rest).
Proof.
  intros Hs Hlt Hrest q. unfold schedule_if_future. cbn [JS.sub JS.gt].
  destruct (Z.ltb_spec now (s - offset_ms k)) as [Hk | Hk]; [|apply Hrest].
  destruct (os_accepts _).
  - destruct (Hrest (q ++ [mkRequest k (task_id session) (title session) time
                              (JS.Num (s - offset_ms k))]))
      as (added & -> & Hadd).
    eexists (_ :: added). rewrite <- app_assoc. split; [reflexivity|].
    constructor; [|exact Hadd].
    exists (s - offset_ms k), s. cbn. auto.
  - exists []. split; [now rewrite app_nil_r | constructor].
Qed.

(** C10. [scheduleSessionReminders] never schedules a notification whose
    trigger time is in the past. Whatever the session, the current time
    and the scheduler's answers, it only appends to the scheduler's
    queue; every request it appends has a trigger strictly later than the
    current time, namely the session's combined date and start time,
    itself strictly in the future, minus 24 hours, 1 hour or 15 minutes
    according to its kind; and when the combined date and start time is
    not strictly in the future (or is missing or unreadable) it appends
    nothing. *)
Theorem reminders_in_future (session : Task) (now : Z)
    (q : list NotificationRequest) :
  exists added,
    scheduleSessionReminders dateTimeMs os_accepts session now q = q ++ added
    /\ Forall (well_timed dateTimeMs session now) added
    /\ (JS.gt (sessionTimeMs dateTimeMs session) (JS.Num now) = false ->
        added = []).
Proof.
  unfold scheduleSessionReminders.
  destruct (present (scheduled_date session)) as [date|] eqn:Hdate;
    [|exists []; rewrite app_nil_r; auto].
  destruct (present (scheduled_start_time session)) as [time|] eqn:Htime;
    [|exists []; rewrite app_nil_r; auto].
  assert (Hs : sessionTimeMs dateTimeMs session = dateTimeMs (Some date) time).
  { unfold sessionTimeMs. now rewrite Hdate, Htime. }
  rewrite Hs.
  destruct (dateTimeMs (Some date) time) as [|s] eqn:Hms.
  - (* NaN: no comparison holds, nothing is scheduled *)
    exists []. rewrite app_nil_r. auto.
  - cbn [JS.le JS.gt].
    destruct (Z.leb_spec s now) as [Hle | Hlt].
    + exists []. rewrite app_nil_r. auto.
    + destruct (appends_schedule_if_future session time Reminder24h s now
                  (schedule_if_future os_accepts session time Reminder1h
                     (JS.sub (JS.Num s) (JS.Num (offset_ms Reminder1h))) now
                     (schedule_if_future os_accepts session time Reminder15m
                        (JS.sub (JS.Num s) (JS.Num (offset_ms Reminder15m))) now
                        (fun q' => q')))
                  Hs Hlt) with (q := q) as (added & Hq & Hadd).
      { repeat (apply appends_schedule_if_future; auto). apply appends_id. }
      exists added. split; [exact Hq|]. split; [exact Hadd|].
      destruct (Z.ltb_spec now s); [discriminate | lia].
Qed.

(** When the scheduler accepts every request, the reminders scheduled
    for a future session are exactly those of the three whose trigger is
    strictly later than the current time, in the order 24 hours, 1 hour,
    15 minutes. *)
Lemma reminders_exact (session : Task) (now s : Z) (q : list NotificationRequest) :
  (forall r, os_accepts r = true) ->
  sessionTimeMs dateTimeMs session = JS.Num s -> now < s ->
  map kind
    (skipn (length q) (scheduleSessionReminders dateTimeMs os_accepts session now q))
  = List.filter (fun k => now <? s - offset_ms k)
      [Reminder24h; Reminder1h; Reminder15m].
Proof.
  intros Hacc Hs Hlt. unfold sessionTimeMs in Hs. unfold scheduleSessionReminders.
  destruct (present (scheduled_date session)) as [date|]; [|discriminate].
  destruct (present (scheduled_start_time session)) as [time|]; [|discriminate].
  rewrite Hs. cbn [JS.le JS.sub].
  destruct (Z.leb_spec s now); [lia|].
  unfold schedule_if_future. cbn [JS.gt List.filter]. rewrite !Hacc.
  change (24 * 60 * 60 * 1000) with (offset_ms Reminder24h).
  change (60 * 60 * 1000) with (offset_ms Reminder1h).
  change (15 * 60 * 1000) with (offset_ms Reminder15m).
  destruct (now <? s - offset_ms Reminder24h),
           (now <? s - offset_ms Reminder1h),
           (now <? s - offset_ms Reminder15m);
    rewrite <- ?app_assoc; cbn [app];
    rewrite ?AppFacts.skipn_app_exact; try reflexivity;
    rewrite <- (app_nil_r q) at 2; now rewrite AppFacts.skipn_app_exact.
Qed.

End Service.

End NotificationFacts.
(** ** Witnesses on the sample data *)

Module Witnesses.
Import Stream SpecPlatform Samples.
Import App (AppNavigator).

#[local] Existing Instance open_lib.

Lemma initializeVideoCall_idempotent_witness :
  exists cid members,
    call_u1_u2 = SdkCall "default" cid
    /\ @initializeVideoCall _ open_lib false auth_student "u2" after_first_call
       = (Ok call_u1_u2,
          mkWorld (ctx after_first_call) (platform after_first_call)
            (log after_first_call ++ [OpGetOrCreate cid members]))
    /\ is_Some (sessions (platform after_first_call) !! cid).
Proof.
  apply (PlatformFacts.initializeVideoCall_idempotent (fun _ => true)
           auth_student "u2" ready_world).
  vm_compute. reflexivity.
Defined.

Lemma endVideoCall_no_call_witness :
  @endVideoCall _ open_lib ready_world = (Ok tt, ready_world).
Proof.
  apply (@StreamFacts.endVideoCall_no_call _ open_lib ready_world).
  reflexivity.
Defined.

Lemma empty_identifier_rejected_witness :
  Identity.createVideoCallId (@id_ok _ open_lib) "" "x"
  = inl Identity.InvalidIdentifier
  /\ Identity.createVideoCallId (@id_ok _ open_lib) "" "x"
     = inl Identity.InvalidIdentifier
  /\ @initializeVideoCall _ open_lib false auth_no_id "x" ready_world
     = (Throw InvalidIdentifierError, ready_world).
Proof.
  apply (@StreamFacts.empty_identifier_rejected _ open_lib auth_no_id "x"
           ready_world client_u1 (mkUser "" None)).
  - reflexivity.
  - reflexivity.
  - left. reflexivity.
Defined.

Lemma role_gate_witness :
  AppNavigator (sample_run (App.initialApp auth_coach ready_world) coach_pick_events)
  = App.MainTabsScreen
  /\ exists es1 i es2 student,
       coach_pick_events = es1 ++ App.PressStudent i :: es2
       /\ nth_error
            (CoachStudent.availableStudents
               (App.coachStudent
                  (sample_run (App.initialApp auth_coach ready_world) es1))) i
          = Some student.
Proof.
  split; [vm_compute; reflexivity|].
  destruct (@AppFacts.role_gate _ open_lib false true sample_dateTimeMs
              auth_coach ready_world coach_pick_events eq_refl)
    as (_ & Hcoach & _).
  destruct (Hcoach eq_refl) as (_ & _ & Hmain).
  apply Hmain. vm_compute. reflexivity.
Defined.

Lemma coach_without_assignments_witness :
  App.session_inits
    (App.world (sample_run (App.initialApp auth_coach ready_world) coach_idle_events))
  = App.session_inits ready_world
  /\ AppNavigator (sample_run (App.initialApp auth_coach ready_world) coach_idle_events)
     = App.Selection (Navigator.SelectionPage None true []).
Proof.
  destruct (@AppFacts.coach_without_assignments _ open_lib false true
              sample_dateTimeMs auth_coach coach2 ready_world coach_idle_events
              eq_refl eq_refl eq_refl)
    as (Hinits & _ & _ & Hview).
  - intros b Hin. unfold coach_idle_events in Hin. cbn [In] in Hin.
    repeat (destruct Hin as [Hin | Hin]; [try discriminate Hin|]);
      [|contradiction].
    injection Hin as <-. cbn. constructor; [|constructor].
    intros _. reflexivity.
  - split; [exact Hinits|].
    apply (Hview [App.PressStudent 0; App.PressJoin session1 sample_start;
                  App.PressStartVideoCall None; App.ChatEffect None; App.CallEnd]
             db_inactive); reflexivity.
Defined.



Lemma join_window_witness :
  @Home.handleJoinSession _ open_lib false auth_student sample_dateTimeMs session1
    (sample_start - 300000) ready_world
  = @Home.join_call _ open_lib false auth_student session1 ready_world
  /\ exists st,
       Home.getSessionStatus sample_dateTimeMs session1 (sample_start - 300000) = Ok st
       /\ (Home.canJoin st = true
           <-> -60 <= (sample_start - (sample_start - 300000)) / 60000 <= 10).
Proof.
  destruct (@HomeFacts.join_window _ open_lib false auth_student sample_dateTimeMs
              session1 (sample_start - 300000) ready_world "14:30:00" sample_start
              eq_refl eq_refl)
    as (_ & _ & Hin & _ & Hstatus & _).
  split; [|exact Hstatus].
  apply Hin; [|reflexivity].
  vm_compute. split; discriminate.
Defined.

(** C9 (as stated, refuted). Ten minutes and 59.999 seconds before the
    start is more than ten minutes before it, and yet, outside demo mode,
    the row offers to join and [handleJoinSession] initiates the call: the
    session of the pair is created and joined. So the call is not
    initiated only from ten minutes before the start on. *)
Lemma join_before_ten_minutes :
  600000 < sample_start - (sample_start - 659999)
  /\ Home.getSessionStatus sample_dateTimeMs session1 (sample_start - 659999)
     = Ok (Home.mkStatus Home.CanJoinText "#10B981" true)
  /\ fst (@Home.handleJoinSession _ open_lib false auth_student sample_dateTimeMs
            session1 (sample_start - 659999) ready_world)
     = Ok Home.AlertJoined
  /\ log (snd (@Home.handleJoinSession _ open_lib false auth_student
                 sample_dateTimeMs session1 (sample_start - 659999) ready_world))
     = [OpGetOrCreate "u1:u2" ["u1"; "u2"]; OpJoin call_u1_u2]
  /\ ~ (forall now,
          log (snd (@Home.handleJoinSession _ open_lib false auth_student
                      sample_dateTimeMs session1 now ready_world))
          <> log ready_world ->
          sample_start - now <= 600000).
Proof.
  split; [unfold sample_start; lia|].
  split; [vm_compute; reflexivity|].
  split; [vm_compute; reflexivity|].
  split; [vm_compute; reflexivity|].
  intros Hall. specialize (Hall (sample_start - 659999)).
  assert (Hlate : sample_start - (sample_start - 659999) <= 600000).
  { apply Hall. vm_compute. discriminate. }
  unfold sample_start in Hlate. lia.
Qed.

(** Demo mode at the input of C2: the provider is mounted, the auth
    effect runs for the signed-in student (the stream is reported ready,
    no client is created), and [initializeVideoCall] throws. *)
Example demo_mode_initializeVideoCall :
  isStreamReady (ctx (snd (authEffect true auth_student (initialWorld empty_platform))))
  = true
  /\ videoClient (ctx (snd (authEffect true auth_student (initialWorld empty_platform))))
     = None
  /\ fst (initializeVideoCall true auth_student "u2"
            (snd (authEffect true auth_student (initialWorld empty_platform))))
     = Throw (Error "Video client not initialized").
Proof. repeat split; reflexivity. Qed.

(** The edges of the join window, outside demo mode: ten and a half
    minutes before the start the whole-minute count is 10 and the call is
    initialised; eleven minutes before it is 11 and the user is told to
    wait; exactly sixty minutes after the start the call is still
    initialised; one millisecond later the session has ended. *)
Example join_window_edges :
  Home.handleJoinSession false auth_student sample_dateTimeMs session1
    (sample_start - 630000) ready_world
  = Home.join_call false auth_student session1 ready_world
  /\ Home.handleJoinSession false auth_student sample_dateTimeMs session1
       (sample_start - 660000) ready_world
     = (Ok (Home.AlertNotStarted (JS.Num 11)), ready_world)
  /\ Home.handleJoinSession false auth_student sample_dateTimeMs session1
       (sample_start + 3600000) ready_world
     = Home.join_call false auth_student session1 ready_world
  /\ Home.handleJoinSession false auth_student sample_dateTimeMs session1
       (sample_start + 3600001) ready_world
     = (Ok Home.AlertEnded, ready_world).
Proof. repeat split; reflexivity. Qed.

(** Inside the window the student's call reaches the platform: the
    session of the pair is created with both members and joined. *)
Example join_inside_window :
  fst (Home.handleJoinSession false auth_student sample_dateTimeMs session1
         (sample_start - 300000) ready_world)
  = Ok Home.AlertJoined
  /\ log (snd (Home.handleJoinSession false auth_student sample_dateTimeMs session1
                 (sample_start - 300000) ready_world))
     = [OpGetOrCreate "u1:u2" ["u1"; "u2"]; OpJoin call_u1_u2].
Proof. split; vm_compute; reflexivity. Qed.

(** A session one day and one minute ahead gets all three reminders; a
    session half an hour ahead gets only the last one; a past session
    gets none. *)
Example reminders_by_distance :
  map Notifications.kind
    (Notifications.scheduleSessionReminders sample_dateTimeMs (fun _ => true)
       session1 (sample_start - 86460000) [])
  = [Notifications.Reminder24h; Notifications.Reminder1h; Notifications.Reminder15m]
  /\ map Notifications.kind
       (Notifications.scheduleSessionReminders sample_dateTimeMs (fun _ => true)
          session1 (sample_start - 1800000) [])
     = [Notifications.Reminder15m]
  /\ Notifications.scheduleSessionReminders sample_dateTimeMs (fun _ => true)
       session1 sample_start []
     = [].
Proof. repeat split; reflexivity. Qed.

End Witnesses.

(* ===================================================================== *)
(** * Further properties of the modelled code *)
(* ===================================================================== *)

(** ** Stream context: outcomes and invariants *)

Module StreamMore.
Import Stream StreamSpec.

(** Evaluate a context function, keeping the platform's operations and
    the stream user's fields symbolic. *)
Ltac eval_s :=
  lazy -[call_leave call_join call_getOrCreate generateUserToken
         createStreamChatClient createChatChannel disconnectVideoUser
         disconnectChatUser formatStreamUser id_ok su_id su_name email_or
         Identity.createVideoCallId app String.eqb List.filter is_Some].

(** Case analysis on the answer of the platform operation the goal is
    stuck on. *)
Ltac platform_case :=
  match goal with
  | |- context [generateUserToken ?u ?p] =>
      destruct (generateUserToken u p) as [[?|?] ?]
  | |- context [createStreamChatClient ?u ?t ?p] =>
      destruct (createStreamChatClient u t p) as [[?|] ?]
  | |- context [createChatChannel ?c ?a ?b ?x ?y ?p] =>
      destruct (createChatChannel c a b x y p) as [[?|?] ?]
  | |- context [call_getOrCreate ?c ?m ?p] =>
      destruct (call_getOrCreate c m p) as [[?|] ?]
  | |- context [call_join ?c ?p] =>
      destruct (call_join c p) as [[?|] ?]
  | |- context [call_leave ?c ?p] =>
      destruct (call_leave c p) as [[?|] ?]
  | |- context [Identity.createVideoCallId ?f ?a ?b] =>
      destruct (Identity.createVideoCallId f a b) as [?|?]
  end.

Ltac run_ctx := eval_s; repeat (platform_case; eval_s).

Section Outcomes.

Context {P : Type} `{StreamLib P}.

(** X1. [initializeStreamClient] never throws and always ends with both
    loading flags down; it leaves the call and the channel alone. Either
    the stream is ready with no error shown (in demo mode without touching
    clients or platform, otherwise with a video and a chat client of the
    same user and token), or both error messages are set and the clients
    and the ready flag are as before. *)
Theorem initializeStreamClient_settles (demo : bool) (auth : Auth) (w : World P) :
  let r := initializeStreamClient demo auth w in
  fst r = Ok tt
  /\ videoLoading (ctx (snd r)) = false
  /\ chatLoading (ctx (snd r)) = false
  /\ videoCall (ctx (snd r)) = videoCall (ctx w)
  /\ chatChannel (ctx (snd r)) = chatChannel (ctx w)
  /\ ((isStreamReady (ctx (snd r)) = true
       /\ videoError (ctx (snd r)) = None /\ chatError (ctx (snd r)) = None
       /\ ((demo = true
            /\ videoClient (ctx (snd r)) = videoClient (ctx w)
            /\ chatClient (ctx (snd r)) = chatClient (ctx w)
            /\ platform (snd r) = platform w /\ log (snd r) = log w)
           \/ (demo = false
               /\ exists su token,
                    videoClient (ctx (snd r)) = Some (mkVideoClient su token)
                    /\ chatClient (ctx (snd r)) = Some (mkChatClient su token))))
      \/ (videoError (ctx (snd r)) = Some "Failed to initialize video client"
          /\ chatError (ctx (snd r)) = Some "Failed to initialize chat client"
          /\ videoClient (ctx (snd r)) = videoClient (ctx w)
          /\ chatClient (ctx (snd r)) = chatClient (ctx w)
          /\ isStreamReady (ctx (snd r)) = isStreamReady (ctx w))).
Proof.
  StreamFacts.split_world w.
  destruct demo, auth as [ia [u|] [pr|]]; run_ctx;
    repeat (split; [reflexivity|]);
    first [ left; repeat (split; [reflexivity|]); left;
            repeat split; reflexivity
          | left; repeat (split; [reflexivity|]); right;
            split; [reflexivity|]; eexists _, _; split; reflexivity
          | right; repeat split; reflexivity ].
Qed.

(** X2. [cleanupStream] never throws; afterwards the provider holds no
    client, no call and no channel and is not ready; and cleaning up again
    changes nothing and invokes no SDK operation. *)
Theorem cleanupStream_clears (w : World P) :
  let w1 := snd (cleanupStream w) in
  fst (cleanupStream w) = Ok tt
  /\ videoClient (ctx w1) = None /\ chatClient (ctx w1) = None
  /\ videoCall (ctx w1) = None /\ chatChannel (ctx w1) = None
  /\ isStreamReady (ctx w1) = false
  /\ cleanupStream w1 = (Ok tt, w1).
Proof.
  StreamFacts.split_world w. destruct vcl, ccl; repeat split; reflexivity.
Qed.

(** X3. [initializeChatChannel] never throws and always ends with the chat
    loading flag down. Either it invoked nothing (demo mode) and only
    cleared the chat error, or the channel creation succeeded and the
    channel is held with no error, or it failed, the error message is set
    and the channel is as before. It creates a channel only with a chat
    client, a user and a profile present. *)
Theorem initializeChatChannel_settles (demo : bool) (auth : Auth)
    (partnerId partnerName : string) (w : World P) :
  let r := initializeChatChannel demo auth partnerId partnerName w in
  fst r = Ok tt
  /\ chatLoading (ctx (snd r)) = false
  /\ videoCall (ctx (snd r)) = videoCall (ctx w)
  /\ ((demo = true /\ chatError (ctx (snd r)) = None
       /\ chatChannel (ctx (snd r)) = chatChannel (ctx w)
       /\ platform (snd r) = platform w /\ log (snd r) = log w)
      \/ (demo = false /\ chatError (ctx (snd r)) = None
          /\ is_Some (chatClient (ctx w)) /\ is_Some (user auth)
          /\ is_Some (userProfile auth)
          /\ exists self channel,
               chatChannel (ctx (snd r)) = Some channel
               /\ log (snd r) = log w ++ [OpCreateChatChannel self partnerId])
      \/ (demo = false
          /\ chatError (ctx (snd r)) = Some "Failed to initialize chat channel"
          /\ chatChannel (ctx (snd r)) = chatChannel (ctx w))).
Proof.
  StreamFacts.split_world w.
  destruct demo, auth as [ia [u|] [pr|]], ccl as [cc|]; run_ctx;
    repeat (split; [reflexivity|]);
    first [ left; repeat split; reflexivity
          | right; right; repeat split; reflexivity
          | right; left; repeat (split; [solve [reflexivity | eauto]|]);
            eexists _, _; split; reflexivity ].
Qed.

(** X4. [initializeVideoCall] is all or nothing for the context: when it
    throws, the context state is as before (no handle is held that was not
    held before); when it returns a handle, that handle is the held call,
    a video client and a user were present, and the handle is the mock
    exactly in demo mode. *)
Theorem initializeVideoCall_sets_handle_on_success (demo : bool) (auth : Auth)
    (partnerId : string) (w : World P) :
  match fst (initializeVideoCall demo auth partnerId w) with
  | Throw _ => ctx (snd (initializeVideoCall demo auth partnerId w)) = ctx w
  | Ok call =>
      videoCall (ctx (snd (initializeVideoCall demo auth partnerId w))) = Some call
      /\ is_Some (videoClient (ctx w)) /\ is_Some (user auth)
      /\ (demo = true <-> call = MockCall)
  end.
Proof.
  StreamFacts.split_world w.
  destruct demo, auth as [ia [[uid uem]|] up], vcl as [vc|]; run_ctx;
    try reflexivity;
    (split; [reflexivity|]); (split; [eauto|]); (split; [eauto|]);
    split; intros; congruence.
Qed.

(** X5. [startVideoCall] never changes the context. Without a call to start
    (neither passed nor held) it throws 'No video call to start', in demo
    mode too; in demo mode with a call it does nothing; otherwise it
    invokes [join] on the call passed, or on the held call when none is
    passed, and nothing else. *)
Theorem startVideoCall_joins (demo : bool) (callToStart : option Call)
    (w : World P) :
  let r := startVideoCall demo callToStart w in
  ctx (snd r) = ctx w
  /\ match callToStart, videoCall (ctx w) with
     | None, None =>
         r = (Throw (Error "No video call to start"), w)
     | Some c, _ | None, Some c =>
         if demo then r = (Ok tt, w)
         else log (snd r) = log w ++ [OpJoin c]
     end.
Proof.
  StreamFacts.split_world w.
  destruct demo, callToStart as [[ty cid|]|], vca as [[ty' cid'|]|]; run_ctx;
    split; reflexivity.
Qed.

(** X6. [joinVideoCall] holds the handle of the call it was asked to join
    exactly when [join] succeeded; when it throws, the context is as
    before, and without a video client it throws before any SDK
    operation. *)
Theorem joinVideoCall_holds_on_success (callId : string) (w : World P) :
  match fst (joinVideoCall callId w) with
  | Ok _ =>
      videoCall (ctx (snd (joinVideoCall callId w))) = Some (SdkCall "default" callId)
      /\ is_Some (videoClient (ctx w))
      /\ log (snd (joinVideoCall callId w))
         = log w ++ [OpJoin (SdkCall "default" callId)]
  | Throw _ =>
      ctx (snd (joinVideoCall callId w)) = ctx w
      /\ (videoClient (ctx w) = None -> snd (joinVideoCall callId w) = w)
  end.
Proof.
  StreamFacts.split_world w.
  destruct vcl as [vc|]; run_ctx;
    repeat split; try reflexivity; try discriminate; eauto.
Qed.

(** X7. The life of a call outside demo mode: when initialising, starting
    and ending all succeed, the SDK saw exactly a [getOrCreate] for the
    identifier derived from the user and the partner with those two as
    members, then a [join] and a [leave] on the handle returned, and the
    provider holds no call any more. *)
Theorem call_lifecycle (auth : Auth) (partnerId : string)
    (w w1 w2 w3 : World P) (call : Call) :
  initializeVideoCall false auth partnerId w = (Ok call, w1) ->
  startVideoCall false None w1 = (Ok tt, w2) ->
  endVideoCall w2 = (Ok tt, w3) ->
  exists u cid,
    user auth = Some u
    /\ Identity.createVideoCallId id_ok (user_id u) partnerId = inr cid
    /\ call = SdkCall "default" cid
    /\ log w3 = log w ++ [OpGetOrCreate cid [user_id u; partnerId];
                          OpJoin call; OpLeave call]
    /\ videoCall (ctx w2) = Some call
    /\ videoCall (ctx w3) = None.
Proof.
  intros H1 H2 H3. StreamFacts.split_world w.
  destruct auth as [ia [[uid uem]|] up], vcl as [vc|];
    try (lazy in H1; discriminate).
  lazy -[call_getOrCreate id_ok Identity.createVideoCallId app] in H1.
  destruct (Identity.createVideoCallId id_ok uid partnerId) as [e|cid] eqn:Hd;
    [discriminate|].
  destruct (call_getOrCreate cid [uid; partnerId] p) as [[e|] p1];
    [discriminate|].
  injection H1 as <- <-.
  lazy -[call_join app] in H2.
  destruct (call_join cid p1) as [[e|] p2]; [discriminate|].
  injection H2 as <-.
  lazy -[call_leave app] in H3.
  destruct (call_leave cid p2) as [[e|] p3]; [discriminate|].
  injection H3 as <-.
  exists (mkUser uid uem), cid. cbn [user user_id ctx log videoCall].
  repeat (split; [reflexivity || exact Hd|]).
  split; [|split; reflexivity].
  now rewrite <- !app_assoc.
Qed.

(** *** Invariants of the provider *)

Lemma act_untouched (p : P) (st : Auth * World P) (a : Action) :
  untouched p (snd st) -> untouched p (snd (act true st a)).
Proof.
  destruct st as [au w]. cbn [snd]. intros (Hvc & Hcc & Hca & Hch & Hp & Hl).
  StreamFacts.split_world w. subst.
  destruct au as [ia0 [u0|] [pr0|]],
           a as [[[|] [u|] [pr|]] | pid pn | pid | cid | [[ty1 cid1|]|] | ];
    run_ctx; repeat split; reflexivity.
Qed.

(** X9. In demo mode the provider never touches the platform: whatever
    happens to it, no SDK operation is invoked, the platform is as it was,
    and it holds no client, no call and no channel. *)
Theorem demo_mode_untouched (a0 : Auth) (p : P) (l : list Action) :
  untouched p (snd (run_actions true (a0, initialWorld p) l)).
Proof.
  unfold run_actions. induction l as [|a l IH] using rev_ind.
  - repeat split; reflexivity.
  - rewrite fold_left_app. cbn [fold_left]. now apply act_untouched.
Qed.

End Outcomes.

End StreamMore.

(** ** The stream provider between its awaits *)

Module AsyncFacts.
Import Stream Async.

Lemma existsb_snoc_true {A : Type} (f : A -> bool) (l : list A) (k : A) :
  f k = true -> existsb f (l ++ [k]) = true.
Proof.
  intros Hk. rewrite existsb_app. cbn. rewrite Hk. now rewrite orb_true_r.
Qed.

Lemma existsb_app_keep {A : Type} (f : A -> bool) (l l' : list A) :
  existsb f l = true -> existsb f (l ++ l') = true.
Proof. intros Hl. rewrite existsb_app, Hl. reflexivity. Qed.

Lemma remove_nth_split {A : Type} (l : list A) (n : nat) (k : A) :
  nth_error l n = Some k ->
  l = firstn n l ++ k :: skipn (S n) l.
Proof.
  revert n. induction l as [|a l IH]; intros [|n]; cbn; try discriminate.
  - now intros [= ->].
  - intros Hn. f_equal. now apply IH.
Qed.

Lemma existsb_remove_nth {A : Type} (f : A -> bool) (l : list A) (n : nat) (k : A) :
  nth_error l n = Some k -> f k = false ->
  existsb f l = true -> existsb f (remove_nth n l ++ []) = true.
Proof.
  intros Hn Hk. rewrite app_nil_r. unfold remove_nth.
  rewrite (remove_nth_split l n k Hn) at 1.
  rewrite !existsb_app. cbn [existsb]. now rewrite Hk.
Qed.

Lemma Forall_remove_nth {A : Type} (Q : A -> Prop) (l : list A) (n : nat) :
  Forall Q l -> Forall Q (remove_nth n l).
Proof.
  intros Hl. unfold remove_nth. apply List.Forall_app. split.
  - now apply list.Forall_take.
  - now apply list.Forall_drop.
Qed.

Lemma Forall_nth_error {A : Type} (Q : A -> Prop) (l : list A) (n : nat) (k : A) :
  Forall Q l -> nth_error l n = Some k -> Q k.
Proof.
  intros Hl Hn. rewrite List.Forall_forall in Hl. apply Hl.
  now apply nth_error_In with n.
Qed.

(** Evaluate a segment, keeping the platform's operations and the
    bookkeeping of the pending functions symbolic. *)
Ltac eval_a :=
  lazy -[call_leave call_join call_getOrCreate generateUserToken
         createStreamChatClient createChatChannel disconnectVideoUser
         disconnectChatUser formatStreamUser id_ok su_id su_name email_or
         Identity.createVideoCallId app String.eqb existsb
         remove_nth nth_error is_client_init is_chat_init pending_call
         sdk_default].

Ltac platform_case :=
  match goal with
  | |- context [generateUserToken ?u ?p] =>
      destruct (generateUserToken u p) as [[?|?] ?]
  | |- context [createStreamChatClient ?u ?t ?p] =>
      destruct (createStreamChatClient u t p) as [[?|] ?]
  | |- context [createChatChannel ?c ?a ?b ?x ?y ?p] =>
      destruct (createChatChannel c a b x y p) as [[?|?] ?]
  | |- context [call_getOrCreate ?c ?m ?p] =>
      destruct (call_getOrCreate c m p) as [[?|] ?]
  | |- context [call_join ?c ?p] =>
      destruct (call_join c p) as [[?|] ?]
  | |- context [call_leave ?c ?p] =>
      destruct (call_leave c p) as [[?|] ?]
  | |- context [Identity.createVideoCallId ?f ?a ?b] =>
      destruct (Identity.createVideoCallId f a b) as [?|?]
  end.

Ltac run_a := eval_a; repeat (platform_case; eval_a).

Section Invariant.

Context {P : Type} `{StreamLib P}.

(** The parts of the invariant, one at a time. *)
Ltac part :=
  first
    [ intros; congruence
    | intros; discriminate
    | intros _; apply existsb_snoc_true; reflexivity
    | intros ?; apply existsb_app_keep; auto; fail
    | intros ? [= <-]; eexists; reflexivity
    | intros ? ?; eauto; fail
    | apply List.Forall_app; split;
      [ assumption
      | first [ apply List.Forall_nil
              | apply List.Forall_cons;
                [ first [ intros ? [= <-]; eexists; reflexivity
                        | intros ? ?; discriminate ]
                | apply List.Forall_nil ] ] ]
    | assumption
    | reflexivity ].

Lemma do_invariant_live (st : Provider P) (a : Action) :
  invariant false st -> invariant false (step false st (Do a)).
Proof.
  destruct st as [au [[vcl vca vl ve ccl cch cl ce rdy] p l] pend].
  intros ([Hc1 Hc2] & Hvl & Hcl & Hr & Hcall & Hpend).
  cbn [ctx pworld pending videoClient chatClient videoLoading chatLoading
       isStreamReady videoCall] in *.
  destruct vcl as [vc|], ccl as [cc|];
    try (now discriminate Hc1); try (now discriminate Hc2);
    clear Hc1 Hc2;
    destruct au as [ia0 [u0|] [pr0|]],
             a as [[[|] [u|] [pr|]] | pid pn | pid | cid | [[ty1 cid1|]|] | ];
    try (destruct vca as [[ty0 cid0|]|]);
    run_a;
    (split; [split; part|]);
    (split; [part|]); (split; [part|]); (split; [part|]); (split; [part|]);
    part.
Qed.

Lemma settle_invariant_live (st : Provider P) (n : nat) :
  invariant false st -> invariant false (step false st (Settle n)).
Proof.
  destruct st as [au [[vcl vca vl ve ccl cch cl ce rdy] p l] pend].
  intros Hinv. unfold step. cbn [pending pworld pauth].
  destruct (nth_error pend n) as [k|] eqn:Hn; [|exact Hinv].
  destruct Hinv as ([Hc1 Hc2] & Hvl & Hcl & Hr & Hcall & Hpend).
  cbn [ctx pworld pending videoClient chatClient videoLoading chatLoading
       isStreamReady videoCall] in *.
  pose proof (Forall_nth_error _ _ _ _ Hpend Hn) as Hk.
  pose proof (Forall_remove_nth _ _ n Hpend) as Hrest.
  assert (Hkeep : forall f, f k = false -> existsb f pend = true ->
                            existsb f (remove_nth n pend ++ []) = true)
    by (intros f; now apply existsb_remove_nth).
  clear Hn Hpend.
  destruct k as [su [e|tok] | su tok [e|] | [e|ch] | c [e|] | c [e|] | a | [e|]];
    run_a;
    (split; [split; part|]);
    (split; [first [part | intros ?; apply Hkeep; [reflexivity | auto]]|]);
    (split; [first [part | intros ?; apply Hkeep; [reflexivity | auto]]|]);
    (split; [part|]);
    (split; [first [part | intros ? [= <-]; now apply Hk]|]);
    first [ part
          | apply List.Forall_app; split;
            [ exact Hrest
            | first [ apply List.Forall_nil
                    | apply List.Forall_cons;
                      [intros ? ?; discriminate | apply List.Forall_nil] ] ] ].
Qed.

Lemma do_invariant_demo (st : Provider P) (a : Action) :
  invariant true st -> invariant true (step true st (Do a)).
Proof.
  destruct st as [au [[vcl vca vl ve ccl cch cl ce rdy] p l] pend].
  intros ([Hc1 Hc2] & Hvl & Hcl & Hvc & Hca & Hp).
  cbn [ctx pworld pending videoClient chatClient videoLoading chatLoading
       isStreamReady videoCall] in *.
  subst vcl vca pend. rewrite (Hc1 eq_refl) in *. clear Hc1 Hc2.
  destruct vl; [discriminate (Hvl eq_refl)|].
  destruct cl; [discriminate (Hcl eq_refl)|].
  clear Hvl Hcl.
  destruct au as [ia0 [u0|] [pr0|]],
           a as [[[|] [u|] [pr|]] | pid pn | pid | cid | [[ty1 cid1|]|] | ];
    lazy; repeat split; intros; congruence.
Qed.

Lemma settle_invariant_demo (st : Provider P) (n : nat) :
  invariant true st -> invariant true (step true st (Settle n)).
Proof.
  intros Hinv. assert (Hp : pending st = []) by apply Hinv.
  unfold step. rewrite Hp. now destruct n.
Qed.

Lemma step_invariant (demo : bool) (st : Provider P) (e : Event) :
  invariant demo st -> invariant demo (step demo st e).
Proof.
  destruct demo, e as [a|n].
  - apply do_invariant_demo.
  - apply settle_invariant_demo.
  - apply do_invariant_live.
  - apply settle_invariant_live.
Qed.

(** X8. Whatever happens to a mounted provider, and in whatever order the
    awaited promises settle between the calls of its functions and the
    changes of the auth values: the video and the chat client are present
    or absent together, and a loading flag is up only while a function
    that raised it is waiting. In demo mode there is never a client nor a
    call, and no function ever waits at an [await]. Outside demo mode a
    ready provider has its video client, and every held call is an SDK
    call of type 'default'. (That a held call comes with a video client
    is not among these: see X10.) *)
Theorem provider_invariants (demo : bool) (a0 : Auth) (p : P) (es : list Event) :
  invariant demo (run_provider demo (mounted a0 p) es).
Proof.
  unfold run_provider. induction es as [|e es IH] using rev_ind.
  - destruct demo; cbn; repeat split; intros; try discriminate; auto.
  - rewrite fold_left_app. cbn [fold_left]. now apply step_invariant.
Qed.

(** *** Without interleaving *)

Ltac eval_w :=
  lazy -[call_leave call_join call_getOrCreate generateUserToken
         createStreamChatClient createChatChannel disconnectVideoUser
         disconnectChatUser formatStreamUser id_ok su_id su_name email_or
         Identity.createVideoCallId String.eqb].

(** A function resumed at once at each of its awaits does to the world
    what the function of [Stream] does. *)
Lemma initializeStreamClient_at_once (demo : bool) (au : Auth) (w : World P) :
  at_once (initializeStreamClient_call demo au w)
  = exec (initializeStreamClient demo au) w.
Proof.
  destruct w as [[vcl vca vl ve ccl cch cl ce rdy] p l].
  destruct demo, au as [ia0 [u0|] [pr0|]];
    eval_w; repeat (platform_case; eval_w); reflexivity.
Qed.

Lemma initializeChatChannel_at_once (demo : bool) (au : Auth)
    (partnerId partnerName : string) (w : World P) :
  at_once (initializeChatChannel_call demo au partnerId partnerName w)
  = exec (initializeChatChannel demo au partnerId partnerName) w.
Proof.
  destruct w as [[vcl vca vl ve ccl cch cl ce rdy] p l].
  destruct demo, au as [ia0 [u0|] [pr0|]], ccl;
    eval_w; repeat (platform_case; eval_w); reflexivity.
Qed.

Lemma initializeVideoCall_at_once (demo : bool) (au : Auth)
    (partnerId : string) (w : World P) :
  at_once (initializeVideoCall_call demo au partnerId w)
  = exec (initializeVideoCall demo au partnerId) w.
Proof.
  destruct w as [[vcl vca vl ve ccl cch cl ce rdy] p l].
  destruct demo, au as [ia0 [u0|] [pr0|]], vcl;
    eval_w; repeat (platform_case; eval_w); reflexivity.
Qed.

Lemma joinVideoCall_at_once (callId : string) (w : World P) :
  at_once (joinVideoCall_call callId w) = exec (joinVideoCall callId) w.
Proof.
  destruct w as [[vcl vca vl ve ccl cch cl ce rdy] p l].
  destruct vcl; eval_w; repeat (platform_case; eval_w); reflexivity.
Qed.

Lemma startVideoCall_at_once (demo : bool) (callToStart : option Call)
    (w : World P) :
  at_once (startVideoCall_call demo callToStart w)
  = exec (startVideoCall demo callToStart) w.
Proof.
  destruct w as [[vcl vca vl ve ccl cch cl ce rdy] p l].
  destruct demo, callToStart as [[ty1 cid1|]|], vca as [[ty0 cid0|]|];
    eval_w; repeat (platform_case; eval_w); reflexivity.
Qed.

Lemma endVideoCall_at_once (w : World P) :
  at_once (endVideoCall_call w) = exec endVideoCall w.
Proof.
  destruct w as [[vcl vca vl ve ccl cch cl ce rdy] p l].
  destruct vca as [[ty0 cid0|]|];
    eval_w; repeat (platform_case; eval_w); reflexivity.
Qed.

(** *** Signing out while a function is waiting *)

Lemma length_remove_nth {A : Type} (l : list A) (n : nat) (k : A) :
  nth_error l n = Some k -> length (remove_nth n l) = (length l - 1)%nat.
Proof.
  intros Hn. rewrite (remove_nth_split l n k Hn) at 2. unfold remove_nth.
  rewrite !length_app. cbn [length]. lia.
Qed.

Lemma nth_error_last_added {A : Type} (l : list A) (n : nat) (k k' : A) :
  nth_error l n = Some k ->
  nth_error (remove_nth n l ++ [k']) (length l - 1) = Some k'.
Proof.
  intros Hn. rewrite <- (length_remove_nth l n k Hn).
  rewrite nth_error_app2 by lia. now rewrite Nat.sub_diag.
Qed.

Lemma signOut_step (demo : bool) (a' : Auth) (st : Provider P) :
  signed_in a' = false ->
  step demo st (Do (AuthChanged a'))
  = mkProvider a' (exec cleanupStream (pworld st)) (pending st).
Proof.
  intros Hout. unfold step, start. rewrite Hout. cbn [fst snd opt_list].
  now rewrite app_nil_r.
Qed.

Lemma settle_step (demo : bool) (st : Provider P) (n : nat) (k : Pending) :
  nth_error (pending st) n = Some k ->
  step demo st (Settle n)
  = mkProvider (pauth st) (fst (resume k (pworld st)))
      (remove_nth n (pending st) ++ opt_list (snd (resume k (pworld st)))).
Proof. intros Hn. unfold step. now rewrite Hn. Qed.

Lemma cleanupStream_cleared (w : World P) : cleared (ctx (exec cleanupStream w)).
Proof.
  destruct w as [[vcl vca vl ve ccl cch cl ce rdy] p l].
  destruct vcl, ccl; lazy; repeat split; reflexivity.
Qed.

(** X10. Signing out clears the provider at once, but not for good. The
    effect of the sign-out leaves the provider without client, call and
    channel and not ready, and it leaves the waiting functions waiting.
    When a waiting [initializeStreamClient] then gets its token and its
    chat client, it installs both clients and raises the ready flag,
    although nobody is signed in; when a waiting [initializeVideoCall]
    gets the answer of [getOrCreate], the provider holds that call
    without a video client. *)
Theorem signOut_not_final (demo : bool) (a' : Auth) (st : Provider P) :
  signed_in a' = false ->
  let out := step demo st (Do (AuthChanged a')) in
  cleared (ctx (pworld out)) /\ pauth out = a' /\ pending out = pending st
  /\ (forall n su token,
        nth_error (pending st) n = Some (AwaitToken su (inr token)) ->
        fst (createStreamChatClient su token (platform (pworld out))) = None ->
        let back :=
          run_provider demo out [Settle n; Settle (length (pending st) - 1)] in
        pauth back = a'
        /\ videoClient (ctx (pworld back)) = Some (mkVideoClient su token)
        /\ chatClient (ctx (pworld back)) = Some (mkChatClient su token)
        /\ isStreamReady (ctx (pworld back)) = true)
  /\ (forall n call,
        nth_error (pending st) n = Some (AwaitGetOrCreate call None) ->
        let back := step demo out (Settle n) in
        pauth back = a'
        /\ videoCall (ctx (pworld back)) = Some call
        /\ videoClient (ctx (pworld back)) = None).
Proof.
  intros Hout out. subst out. rewrite (signOut_step demo a' st Hout).
  destruct st as [au w0 pend]. cbn [pworld pauth pending].
  pose proof (cleanupStream_cleared w0) as Hclear.
  split; [exact Hclear|]. split; [reflexivity|]. split; [reflexivity|].
  destruct Hclear as (Hvc & Hcc & _).
  destruct (exec cleanupStream w0) as [[vcl vca vl ve ccl cch cl ce rdy] p l].
  cbn [ctx videoClient chatClient] in Hvc, Hcc. subst vcl ccl.
  set (w := mkWorld (mkStreamState None vca vl ve None cch cl ce rdy) p l).
  split.
  - intros n su token Hn Hchat. cbn [platform pworld] in Hchat.
    unfold run_provider. cbn [fold_left].
    rewrite (settle_step demo (mkProvider a' w pend) n _ Hn).
    cbn [pworld pauth pending resume fst snd opt_list].
    rewrite (settle_step demo _ (length pend - 1)
               (AwaitChatClient su token None)).
    + repeat split; reflexivity.
    + cbn [pending]. rewrite (nth_error_last_added pend n _ _ Hn).
      do 3 f_equal. exact Hchat.
  - intros n call Hn.
    rewrite (settle_step demo (mkProvider a' w pend) n _ Hn).
    repeat split; reflexivity.
Qed.

End Invariant.

End AsyncFacts.

(** ** Application: selection, sign-out and the chat effect *)

Module AppMore.
Import Stream CoachStudent Navigator Home App.

Section Application.

Context {P : Type} `{StreamLib P}.
Variable isDemoMode : bool.
Variable supabaseAvailable : bool.
Variable dateTimeMs : option string -> string -> JS.num.

Local Abbreviation step := (App.step isDemoMode supabaseAvailable dateTimeMs).
Local Abbreviation run_events :=
  (App.run_events isDemoMode supabaseAvailable dateTimeMs).

(** The selection screen is shown to signed-in coaches only. *)
Lemma selection_is_coach (app : AppState P) (v : SelectionView) :
  AppNavigator app = Selection v ->
  isAuthenticated (auth app) = true
  /\ role_is (userProfile (auth app)) "coach" = true
  /\ studentSelected app = false.
Proof.
  unfold AppNavigator, renderMainContent.
  destruct (isAuthenticated (auth app)); [|discriminate]. cbn [negb].
  destruct (role_is (userProfile (auth app)) "student"); [discriminate|].
  destruct (role_is (userProfile (auth app)) "coach"); [|discriminate].
  destruct (studentSelected app); [discriminate|]. auto.
Qed.


(** X12. Pressing a student card on the selection screen selects exactly the
    student on that card, opens the main tabs, and touches neither the
    list of available students nor the stream provider. *)
Theorem press_card_selects (app : AppState P) (v : SelectionView) (i : nat)
    (student : UserProfile) :
  AppNavigator app = Selection v ->
  nth_error (cards_of v) i = Some student ->
  let app' := step app (PressStudent i) in
  selectedStudent (coachStudent app') = Some student
  /\ nth_error (availableStudents (coachStudent app)) i = Some student
  /\ AppNavigator app' = MainTabsScreen
  /\ availableStudents (coachStudent app') = availableStudents (coachStudent app)
  /\ world app' = world app.
Proof.
  intros Hn Hi app'.
  destruct (selection_is_coach app v Hn) as (Hin & Hcoach & Hsel).
  assert (Happ : app' = mkApp (auth app) true
                          (selectStudent student (coachStudent app)) (world app)).
  { subst app'. unfold App.step. now rewrite Hn, Hi. }
  rewrite Happ. cbn [coachStudent world].
  split; [reflexivity|].
  split; [now apply AppFacts.selection_card with (v := v)|].
  split; [|split; reflexivity].
  rewrite AppFacts.coach_navigator; cbn [auth studentSelected]; auto.
Qed.

(** No event forgets the selected student while [studentSelected] holds. *)
Lemma step_selected_held (app : AppState P) (e : Event) :
  (studentSelected app = true -> selectedStudent (coachStudent app) <> None) ->
  studentSelected (step app e) = true ->
  selectedStudent (coachStudent (step app e)) <> None.
Proof.
  intros Hinv. unfold App.step.
  destruct (AppNavigator app) as [|v|]; destruct e;
    cbn [studentSelected coachStudent with_world]; auto; try discriminate.
  - unfold loadStudents_begin.
    destruct (negb (is_coach _)); [exact Hinv|].
    destruct (negb supabaseAvailable); exact Hinv.
  - unfold loadStudents_end. destruct (userProfile (auth app)); [|exact Hinv].
    destruct (is_coach (Some u) && supabaseAvailable); [|exact Hinv].
    destruct (query_assignments b (profile_id u)); exact Hinv.
  - destruct (nth_error (cards_of v) i); [discriminate | exact Hinv].
  - unfold loadStudents_begin.
    destruct (negb (is_coach _)); [exact Hinv|].
    destruct (negb supabaseAvailable); exact Hinv.
  - unfold loadStudents_end. destruct (userProfile (auth app)); [|exact Hinv].
    destruct (is_coach (Some u) && supabaseAvailable); [|exact Hinv].
    destruct (query_assignments b (profile_id u)); exact Hinv.
Qed.

(** X13. On the main tabs a coach always has a partner: whatever the events,
    when the navigator shows the main tabs to a signed-in coach, a student
    is selected, and that student is the partner of the chat and video
    tabs. *)
Theorem coach_on_main_tabs_has_partner (a : Auth) (w : World P)
    (es : list Event) (assignedCoach : option UserProfile) :
  role_is (userProfile a) "coach" = true ->
  let app := run_events (initialApp a w) es in
  AppNavigator app = MainTabsScreen ->
  exists student,
    selectedStudent (coachStudent app) = Some student
    /\ partner app assignedCoach = Some student.
Proof.
  intros Hcoach app Hn.
  assert (Hinv : studentSelected app = true ->
                 selectedStudent (coachStudent app) <> None).
  { subst app. clear Hn. induction es as [|e es IH] using rev_ind;
      [discriminate|].
    rewrite AppFacts.run_events_snoc. now apply step_selected_held. }
  assert (Hin : isAuthenticated (auth app) = true).
  { destruct (isAuthenticated (auth app)) eqn:Hi; [reflexivity|].
    unfold AppNavigator in Hn. rewrite Hi in Hn. discriminate. }
  assert (Hau : auth app = a).
  { destruct (AppFacts.run_auth isDemoMode supabaseAvailable dateTimeMs a w es)
      as [Hr | [Hr _]]; [exact Hr|].
    fold app in Hr. rewrite Hr in Hin. discriminate. }
  assert (Hsel : studentSelected app = true).
  { rewrite AppFacts.coach_navigator in Hn;
      [now destruct (studentSelected app) | exact Hin | now rewrite Hau]. }
  destruct (selectedStudent (coachStudent app)) as [student|] eqn:Hst;
    [|now contradiction (Hinv Hsel)].
  exists student. split; [reflexivity|].
  unfold partner. rewrite Hau, (AppFacts.role_coach_not_student _ Hcoach), Hcoach.
  exact Hst.
Qed.

(** X14. The chat tab's effect settles after one run: run again on the world
    it produced, it changes nothing. (Once it has tried to open the
    channel, the channel is held or the chat error is set, and in both
    cases the effect's condition is false.) It never retries on its own. *)
Theorem chatEffect_settles (app : AppState P) (assignedCoach : option UserProfile) :
  chatEffect isDemoMode (with_world app (chatEffect isDemoMode app assignedCoach))
    assignedCoach
  = chatEffect isDemoMode app assignedCoach.
Proof.
  assert (Hp : forall w', partner (with_world app w') assignedCoach
                          = partner app assignedCoach) by reflexivity.
  unfold chatEffect. rewrite Hp.
  destruct (partner app assignedCoach) as [pt|]; [|reflexivity].
  cbn [world with_world].
  destruct (auth app) as [ia ou op].
  destruct (world app) as [[vcl vca vlo ver ccl cch clo cer rdy] p l].
  cbn [ctx chatClient chatChannel chatLoading chatError].
  destruct ccl as [cc|]; [|reflexivity].
  destruct cch as [ch|]; [reflexivity|].
  destruct clo; [reflexivity|].
  destruct (truthy cer) eqn:Hcer;
    [cbn [negb andb ctx chatClient chatChannel chatLoading chatError];
     now rewrite Hcer|].
  destruct isDemoMode;
    [cbn [negb andb ctx chatClient chatChannel chatLoading chatError];
     now rewrite Hcer|].
  cbn [negb andb]. unfold exec.
  destruct ou as [u|], op as [pr|]; StreamMore.run_ctx; reflexivity.
Qed.

End Application.

End AppMore.

(** ** Home screen: the status shown and the join handler *)

Module HomeMore.
Import Stream Home HomeSpec.

(** The whole-minute count does not grow as time passes. *)
Lemma minutes_antitone (s now1 now2 : Z) :
  now1 <= now2 -> (s - now2) / 60000 <= (s - now1) / 60000.
Proof. intros Hle. apply Z.div_le_mono; lia. Qed.

Section HomeScreen.

Context {P : Type} `{StreamLib P}.
Variable isDemoMode : bool.
Variable auth : Auth.
Variable dateTimeMs : option string -> string -> JS.num.

(** The status shown on a session's row, for a readable date. *)
Lemma getSessionStatus_valid (session : Task) (now : Z)
    (sessionTime : string) (s : Z) :
  scheduled_start_time session = Some sessionTime ->
  dateTimeMs (scheduled_date session) sessionTime = JS.Num s ->
  getSessionStatus dateTimeMs session now
  = Ok (if 10 <? (s - now) / 60000
        then mkStatus (MinutesLater (JS.Num ((s - now) / 60000))) "#6B7280" false
        else if -60 <=? (s - now) / 60000
             then mkStatus CanJoinText "#10B981" true
             else mkStatus EndedText "#EF4444" false).
Proof.
  intros Hst Hd. unfold getSessionStatus. rewrite Hst, Hd.
  unfold minutesUntil. cbn [JS.sub JS.floor_div JS.gt JS.ge].
  change (1000 * 60) with 60000.
  destruct (10 <? (s - now) / 60000); [reflexivity|].
  destruct (-60 <=? (s - now) / 60000); reflexivity.
Qed.

(** X15. The row and the handler agree. For a session with a readable date,
    looked at and pressed at the same instant outside demo mode: when the
    row says 'in m minutes' the handler shows the 'not started' alert with
    the same m; when the row says 'ended' the handler shows the 'ended'
    alert; and the row offers to join exactly when the handler goes on to
    the call. In the first two cases nothing changes. *)
Theorem status_matches_handler (session : Task) (now : Z) (w : World P)
    (sessionTime : string) (s : Z) :
  scheduled_start_time session = Some sessionTime ->
  dateTimeMs (scheduled_date session) sessionTime = JS.Num s ->
  exists st,
    getSessionStatus dateTimeMs session now = Ok st
    /\ match text st with
       | MinutesLater m =>
           canJoin st = false
           /\ handleJoinSession false auth dateTimeMs session now w
              = (Ok (AlertNotStarted m), w)
       | EndedText =>
           canJoin st = false
           /\ handleJoinSession false auth dateTimeMs session now w
              = (Ok AlertEnded, w)
       | CanJoinText =>
           canJoin st = true
           /\ handleJoinSession false auth dateTimeMs session now w
              = join_call false auth session w
       end.
Proof.
  intros Hst Hd.
  rewrite (getSessionStatus_valid session now sessionTime s Hst Hd).
  rewrite (HomeFacts.handleJoinSession_valid false auth dateTimeMs session now w
             sessionTime s Hst Hd).
  eexists. split; [reflexivity|].
  destruct (Z.ltb_spec 10 ((s - now) / 60000)); [split; reflexivity|].
  destruct (Z.leb_spec (-60) ((s - now) / 60000)).
  - destruct (Z.ltb_spec ((s - now) / 60000) (-60)); [lia|]. split; reflexivity.
  - destruct (Z.ltb_spec ((s - now) / 60000) (-60)); [|lia]. split; reflexivity.
Qed.

(** X16. The status of a session only moves forward in time: the instants at
    which it can be joined form an interval (joinable at two instants
    means joinable at every instant in between), and once it has ended it
    stays ended. *)
Theorem status_moves_forward (session : Task) (now1 now2 now3 : Z) :
  now1 <= now2 <= now3 ->
  (joinable dateTimeMs session now1 = true ->
   joinable dateTimeMs session now3 = true ->
   joinable dateTimeMs session now2 = true)
  /\ (ended dateTimeMs session now1 = true -> ended dateTimeMs session now2 = true).
Proof.
  intros [H12 H23]. unfold joinable, ended, getSessionStatus.
  destruct (scheduled_start_time session) as [sessionTime|];
    [|split; discriminate].
  destruct (dateTimeMs (scheduled_date session) sessionTime) as [|s];
    [split; intros; assumption|].
  unfold minutesUntil. cbn [JS.sub JS.floor_div JS.gt JS.ge].
  change (1000 * 60) with 60000.
  pose proof (minutes_antitone s now1 now2 H12) as Hm12.
  pose proof (minutes_antitone s now2 now3 H23) as Hm23.
  destruct (Z.ltb_spec 10 ((s - now1) / 60000)),
           (Z.leb_spec (-60) ((s - now1) / 60000)),
           (Z.ltb_spec 10 ((s - now2) / 60000)),
           (Z.leb_spec (-60) ((s - now2) / 60000)),
           (Z.ltb_spec 10 ((s - now3) / 60000)),
           (Z.leb_spec (-60) ((s - now3) / 60000));
    cbn; split; intros; try reflexivity; try discriminate; lia.
Qed.

(** How the call part of the handler ends outside demo mode: with the
    error alert or with the success alert, and with the success alert
    only after the call of the pair was created or fetched and joined. *)
Lemma join_call_reports (session : Task) (w : World P) :
  let r := join_call false auth session w in
  (fst r = Ok AlertError \/ fst r = Ok AlertJoined)
  /\ (fst r = Ok AlertJoined ->
      exists u cid,
        user auth = Some u
        /\ Identity.createVideoCallId id_ok (user_id u) (partnerOf auth session)
           = inr cid
        /\ log (snd r)
           = log w ++ [OpGetOrCreate cid [user_id u; partnerOf auth session];
                       OpJoin (SdkCall "default" cid)]
        /\ videoCall (ctx (snd r)) = Some (SdkCall "default" cid)).
Proof.
  unfold join_call. generalize (partnerOf auth session) as pid. intros pid.
  StreamFacts.split_world w.
  destruct auth as [ia [[uid uem]|] up], vcl as [vc|];
    try (split; [left; reflexivity | intros [=]]).
  StreamMore.eval_s.
  destruct (Identity.createVideoCallId id_ok uid pid) as [e|cid] eqn:Hd;
    [split; [left; reflexivity | intros [=]]|].
  StreamMore.run_ctx; try (split; [left; reflexivity | intros [=]]).
  split; [right; reflexivity|]. intros _.
  exists (mkUser uid uem), cid. cbn [user user_id].
  repeat (split; [reflexivity || exact Hd|]).
  split; [|reflexivity].
  change (((l ++ [OpGetOrCreate cid [uid; pid]]) ++ [OpJoin (SdkCall "default" cid)])
          = l ++ [OpGetOrCreate cid [uid; pid]; OpJoin (SdkCall "default" cid)]).
  now rewrite <- app_assoc.
Qed.

(** X17. [handleJoinSession] never throws: it always ends with one alert. The
    success alert is shown only outside demo mode and only after the call
    of the user and the session's partner was created or fetched and
    joined, the handle being held; and with any alert other than success
    or error (demo mode, not started, ended) nothing has changed. *)
Theorem handleJoinSession_reports (session : Task) (now : Z) (w : World P) :
  let r := handleJoinSession isDemoMode auth dateTimeMs session now w in
  exists alert,
    fst r = Ok alert
    /\ (alert = AlertJoined ->
        isDemoMode = false
        /\ exists u cid,
             user auth = Some u
             /\ Identity.createVideoCallId id_ok (user_id u) (partnerOf auth session)
                = inr cid
             /\ log (snd r)
                = log w ++ [OpGetOrCreate cid [user_id u; partnerOf auth session];
                            OpJoin (SdkCall "default" cid)]
             /\ videoCall (ctx (snd r)) = Some (SdkCall "default" cid))
    /\ (alert <> AlertJoined -> alert <> AlertError -> snd r = w).
Proof.
  unfold handleJoinSession.
  destruct isDemoMode.
  { exists AlertDemoMode. repeat split; try reflexivity; discriminate. }
  destruct (scheduled_start_time session) as [sessionTime|].
  2:{ exists AlertError. repeat split; try reflexivity; discriminate. }
  cbv zeta.
  destruct (JS.gt _ (JS.Num 10)).
  { eexists (AlertNotStarted _). repeat split; try reflexivity; discriminate. }
  destruct (JS.lt _ (JS.Num (-60))).
  { exists AlertEnded. repeat split; try reflexivity; discriminate. }
  destruct (join_call_reports session w) as [Hcases Hjoined].
  unfold join_call in Hcases, Hjoined. cbv zeta in Hcases, Hjoined.
  destruct Hcases as [Hr | Hr].
  - exists AlertError. split; [exact Hr|].
    split; [discriminate | intros _ Hne; now contradiction Hne].
  - exists AlertJoined. split; [exact Hr|].
    split; [intros _; split; [reflexivity | exact (Hjoined Hr)]|].
    intros Hne. now contradiction Hne.
Qed.

End HomeScreen.

End HomeMore.

(** ** Coach/student context: loading the students *)

Module CoachMore.
Import Stream CoachStudent.

(** A profile found by identifier has that identifier. *)
Lemma profile_by_id_id (db : Database) (pid : string) (p : UserProfile) :
  profile_by_id db pid = Some p -> profile_id p = pid.
Proof.
  unfold profile_by_id. intros Hf. apply List.find_some in Hf as [_ He].
  now apply String.eqb_eq.
Qed.

(** X18. A load that the backing store answers: the list of available
    students becomes exactly the profiles of the students in this coach's
    active assignments (each the profile stored under the assignment's
    student identifier; assignments without a stored profile are skipped),
    the loading flag is down, no error is shown, and the selected student
    is untouched. *)
Theorem loadStudents_lists_active (p : UserProfile) (db : Database)
    (s : CoachStudentState) :
  role p = "coach" ->
  let s' := loadStudents (Some p) true (BackendServing db) s in
  loading s' = false
  /\ error s' = None
  /\ selectedStudent s' = selectedStudent s
  /\ forall student,
       In student (availableStudents s')
       <-> exists a,
             In a (coach_student_assignments db)
             /\ coach_id a = profile_id p /\ is_active a = true
             /\ student_id a = profile_id student
             /\ profile_by_id db (student_id a) = Some student.
Proof.
  intros Hr s'. subst s'. unfold loadStudents, loadStudents_end, loadStudents_begin.
  cbn [is_coach]. rewrite Hr. cbn [String.eqb Ascii.eqb Bool.eqb negb andb].
  cbn [query_assignments]. cbn.
  repeat (split; [reflexivity|]).
  intros student. rewrite List.in_flat_map. split.
  - intros (row & Hrow & Hst). apply List.in_map_iff in Hrow as (a & <- & Ha).
    apply List.filter_In in Ha as (Ha & Hf).
    apply andb_true_iff in Hf as (Hc & Hact). apply String.eqb_eq in Hc.
    cbn in Hst. destruct (profile_by_id db (student_id a)) as [q|] eqn:Hq;
      [|contradiction].
    destruct Hst as [<- | []].
    exists a. repeat split; auto. symmetry. now apply profile_by_id_id with (db := db).
  - intros (a & Ha & Hc & Hact & _ & Hq).
    exists (mkRow (student_id a) (profile_by_id db (student_id a))). split.
    + apply List.in_map_iff. exists a. split; [reflexivity|].
      apply List.filter_In. split; [exact Ha|].
      apply andb_true_iff. split; [now apply String.eqb_eq | exact Hact].
    + cbn. rewrite Hq. now left.
Qed.

(** X19. When a load does not go through. For a profile that is not a coach's
    [loadStudents] changes nothing. For a coach without the database
    client it only sets the 'connection not available' error. For a coach
    whose query fails it keeps the list it had (and the selection), sets
    the 'Failed to load students' error and lowers the loading flag. *)
Theorem loadStudents_failures (up : option UserProfile) (sup : bool)
    (b : Backend) (s : CoachStudentState) :
  (is_coach up = false -> loadStudents up sup b s = s)
  /\ (is_coach up = true -> sup = false ->
      loadStudents up sup b s
      = setError (Some "Database connection not available") s)
  /\ (is_coach up = true -> sup = true -> b = BackendFailing ->
      let s' := loadStudents up sup b s in
      availableStudents s' = availableStudents s
      /\ selectedStudent s' = selectedStudent s
      /\ error s' = Some "Failed to load students"
      /\ loading s' = false).
Proof.
  unfold loadStudents, loadStudents_end, loadStudents_begin.
  destruct up as [p|]; cbn [is_coach].
  - destruct (String.eqb (role p) "coach") eqn:Hc.
    + split; [discriminate|]. split.
      * intros _ ->. cbn. reflexivity.
      * intros _ -> ->. cbn. repeat split; reflexivity.
    + split; [reflexivity|]. split; discriminate.
  - split; [reflexivity|]. split; discriminate.
Qed.

End CoachMore.

(** ** Notification service: scheduling and cancelling *)

Module NotifMore.
Import Home Notifications Scheduler.

Section Service.

Variable dateTimeMs : option string -> string -> JS.num.
Variable os_accepts : NotificationRequest -> bool.

Lemma schedule_if_future_indep (session : Task) (time : string)
    (k : ReminderKind) (reminder : JS.num) (now : Z)
    (rest : list NotificationRequest -> list NotificationRequest) :
  (forall q, rest q = q ++ rest []) ->
  forall q,
    schedule_if_future os_accepts session time k reminder now rest q
    = q ++ schedule_if_future os_accepts session time k reminder now rest [].
Proof.
  intros Hrest q. unfold schedule_if_future.
  destruct (JS.gt reminder (JS.Num now)); [|apply Hrest].
  destruct (os_accepts _); [|now rewrite app_nil_r].
  rewrite (Hrest (q ++ _)), (Hrest ([] ++ _)). cbn [app].
  now rewrite <- app_assoc.
Qed.

(** X20. [scheduleSessionReminders] does not look at what is already
    scheduled: it appends to the queue the same requests it would append
    to an empty queue. So calling it again for the same session at the
    same time schedules every reminder a second time. *)
Theorem scheduleSessionReminders_appends (session : Task) (now : Z)
    (q : list NotificationRequest) :
  scheduleSessionReminders dateTimeMs os_accepts session now q
  = q ++ scheduleSessionReminders dateTimeMs os_accepts session now []
  /\ scheduleSessionReminders dateTimeMs os_accepts session now
       (scheduleSessionReminders dateTimeMs os_accepts session now q)
     = q ++ scheduleSessionReminders dateTimeMs os_accepts session now []
         ++ scheduleSessionReminders dateTimeMs os_accepts session now [].
Proof.
  assert (Hq : forall q0,
             scheduleSessionReminders dateTimeMs os_accepts session now q0
             = q0 ++ scheduleSessionReminders dateTimeMs os_accepts session now []).
  { intros q0. unfold scheduleSessionReminders.
    destruct (present (scheduled_date session)); [|now rewrite app_nil_r].
    destruct (present (scheduled_start_time session)); [|now rewrite app_nil_r].
    destruct (JS.le _ _); [now rewrite app_nil_r|].
    repeat (apply schedule_if_future_indep; intros).
    now rewrite app_nil_r. }
  split; [apply Hq|].
  rewrite (Hq (scheduleSessionReminders _ _ _ _ q)), (Hq q).
  now rewrite <- app_assoc.
Qed.

(** X21. A rejection by the scheduler stops the scheduling: for a future
    session the reminders scheduled are an initial part of the due ones,
    in their order, each with the session's identifier, title and start
    time; a reminder after a rejected one is never scheduled. *)
Theorem reminders_prefix_of_due (session : Task) (now s : Z) :
  sessionTimeMs dateTimeMs session = JS.Num s -> now < s ->
  exists skipped,
    due_kinds s now
    = map kind (scheduleSessionReminders dateTimeMs os_accepts session now [])
      ++ skipped
    /\ Forall (fun r => sessionId r = task_id session
                        /\ sessionTitle r = title session
                        /\ Some (sessionTime r) = scheduled_start_time session
                        /\ trigger r = JS.Num (s - offset_ms (kind r)))
         (scheduleSessionReminders dateTimeMs os_accepts session now []).
Proof.
  intros Hs Hlt. unfold sessionTimeMs in Hs. unfold scheduleSessionReminders.
  destruct (present (scheduled_date session)) as [date|]; [|discriminate].
  destruct (present (scheduled_start_time session)) as [time|] eqn:Htime;
    [|discriminate].
  assert (Ht : Some time = scheduled_start_time session).
  { unfold present in Htime.
    destruct (scheduled_start_time session) as [[|c r]|]; try discriminate.
    now injection Htime as <-. }
  rewrite Hs. cbn [JS.le JS.sub].
  destruct (Z.leb_spec s now); [lia|].
  unfold schedule_if_future, due_kinds. cbn [JS.gt List.filter].
  change (24 * 60 * 60 * 1000) with (offset_ms Reminder24h).
  change (60 * 60 * 1000) with (offset_ms Reminder1h).
  change (15 * 60 * 1000) with (offset_ms Reminder15m).
  destruct (now <? s - offset_ms Reminder24h),
           (now <? s - offset_ms Reminder1h),
           (now <? s - offset_ms Reminder15m);
    repeat match goal with
      | |- context [os_accepts ?r] => destruct (os_accepts r)
      end;
    cbn [app map kind];
    (eexists; split; [reflexivity|]);
    repeat (apply List.Forall_cons; [repeat split; auto|]);
    apply List.Forall_nil.
Qed.

(** Every request [scheduleSessionReminders] gets accepted carries the
    session's identifier. *)
Lemma scheduled_for_session (session : Task) (now : Z) :
  Forall (fun r => sessionId r = task_id session)
    (scheduleSessionReminders dateTimeMs os_accepts session now []).
Proof.
  unfold scheduleSessionReminders.
  destruct (present (scheduled_date session)); [|constructor].
  destruct (present (scheduled_start_time session)); [|constructor].
  destruct (JS.le _ _); [constructor|].
  unfold schedule_if_future.
  repeat match goal with
    | |- context [JS.gt ?a ?b] => destruct (JS.gt a b)
    | |- context [os_accepts ?r] => destruct (os_accepts r)
    end;
    cbn [app];
    repeat (apply List.Forall_cons; [reflexivity|]); apply List.Forall_nil.
Qed.

End Service.

(** *** Cancelling *)

Lemma filter_twice {A} (f g : A -> bool) (l : list A) :
  List.filter f (List.filter g l) = List.filter (fun x => g x && f x) l.
Proof.
  induction l as [|x l IH]; [reflexivity|]. cbn [List.filter].
  destruct (g x); cbn [andb List.filter]; [destruct (f x)|]; now rewrite IH.
Qed.

Lemma cancel_id_filter (i : nat) (ids : list nat) (q : list Scheduled) :
  cancel_id i (List.filter (not_in ids) q) = List.filter (not_in (ids ++ [i])) q.
Proof.
  unfold cancel_id. rewrite filter_twice. apply List.filter_ext. intros n.
  unfold not_in. rewrite existsb_app. cbn [existsb]. rewrite orb_false_r.
  now rewrite negb_orb.
Qed.

(** The loop removes the entries whose identifier is that of a reminder
    of the session it got to before stopping. *)
Lemma cancel_loop_filter (cancel_ok : nat -> bool) (session_id : string)
    (snapshot q : list Scheduled) (ids : list nat) :
  exists done_,
    (exists rest, targets session_id snapshot = done_ ++ rest)
    /\ (Forall (fun i => cancel_ok i = true) (targets session_id snapshot) ->
        done_ = targets session_id snapshot)
    /\ cancel_loop cancel_ok session_id snapshot (List.filter (not_in ids) q)
       = List.filter (not_in (ids ++ done_)) q.
Proof.
  revert ids. induction snapshot as [|n snapshot IH]; intros ids.
  - exists []. split; [exists []; reflexivity|]. split; [reflexivity|].
    cbn. now rewrite app_nil_r.
  - cbn [cancel_loop]. unfold targets. cbn [List.filter].
    destruct (is_reminder_of session_id n) eqn:Hn.
    + cbn [map]. destruct (cancel_ok (identifier n)) eqn:Hok.
      * rewrite cancel_id_filter.
        destruct (IH (ids ++ [identifier n])) as (done_ & [rest Hrest] & Hall & Heq).
        exists (identifier n :: done_). split; [|split].
        -- exists rest. cbn. f_equal. exact Hrest.
        -- intros Hf. f_equal. apply Hall. now inversion Hf.
        -- rewrite Heq, <- app_assoc. reflexivity.
      * exists []. split; [eexists; reflexivity|]. split.
        -- intros Hf. inversion Hf; subst. congruence.
        -- now rewrite app_nil_r.
    + apply IH.
Qed.

Lemma filter_not_in_nil (q : list Scheduled) : List.filter (not_in []) q = q.
Proof.
  induction q as [|n q IH]; [reflexivity|]. cbn. now rewrite IH.
Qed.

Lemma in_targets (session_id : string) (q : list Scheduled) (n : Scheduled) :
  List.NoDup (map identifier q) -> In n q ->
  existsb (Nat.eqb (identifier n)) (targets session_id q)
  = is_reminder_of session_id n.
Proof.
  intros Hnd Hin. unfold targets.
  destruct (is_reminder_of session_id n) eqn:Hn.
  - apply existsb_exists. exists (identifier n). split; [|apply Nat.eqb_refl].
    apply List.in_map, List.filter_In. auto.
  - destruct (existsb _ _) eqn:He; [|reflexivity].
    apply existsb_exists in He as (i & Hi & Heq).
    apply Nat.eqb_eq in Heq. subst i.
    apply List.in_map_iff in Hi as (m & Hid & Hm).
    apply List.filter_In in Hm as (Hm & Hrm).
    assert (m = n); [|congruence].
    clear Hn Hrm. induction q as [|x q IH]; [contradiction|].
    cbn in Hnd. inversion Hnd as [|? ? Hx Hq]; subst.
    destruct Hm as [-> | Hm], Hin as [-> | Hin]; auto.
    + exfalso. apply Hx. rewrite Hid. now apply List.in_map.
    + exfalso. apply Hx. rewrite <- Hid. now apply List.in_map.
Qed.

Lemma cancel_all_accepted (session_id : string) (q : list Scheduled) :
  List.NoDup (map identifier q) ->
  cancel_loop (fun _ => true) session_id q q
  = List.filter (fun n => negb (is_reminder_of session_id n)) q.
Proof.
  intros Hnd.
  destruct (cancel_loop_filter (fun _ => true) session_id q q [])
    as (done_ & _ & Hall & Heq).
  rewrite filter_not_in_nil in Heq. cbn [app] in Heq. rewrite Heq.
  rewrite Hall by (apply Forall_forall; auto).
  apply List.filter_ext_in. intros n Hin. unfold not_in.
  now rewrite (in_targets session_id q n Hnd Hin).
Qed.

(** X22. Cancelling never removes anything else: whatever the scheduler
    answers, with distinct identifiers in the queue the result is the
    queue without some of the session's reminders; every notification that
    is not a reminder of this session (another session's reminder, another
    type, no data) stays, in its place. When the scheduler accepts every
    cancel, exactly the session's reminders are gone. *)
Theorem cancelSessionReminders_only_own (cancel_ok : nat -> bool)
    (listing_ok : bool) (session_id : string) (q : list Scheduled) :
  List.NoDup (map identifier q) ->
  let q' := cancelSessionReminders cancel_ok listing_ok session_id q in
  List.filter (fun n => negb (is_reminder_of session_id n)) q'
  = List.filter (fun n => negb (is_reminder_of session_id n)) q
  /\ (forall n, In n q' -> In n q)
  /\ (listing_ok = true -> (forall i, cancel_ok i = true) ->
      q' = List.filter (fun n => negb (is_reminder_of session_id n)) q).
Proof.
  intros Hnd q'. subst q'. unfold cancelSessionReminders.
  destruct listing_ok.
  2:{ split; [reflexivity|]. split; [auto | discriminate]. }
  destruct (cancel_loop_filter cancel_ok session_id q q [])
    as (done_ & [rest Hrest] & Hall & Heq).
  rewrite filter_not_in_nil in Heq. cbn [app] in Heq. rewrite Heq.
  assert (Hsub : forall n, In n q -> not_in done_ n = false ->
                           is_reminder_of session_id n = true).
  { intros n Hin Hno. rewrite <- (in_targets session_id q n Hnd Hin), Hrest.
    rewrite existsb_app. unfold not_in in Hno.
    apply negb_false_iff in Hno. now rewrite Hno. }
  split; [|split].
  - rewrite filter_twice. apply List.filter_ext_in. intros n Hin.
    destruct (not_in done_ n) eqn:Hno; [reflexivity|].
    now rewrite (Hsub n Hin Hno).
  - intros n Hn. now apply List.filter_In in Hn as [Hn _].
  - intros _ Hok. rewrite (Hall ltac:(apply Forall_forall; auto)).
    apply List.filter_ext_in. intros n Hin. unfold not_in.
    now rewrite (in_targets session_id q n Hnd Hin).
Qed.

(** *** Scheduling, then cancelling *)

Lemma reminder_data_matches (i : nat) (r : NotificationRequest) :
  is_reminder_of (sessionId r) (mkScheduled i (Some (reminder_data r))) = true.
Proof.
  unfold is_reminder_of. cbn. now rewrite String.eqb_refl.
Qed.

Lemma os_schedule_all (session_id : string) (reqs : list NotificationRequest)
    (os : OS) :
  well_formed os ->
  Forall (fun r => sessionId r = session_id) reqs ->
  well_formed (fold_left os_schedule reqs os)
  /\ exists new,
       queue (fold_left os_schedule reqs os) = queue os ++ new
       /\ length new = length reqs
       /\ Forall (fun n => is_reminder_of session_id n = true) new.
Proof.
  revert os. induction reqs as [|r reqs IH]; intros os Hwf Hall.
  - split; [exact Hwf|]. exists []. rewrite app_nil_r.
    repeat split; constructor.
  - inversion Hall as [|? ? Hr Hrest]; subst. cbn [fold_left].
    assert (Hwf' : well_formed (os_schedule os r)).
    { destruct Hwf as [Hnd Hlt]. unfold os_schedule. split; cbn [queue next_id].
      - rewrite List.map_app. cbn [map identifier].
        apply List.NoDup_app; [exact Hnd | repeat constructor; intros [] |].
        intros i Hi [<- | []].
        apply List.in_map_iff in Hi as (n & Hn & Hin).
        rewrite List.Forall_forall in Hlt. specialize (Hlt n Hin). lia.
      - apply List.Forall_app. split.
        + eapply List.Forall_impl; [|exact Hlt]. cbn. intros; lia.
        + repeat constructor. }
    destruct (IH (os_schedule os r) Hwf' Hrest) as (Hwf2 & new & Hq & Hlen & Hnew).
    split; [exact Hwf2|].
    exists (mkScheduled (next_id os) (Some (reminder_data r)) :: new).
    split; [|split].
    + rewrite Hq. unfold os_schedule. cbn [queue]. now rewrite <- app_assoc.
    + cbn. now rewrite Hlen.
    + constructor; [apply reminder_data_matches | exact Hnew].
Qed.

Section RoundTrip.

Variable dateTimeMs : option string -> string -> JS.num.
Variable os_accepts : NotificationRequest -> bool.

(** X23. Scheduling a session's reminders and then cancelling them (the
    scheduler accepting the cancels) leaves the queue as it would be
    after cancelling alone: everything scheduled for the session is
    gone, together with reminders the session had in the queue before,
    and nothing else; if the queue held no reminder of the session
    before, it is the same queue again. *)
Theorem schedule_then_cancel (session : Task) (now : Z) (os : OS) :
  well_formed os ->
  let os' := scheduleOnOS dateTimeMs os_accepts session now os in
  well_formed os'
  /\ length (queue os')
     = (length (queue os)
        + length (scheduleSessionReminders dateTimeMs os_accepts session now []))%nat
  /\ cancelSessionReminders (fun _ => true) true (task_id session) (queue os')
     = List.filter (fun n => negb (is_reminder_of (task_id session) n)) (queue os)
  /\ (Forall (fun n => is_reminder_of (task_id session) n = false) (queue os) ->
      cancelSessionReminders (fun _ => true) true (task_id session) (queue os')
      = queue os).
Proof.
  intros Hwf os'. subst os'. unfold scheduleOnOS.
  destruct (os_schedule_all (task_id session)
              (scheduleSessionReminders dateTimeMs os_accepts session now []) os Hwf
              (scheduled_for_session dateTimeMs os_accepts session now))
    as (Hwf' & new & Hq & Hlen & Hnew).
  assert (Hcancel :
    cancelSessionReminders (fun _ => true) true (task_id session)
      (queue (fold_left os_schedule
                (scheduleSessionReminders dateTimeMs os_accepts session now []) os))
    = List.filter (fun n => negb (is_reminder_of (task_id session) n)) (queue os)).
  { unfold cancelSessionReminders.
    rewrite cancel_all_accepted by apply Hwf'.
    rewrite Hq, List.filter_app.
    rewrite (AppFacts.filter_none _ new); [now rewrite app_nil_r|].
    eapply List.Forall_impl; [|exact Hnew]. cbn. now intros n ->. }
  split; [exact Hwf'|]. split; [|split].
  - rewrite Hq, List.length_app. now rewrite Hlen.
  - exact Hcancel.
  - intros Hnone. rewrite Hcancel.
    clear Hcancel Hq. induction Hnone as [|n q Hn _ IH]; [reflexivity|].
    cbn [List.filter]. rewrite Hn. cbn [negb]. now rewrite IH.
Qed.

End RoundTrip.

End NotifMore.

(** ** Notification service: registering and sending *)

Module PushMore.
Import Push.

(** X24. [registerForPushNotifications] asks only when it has to. It first
    reads the permission; it requests the permission exactly when the
    permission read is not 'granted'; it asks for the push token exactly
    when the permission is granted in the end; and it returns a token
    exactly when, moreover, the token call succeeded, the token being the
    one obtained. It never throws. *)
Theorem registerForPushNotifications_flow (platformOS : string)
    (existing requested tokenResult : JsError + string) :
  let r := registerForPushNotifications platformOS existing requested tokenResult in
  (In RequestPermissions (snd r)
   <-> exists st, existing = inr st /\ st <> "granted")
  /\ (In GetExpoPushToken (snd r) <-> granted_finally existing requested)
  /\ (forall token,
        fst r = Some token
        <-> granted_finally existing requested /\ tokenResult = inr token)
  /\ exists more, snd r = GetPermissions :: more.
Proof.
  unfold granted_finally, registerForPushNotifications.
  destruct existing as [e|st]; cbn;
    [|destruct (String.eqb_spec st "granted") as [-> | Hne]; cbn;
      [|destruct requested as [e|st']; cbn;
        [|destruct (String.eqb_spec st' "granted") as [-> | Hne']; cbn]]];
    try (destruct tokenResult as [te|tok]; cbn;
         [destruct (String.eqb platformOS "android"
                    && includes (message te) "FirebaseApp"); cbn|]);
    (split; [|split; [|split; [|eexists; reflexivity]]]);
    try (intros token); split; intros Hh;
    repeat match goal with
      | Hx : _ \/ _ |- _ => destruct Hx
      | Hx : _ /\ _ |- _ => destruct Hx
      | Hx : ex _ |- _ => destruct Hx
      | Hx : False |- _ => destruct Hx
      | Hx : inr _ = inr _ |- _ => injection Hx as <-
      | Hx : Some _ = Some _ |- _ => injection Hx as <-
      end;
    try congruence; eauto 10.
Qed.

(** X25. [NotificationService.requestPermissions] takes the same permission
    steps: it returns true exactly when the permission is granted in the
    end, and the calls of [registerForPushNotifications] are its calls,
    followed by the token call exactly when it returns true. *)
Theorem requestPermissions_agrees (platformOS : string)
    (existing requested tokenResult : JsError + string) :
  let rp := requestPermissions existing requested in
  let rg := registerForPushNotifications platformOS existing requested tokenResult in
  (fst rp = inr true <-> granted_finally existing requested)
  /\ snd rg
     = snd rp ++ match fst rp with
                 | inr true => [GetExpoPushToken]
                 | _ => []
                 end.
Proof.
  unfold granted_finally, requestPermissions, registerForPushNotifications.
  destruct existing as [e|st]; cbn.
  { split; [split; [discriminate|]|reflexivity].
    intros [Hx | (st & Hx & _)]; discriminate. }
  destruct (String.eqb st "granted") eqn:Est; cbn.
  { apply String.eqb_eq in Est. subst st. cbn.
    split; [split; auto|].
    destruct tokenResult as [te|tok]; cbn; [|reflexivity].
    now destruct (String.eqb platformOS "android"
                  && includes (message te) "FirebaseApp"). }
  apply String.eqb_neq in Est.
  destruct requested as [e|st']; cbn.
  { split; [split; [discriminate|]|reflexivity].
    intros [[= Hx] | (st0 & _ & _ & Hx)]; [congruence | discriminate]. }
  destruct (String.eqb st' "granted") eqn:Est'; cbn.
  - apply String.eqb_eq in Est'. subst st'.
    split; [split; [intros _; right; exists st; auto | reflexivity]|].
    destruct tokenResult as [te|tok]; cbn; [|reflexivity].
    now destruct (String.eqb platformOS "android"
                  && includes (message te) "FirebaseApp").
  - apply String.eqb_neq in Est'.
    split; [split; [discriminate|]|reflexivity].
    intros [[= Hx] | (st0 & _ & _ & [= Hx])]; congruence.
Qed.




End PushMore.

(** ** Admin resource page *)

Module ResourcesFacts.
Import Resources.


Lemma group_loop_app (rs1 rs2 : list Resource) (m : gmap string (list Resource)) :
  group_loop (rs1 ++ rs2) m
  = match group_loop rs1 m with
    | Some m' => group_loop rs2 m'
    | None => None
    end.
Proof.
  revert m. induction rs1 as [|r rs1 IH]; intros m; [reflexivity|].
  cbn [app group_loop]. destruct (group_step m r); [apply IH | reflexivity].
Qed.

(** The group of a subject after a loop that did not throw, from the
    entries [m]. *)
Lemma group_loop_lookup (rs : list Resource) (m m' : gmap string (list Resource))
    (sid : string) :
  group_loop rs m = Some m' ->
  m' !! sid
  = match m !! sid, List.filter (of_subject sid) rs with
    | None, [] => None
    | None, r :: l => Some (r :: l)
    | Some g, l => Some (g ++ l)
    end.
Proof.
  revert m. induction rs as [|r rs IH]; intros m.
  - cbn. intros [= <-]. destruct (m !! sid); [now rewrite app_nil_r | reflexivity].
  - cbn [group_loop List.filter].
    destruct (group_step m r) as [m1|] eqn:Hstep; [|discriminate].
    intros Hloop. rewrite (IH _ Hloop). clear IH Hloop.
    unfold group_step in Hstep. unfold of_subject.
    destruct (truthy_val (res_subject_id r)) as [s|] eqn:Hs.
    + destruct (String.eqb_spec s sid) as [-> | Hne].
      * destruct (m !! sid) as [g|] eqn:Hm.
        -- injection Hstep as <-. rewrite lookup_insert_eq.
           now rewrite <- app_assoc.
        -- destruct (inherited sid); [discriminate|].
           injection Hstep as <-. now rewrite lookup_insert_eq.
      * destruct (m !! s) as [g|].
        -- injection Hstep as <-. now rewrite lookup_insert_ne.
        -- destruct (inherited s); [discriminate|].
           injection Hstep as <-. now rewrite lookup_insert_ne.
    + now injection Hstep as <-.
Qed.



(** X28. Expanding and collapsing a subject: toggling flips the membership of
    that subject in the set of expanded subjects and of no other, and
    toggling twice gives the set back. *)
Theorem toggleSubjectExpansion_flips (expanded : gset string) (sid : string) :
  (sid ∈ toggleSubjectExpansion expanded sid <-> sid ∉ expanded)
  /\ (forall other, other <> sid ->
        (other ∈ toggleSubjectExpansion expanded sid <-> other ∈ expanded))
  /\ toggleSubjectExpansion (toggleSubjectExpansion expanded sid) sid = expanded.
Proof.
  unfold toggleSubjectExpansion.
  destruct (decide (sid ∈ expanded)) as [Hin | Hout].
  - split; [|split].
    + rewrite elem_of_difference, elem_of_singleton. tauto.
    + intros other Hne. rewrite elem_of_difference, elem_of_singleton. tauto.
    + destruct (decide (sid ∈ expanded ∖ {[sid]})) as [Hc | _].
      * apply elem_of_difference in Hc as [_ Hc].
        now contradiction Hc; apply elem_of_singleton.
      * apply set_eq. intros x.
        rewrite elem_of_union, elem_of_difference, elem_of_singleton.
        destruct (decide (x = sid)) as [-> | Hne]; tauto.
  - split; [|split].
    + rewrite elem_of_union, elem_of_singleton. tauto.
    + intros other Hne. rewrite elem_of_union, elem_of_singleton. tauto.
    + destruct (decide (sid ∈ expanded ∪ {[sid]})) as [_ | Hc].
      * apply set_eq. intros x.
        rewrite elem_of_difference, elem_of_union, elem_of_singleton.
        destruct (decide (x = sid)) as [-> | Hne]; tauto.
      * contradiction Hc. apply elem_of_union. right. now apply elem_of_singleton.
Qed.

(** X29. Opening a resource for editing and saving it unchanged writes the
    resource back: name, link, category and activity as they are, and the
    description, subject and difficulty with an empty string turned into
    null; the row is stamped with the saving user as its creator. Saved
    again, the stored row does not change any more. *)
Theorem edit_save_round_trip (r : Resource) (userId : string) :
  let d := resourceDataOf (handleEditResource r) userId in
  stored (res_id r) d
  = mkResource (res_id r) (res_name r) (truthy_val (res_description r))
      (res_url r) (res_category r) (truthy_val (res_subject_id r))
      (truthy_val (res_difficulty_level r)) (res_is_active r)
  /\ data_created_by d = userId
  /\ stored (res_id r)
       (resourceDataOf (handleEditResource (stored (res_id r) d)) userId)
     = stored (res_id r) d.
Proof.
  destruct r as [rid name [[|c1 d1]|] url cat [[|c2 s2]|] [[|c3 l3]|] act];
    repeat split; reflexivity.
Qed.

(** X30. A resource created from the page's own 'new resource' button and
    saved without choosing a subject is stored with no subject, and the
    grouping passes over it: whatever else is loaded, the outcome of the
    grouping (the groups, or the exception) and so the page after the
    load are the same with and without it. It appears under no subject. *)
Theorem new_resource_without_subject_unlisted (form : ResourceFormData)
    (userId rid : string) (rs1 rs2 : list Resource) :
  form_subject_id form = form_subject_id (handleAddResource None) ->
  let r := stored rid (resourceDataOf form userId) in
  res_subject_id r = None
  /\ groupBySubject (Some (rs1 ++ r :: rs2)) = groupBySubject (Some (rs1 ++ rs2))
  /\ (forall subjectsQuery st,
        loadSubjectsAndResources subjectsQuery (inr (Some (rs1 ++ r :: rs2))) st
        = loadSubjectsAndResources subjectsQuery (inr (Some (rs1 ++ rs2))) st)
  /\ (forall m sid,
        groupBySubject (Some (rs1 ++ r :: rs2)) = Some m ->
        ~ In r (shown_rows m sid)).
Proof.
  intros Hsub r.
  assert (Hnone : res_subject_id r = None).
  { subst r. cbn. now rewrite Hsub. }
  assert (Hsame : groupBySubject (Some (rs1 ++ r :: rs2))
                  = groupBySubject (Some (rs1 ++ rs2))).
  { unfold groupBySubject. rewrite !group_loop_app.
    destruct (group_loop rs1 ∅) as [m1|]; [|reflexivity].
    cbn [group_loop]. unfold group_step. now rewrite Hnone. }
  split; [exact Hnone|]. split; [exact Hsame|]. split.
  - intros subjectsQuery st. unfold loadSubjectsAndResources.
    now rewrite Hsame.
  - intros m sid Hm Hin.
    unfold shown_rows in Hin.
    rewrite (group_loop_lookup _ ∅ m sid Hm), lookup_empty in Hin.
    assert (Hf : In r (List.filter (of_subject sid) (rs1 ++ r :: rs2))).
    { destruct (List.filter (of_subject sid) (rs1 ++ r :: rs2)); [destruct Hin | exact Hin]. }
    apply List.filter_In in Hf as [_ Hof]. unfold of_subject in Hof.
    rewrite Hnone in Hof. discriminate.
Qed.

End ResourcesFacts.

(** ** Instances of the conditional properties *)

Module MoreWitnesses.
Import Stream SpecPlatform Samples MoreSamples.
Import App (AppNavigator).

#[local] Existing Instance open_lib.

Lemma call_lifecycle_witness :
  exists u cid,
    user auth_student = Some u
    /\ Identity.createVideoCallId (@id_ok _ open_lib) (user_id u) "u2" = inr cid
    /\ call_u1_u2 = SdkCall "default" cid
    /\ log (snd (endVideoCall in_call_world))
       = log ready_world ++ [OpGetOrCreate cid [user_id u; "u2"];
                             OpJoin call_u1_u2; OpLeave call_u1_u2]
    /\ videoCall (ctx in_call_world) = Some call_u1_u2
    /\ videoCall (ctx (snd (endVideoCall in_call_world))) = None.
Proof.
  apply (@StreamMore.call_lifecycle _ open_lib auth_student "u2" ready_world
           after_first_call in_call_world (snd (endVideoCall in_call_world))
           call_u1_u2); vm_compute; reflexivity.
Defined.

Lemma signOut_not_final_witness :
  Async.pending waiting_for_token
  = [Async.AwaitToken (mkStreamUser "u1" "Student One") (inr "token-u1")]
  /\ (let back :=
        @Async.run_provider _ open_lib false waiting_for_token
          [Async.Do (AuthChanged App.signedOut); Async.Settle 0; Async.Settle 0] in
      Async.pauth back = App.signedOut
      /\ videoClient (ctx (Async.pworld back)) = Some client_u1
      /\ isStreamReady (ctx (Async.pworld back)) = true)
  /\ Async.pending waiting_for_call = [Async.AwaitGetOrCreate call_u1_u2 None]
  /\ (let back :=
        @Async.run_provider _ open_lib false waiting_for_call
          [Async.Do (AuthChanged App.signedOut); Async.Settle 0] in
      videoCall (ctx (Async.pworld back)) = Some call_u1_u2
      /\ videoClient (ctx (Async.pworld back)) = None).
Proof.
  split; [reflexivity|]. split; [|split; [reflexivity|]].
  - destruct (@AsyncFacts.signOut_not_final _ open_lib false App.signedOut
                waiting_for_token eq_refl)
      as (_ & _ & _ & Htoken & _).
    destruct (Htoken 0%nat (mkStreamUser "u1" "Student One") "token-u1"
                eq_refl eq_refl)
      as (Hauth & Hvideo & _ & Hready).
    split; [exact Hauth|]. split; [exact Hvideo | exact Hready].
  - destruct (@AsyncFacts.signOut_not_final _ open_lib false App.signedOut
                waiting_for_call eq_refl)
      as (_ & _ & _ & _ & Hcall).
    destruct (Hcall 0%nat call_u1_u2 eq_refl) as (_ & Hheld & Hclient).
    split; [exact Hheld | exact Hclient].
Defined.


Lemma press_card_selects_witness :
  CoachStudent.selectedStudent
    (App.coachStudent (sample_step coach_selecting (App.PressStudent 0)))
  = Some student1
  /\ nth_error (CoachStudent.availableStudents (App.coachStudent coach_selecting)) 0
     = Some student1
  /\ AppNavigator (sample_step coach_selecting (App.PressStudent 0))
     = App.MainTabsScreen
  /\ CoachStudent.availableStudents
       (App.coachStudent (sample_step coach_selecting (App.PressStudent 0)))
     = CoachStudent.availableStudents (App.coachStudent coach_selecting)
  /\ App.world (sample_step coach_selecting (App.PressStudent 0))
     = App.world coach_selecting.
Proof.
  apply (@AppMore.press_card_selects _ open_lib false true sample_dateTimeMs
           coach_selecting (Navigator.SelectionPage None false [student1])
           0%nat student1).
  - vm_compute. reflexivity.
  - reflexivity.
Defined.

Lemma coach_on_main_tabs_has_partner_witness :
  exists student,
    CoachStudent.selectedStudent
      (App.coachStudent
         (sample_run (App.initialApp auth_coach ready_world) coach_pick_events))
    = Some student
    /\ App.partner
         (sample_run (App.initialApp auth_coach ready_world) coach_pick_events)
         None
       = Some student.
Proof.
  apply (@AppMore.coach_on_main_tabs_has_partner _ open_lib false true
           sample_dateTimeMs auth_coach ready_world coach_pick_events None).
  - reflexivity.
  - vm_compute. reflexivity.
Defined.

Lemma status_matches_handler_witness :
  exists st,
    Home.getSessionStatus sample_dateTimeMs session1 (sample_start - 1200000)
    = Ok st
    /\ match Home.text st with
       | Home.MinutesLater m =>
           Home.canJoin st = false
           /\ @Home.handleJoinSession _ open_lib false auth_student
                sample_dateTimeMs session1 (sample_start - 1200000) ready_world
              = (Ok (Home.AlertNotStarted m), ready_world)
       | Home.EndedText =>
           Home.canJoin st = false
           /\ @Home.handleJoinSession _ open_lib false auth_student
                sample_dateTimeMs session1 (sample_start - 1200000) ready_world
              = (Ok Home.AlertEnded, ready_world)
       | Home.CanJoinText =>
           Home.canJoin st = true
           /\ @Home.handleJoinSession _ open_lib false auth_student
                sample_dateTimeMs session1 (sample_start - 1200000) ready_world
              = @Home.join_call _ open_lib false auth_student session1 ready_world
       end.
Proof.
  apply (@HomeMore.status_matches_handler _ open_lib auth_student
           sample_dateTimeMs session1 (sample_start - 1200000) ready_world
           "14:30:00" sample_start); reflexivity.
Defined.

Lemma status_moves_forward_witness :
  (HomeSpec.joinable sample_dateTimeMs session1 (sample_start - 600000) = true ->
   HomeSpec.joinable sample_dateTimeMs session1 (sample_start + 600000) = true ->
   HomeSpec.joinable sample_dateTimeMs session1 sample_start = true)
  /\ (HomeSpec.ended sample_dateTimeMs session1 (sample_start - 600000) = true ->
      HomeSpec.ended sample_dateTimeMs session1 sample_start = true).
Proof.
  apply (HomeMore.status_moves_forward sample_dateTimeMs session1
           (sample_start - 600000) sample_start (sample_start + 600000)).
  unfold sample_start. lia.
Defined.

Lemma loadStudents_lists_active_witness :
  CoachStudent.availableStudents
    (CoachStudent.loadStudents (Some coach2) true
       (CoachStudent.BackendServing db_active)
       CoachStudent.initialCoachStudentState)
  = [student1]
  /\ (In student1
        (CoachStudent.availableStudents
           (CoachStudent.loadStudents (Some coach2) true
              (CoachStudent.BackendServing db_active)
              CoachStudent.initialCoachStudentState))
      <-> exists a,
            In a (CoachStudent.coach_student_assignments db_active)
            /\ CoachStudent.coach_id a = profile_id coach2
            /\ CoachStudent.is_active a = true
            /\ CoachStudent.student_id a = profile_id student1
            /\ CoachStudent.profile_by_id db_active (CoachStudent.student_id a)
               = Some student1).
Proof.
  split; [reflexivity|].
  destruct (CoachMore.loadStudents_lists_active coach2 db_active
              CoachStudent.initialCoachStudentState eq_refl)
    as (_ & _ & _ & Hlist).
  exact (Hlist student1).
Defined.

Lemma reminders_prefix_of_due_witness :
  exists skipped,
    Scheduler.due_kinds sample_start (sample_start - 7200000)
    = map Notifications.kind
        (Notifications.scheduleSessionReminders sample_dateTimeMs (fun _ => true)
           session1 (sample_start - 7200000) [])
      ++ skipped
    /\ Forall (fun r => Notifications.sessionId r = Home.task_id session1
                        /\ Notifications.sessionTitle r = Home.title session1
                        /\ Some (Notifications.sessionTime r)
                           = Home.scheduled_start_time session1
                        /\ Notifications.trigger r
                           = JS.Num (sample_start
                                     - Notifications.offset_ms (Notifications.kind r)))
         (Notifications.scheduleSessionReminders sample_dateTimeMs (fun _ => true)
            session1 (sample_start - 7200000) []).
Proof.
  apply (NotifMore.reminders_prefix_of_due sample_dateTimeMs (fun _ => true)
           session1 (sample_start - 7200000) sample_start).
  - reflexivity.
  - unfold sample_start. lia.
Defined.

Lemma sample_queue_distinct : List.NoDup (map Scheduler.identifier sample_queue).
Proof.
  cbn. repeat (apply List.NoDup_cons; [cbn; intros Hin; intuition discriminate|]).
  apply List.NoDup_nil.
Defined.

Lemma cancelSessionReminders_only_own_witness :
  Scheduler.cancelSessionReminders (fun _ => true) true "t1" sample_queue
  = [Scheduler.mkScheduled 1
       (Some (Scheduler.mkData (Some "session_reminder") (Some "t2")));
     Scheduler.mkScheduled 2 None].
Proof.
  destruct (NotifMore.cancelSessionReminders_only_own (fun _ => true) true "t1"
              sample_queue sample_queue_distinct)
    as (_ & _ & Hall).
  rewrite Hall; reflexivity.
Defined.

Lemma schedule_then_cancel_witness :
  length (Scheduler.queue
            (Scheduler.scheduleOnOS sample_dateTimeMs (fun _ => true) session1
               (sample_start - 7200000) sample_os))
  = 6%nat
  /\ Scheduler.cancelSessionReminders (fun _ => true) true "t1"
       (Scheduler.queue
          (Scheduler.scheduleOnOS sample_dateTimeMs (fun _ => true) session1
             (sample_start - 7200000) sample_os))
     = List.filter (fun n => negb (Scheduler.is_reminder_of "t1" n)) sample_queue.
Proof.
  destruct (NotifMore.schedule_then_cancel sample_dateTimeMs (fun _ => true)
              session1 (sample_start - 7200000) sample_os)
    as (_ & Hlen & Hcancel & _).
  - split; [exact sample_queue_distinct|].
    repeat (apply List.Forall_cons; [cbn; lia|]). apply List.Forall_nil.
  - split; [rewrite Hlen; reflexivity | exact Hcancel].
Defined.

Lemma new_resource_without_subject_unlisted_witness :
  Resources.res_subject_id
    (Resources.stored "r2" (Resources.resourceDataOf new_form "admin")) = None
  /\ Resources.groupBySubject
       (Some ([resource1]
              ++ Resources.stored "r2" (Resources.resourceDataOf new_form "admin")
              :: []))
     = Resources.groupBySubject (Some ([resource1] ++ [])).
Proof.
  destruct (ResourcesFacts.new_resource_without_subject_unlisted new_form "admin"
              "r2" [resource1] [] eq_refl)
    as (Hnone & Hsame & _).
  split; [exact Hnone | exact Hsame].
Defined.

(** One resource whose subject is called 'constructor' breaks the
    grouping: the loop throws, and the page keeps the groups it had (here
    none), although the query returned two resources. *)
Example grouping_breaks_on_inherited_key :
  Resources.groupBySubject (Some [resource1; resource_constructor]) = None
  /\ Resources.resources
       (Resources.loadSubjectsAndResources
          (inr (Some [Resources.mkSubject "s1" "Mathematics"]))
          (inr (Some [resource1; resource_constructor]))
          (Resources.mkPage [] ∅ true))
     = ∅
  /\ exists m,
       Resources.groupBySubject (Some [resource1]) = Some m
       /\ Resources.shown_rows m "s1" = [resource1].
Proof.
  split; [reflexivity|]. split; [reflexivity|].
  eexists. split; reflexivity.
Qed.

End MoreWitnesses.
